(** * DBOS Transact (Python): system database, queue dispatcher, recovery
    and application database journal

    A shallow embedding of [dbos/system_database.py], [dbos/queue.py],
    [dbos/_recovery.py] and [dbos/application_database.py].

    PostgreSQL tables are lists of rows in table order; a statement run on a
    connection is a function on the tables that either yields the new tables
    or a SQLSTATE; an [async with engine.begin()] block is [transaction],
    which commits on return and restores the tables on an exception.
    Python dicts keep insertion order and are association lists; Python sets
    are [gset]s. *)

From Stdlib Require Import ZArith QArith Ascii String DecimalString.
From stdpp Require Import gmap strings list sorting.

Open Scope string_scope.
Open Scope list_scope.
Open Scope Z_scope.

(** ** Python values, exceptions and outcomes *)

(** The fragment of Python's [Any] that the modelled calls exchange. *)
Inductive pyval :=
| PyNone
| PyFloat (q : Q)
| PyInt (z : Z)
| PyStr (s : string).

(** [dbos.utils.serialize] / [dbos.utils.deserialize] (jsonpickle); the module
    is not part of the modelled files, so the pair is an interface. *)
Class Serializer := {
  serialize : pyval -> string;
  deserialize : string -> pyval
}.

Inductive exn :=
| AssertionError (msg : string)
| DBAPIError (sqlstate : string)
| DBOSWorkflowConflictIDError (workflow_uuid : string)
| DBOSNonExistentWorkflowError (destination_uuid : string)
| PyException (msg : string)
| TypeError.

Inductive outcome (A : Type) :=
| Return (a : A)
| Raise (e : exn).
Arguments Return {A} a.
Arguments Raise {A} e.

(** ** Insertion-ordered dictionaries *)

Module PyDict.
Section dict.
Context {V : Type}.

Definition t := list (string * V).

(** [list(d)] *)
Definition keys (d : t) : list string := map fst d.

(** [d.get(k)] *)
Fixpoint get (k : string) (d : t) : option V :=
  match d with
  | [] => None
  | (k', v) :: d' => if String.eqb k k' then Some v else get k d'
  end.

(** [d[k] = v]: an existing key keeps its position, a new one goes last. *)
Fixpoint set (k : string) (v : V) (d : t) : t :=
  match d with
  | [] => [(k, v)]
  | (k', v') :: d' =>
      if String.eqb k k' then (k, v) :: d' else (k', v') :: set k v d'
  end.

Fixpoint remove (k : string) (d : t) : t :=
  match d with
  | [] => []
  | (k', v') :: d' =>
      if String.eqb k k' then d' else (k', v') :: remove k d'
  end.

(** [d.pop(k, None)] *)
Definition pop (k : string) (d : t) : option V * t := (get k d, remove k d).

(** [d.update(other)] *)
Definition update (other : t) (d : t) : t :=
  fold_left (fun acc kv => set (fst kv) (snd kv) acc) other d.
End dict.
Arguments t : clear implicits.
End PyDict.

(** ** Schema *)

(** [WorkflowStatusString] and the [.value] of each member. *)
Inductive WorkflowStatusString :=
| PENDING | SUCCESS | ERROR | RETRIES_EXCEEDED | CANCELLED | ENQUEUED.

Definition value (s : WorkflowStatusString) : string :=
  match s with
  | PENDING => "PENDING"
  | SUCCESS => "SUCCESS"
  | ERROR => "ERROR"
  | RETRIES_EXCEEDED => "RETRIES_EXCEEDED"
  | CANCELLED => "CANCELLED"
  | ENQUEUED => "ENQUEUED"
  end.

Record WorkflowStatusInternal := {
  workflow_uuid : string;
  status : string;
  name : string;
  class_name : option string;
  config_name : option string;
  output : option string;
  error : option string;
  executor_id : option string;
  app_version : option string;
  app_id : option string;
  request : option string;
  recovery_attempts : option Z;
  authenticated_user : option string;
  assumed_role : option string;
  authenticated_roles : option string;
  queue_name : option string
}.

Record RecordedResult := {
  rr_output : option string;
  rr_error : option string
}.

Record OperationResultInternal := {
  or_workflow_uuid : string;
  or_function_id : Z;
  or_output : option string;
  or_error : option string
}.

(** Modelled from the spec: [dbos/schemas/system_database.py] is not among
    the modelled files; the columns and keys are those of the spec's data
    model (section 3). *)
Module SystemSchema.

(** [workflow_status]: primary key [workflow_uuid]; [recovery_attempts]
    defaults to 0 and [created_at] is set by the server. *)
Record workflow_status_row := {
  ws_workflow_uuid : string;
  ws_status : string;
  ws_name : string;
  ws_class_name : option string;
  ws_config_name : option string;
  ws_output : option string;
  ws_error : option string;
  ws_executor_id : option string;
  ws_application_version : option string;
  ws_application_id : option string;
  ws_request : option string;
  ws_recovery_attempts : Z;
  ws_authenticated_user : option string;
  ws_authenticated_roles : option string;
  ws_assumed_role : option string;
  ws_queue_name : option string;
  ws_created_at : Z
}.

(** [workflow_inputs]: primary key [workflow_uuid], foreign key to
    [workflow_status]. *)
Record workflow_inputs_row := {
  wi_workflow_uuid : string;
  wi_inputs : string
}.

(** [operation_outputs]: primary key ([workflow_uuid], [function_id]). *)
Record operation_outputs_row := {
  oo_workflow_uuid : string;
  oo_function_id : Z;
  oo_output : option string;
  oo_error : option string
}.

(** [notifications]: [destination_uuid] is a foreign key to
    [workflow_status]; [created_at_epoch_ms] is set by the server. *)
Record notifications_row := {
  n_destination_uuid : string;
  n_topic : string;
  n_message : string;
  n_created_at_epoch_ms : Z
}.

(** [job_queue]: primary key [workflow_uuid]; [created_at_epoch_ms] is set
    by the server. *)
Record job_queue_row := {
  jq_workflow_uuid : string;
  jq_queue_name : string;
  jq_created_at_epoch_ms : Z
}.

Record tables := {
  workflow_status : list workflow_status_row;
  workflow_inputs : list workflow_inputs_row;
  operation_outputs : list operation_outputs_row;
  notifications : list notifications_row;
  job_queue : list job_queue_row
}.

Definition empty : tables :=
  {| workflow_status := []; workflow_inputs := []; operation_outputs := [];
     notifications := []; job_queue := [] |}.

Definition with_workflow_status (l : list workflow_status_row) (t : tables) :=
  {| workflow_status := l; workflow_inputs := workflow_inputs t;
     operation_outputs := operation_outputs t;
     notifications := notifications t; job_queue := job_queue t |}.

Definition with_workflow_inputs (l : list workflow_inputs_row) (t : tables) :=
  {| workflow_status := workflow_status t; workflow_inputs := l;
     operation_outputs := operation_outputs t;
     notifications := notifications t; job_queue := job_queue t |}.

Definition with_operation_outputs (l : list operation_outputs_row) (t : tables) :=
  {| workflow_status := workflow_status t;
     workflow_inputs := workflow_inputs t; operation_outputs := l;
     notifications := notifications t; job_queue := job_queue t |}.

Definition with_notifications (l : list notifications_row) (t : tables) :=
  {| workflow_status := workflow_status t;
     workflow_inputs := workflow_inputs t;
     operation_outputs := operation_outputs t;
     notifications := l; job_queue := job_queue t |}.

Definition with_job_queue (l : list job_queue_row) (t : tables) :=
  {| workflow_status := workflow_status t;
     workflow_inputs := workflow_inputs t;
     operation_outputs := operation_outputs t;
     notifications := notifications t; job_queue := l |}.

(** SQLSTATE of a unique violation and of a foreign-key violation. *)
Definition unique_violation : string := "23505".
Definition foreign_key_violation : string := "23503".

Definition has_workflow (uuid : string) (t : tables) : bool :=
  existsb (fun r => String.eqb (ws_workflow_uuid r) uuid) (workflow_status t).

(** [INSERT INTO operation_outputs]: the primary key rejects a second row
    for the same ([workflow_uuid], [function_id]). *)
Definition has_operation_output (uuid : string) (function_id : Z)
    (t : tables) : bool :=
  existsb (fun r => String.eqb (oo_workflow_uuid r) uuid
                    && Z.eqb (oo_function_id r) function_id)
          (operation_outputs t).

Definition insert_operation_outputs (r : operation_outputs_row) (t : tables)
  : string + tables :=
  if has_operation_output (oo_workflow_uuid r) (oo_function_id r) t
  then inl unique_violation
  else inr (with_operation_outputs (operation_outputs t ++ [r]) t).

(** [INSERT INTO notifications]: the foreign key rejects a destination
    without a [workflow_status] row. *)
Definition insert_notifications (r : notifications_row) (t : tables)
  : string + tables :=
  if has_workflow (n_destination_uuid r) t
  then inr (with_notifications (notifications t ++ [r]) t)
  else inl foreign_key_violation.

End SystemSchema.

(** ** The system database *)

Module SystemDatabase.
Import SystemSchema.

Definition dbos_null_topic : string := "__null__topic__".
Definition buffer_flush_batch_size : Z := 100.

(** An [AsyncConnection] handed to a callee that joins the caller's
    transaction. *)
Inductive AsyncConnection := Connection.

(** The statements the buffered writer sends, in the order sent; the record
    of what was sent is not undone by a rollback. *)
Inductive statement :=
| UpsertWorkflowStatus (workflow_uuid : string)
| InsertWorkflowInputs (workflow_uuid : string).

(** The state of a [SystemDatabase] object: the PostgreSQL tables behind its
    engine and its in-memory buffers and tracking sets. *)
Record t := {
  db : tables;
  _workflow_status_buffer : PyDict.t WorkflowStatusInternal;
  _workflow_inputs_buffer : PyDict.t string;
  _exported_temp_txn_wf_status : gset string;
  _temp_txn_wf_ids : gset string;
  _is_flushing_status_buffer : bool;
  sent : list statement
}.

Definition init (d : tables) : t :=
  {| db := d; _workflow_status_buffer := []; _workflow_inputs_buffer := [];
     _exported_temp_txn_wf_status := ∅; _temp_txn_wf_ids := ∅;
     _is_flushing_status_buffer := false; sent := [] |}.

Definition set_db (d : tables) (s : t) : t :=
  {| db := d; _workflow_status_buffer := _workflow_status_buffer s;
     _workflow_inputs_buffer := _workflow_inputs_buffer s;
     _exported_temp_txn_wf_status := _exported_temp_txn_wf_status s;
     _temp_txn_wf_ids := _temp_txn_wf_ids s;
     _is_flushing_status_buffer := _is_flushing_status_buffer s;
     sent := sent s |}.

Definition set_status_buffer (b : PyDict.t WorkflowStatusInternal) (s : t) : t :=
  {| db := db s; _workflow_status_buffer := b;
     _workflow_inputs_buffer := _workflow_inputs_buffer s;
     _exported_temp_txn_wf_status := _exported_temp_txn_wf_status s;
     _temp_txn_wf_ids := _temp_txn_wf_ids s;
     _is_flushing_status_buffer := _is_flushing_status_buffer s;
     sent := sent s |}.

Definition set_inputs_buffer (b : PyDict.t string) (s : t) : t :=
  {| db := db s; _workflow_status_buffer := _workflow_status_buffer s;
     _workflow_inputs_buffer := b;
     _exported_temp_txn_wf_status := _exported_temp_txn_wf_status s;
     _temp_txn_wf_ids := _temp_txn_wf_ids s;
     _is_flushing_status_buffer := _is_flushing_status_buffer s;
     sent := sent s |}.

Definition set_exported (e : gset string) (s : t) : t :=
  {| db := db s; _workflow_status_buffer := _workflow_status_buffer s;
     _workflow_inputs_buffer := _workflow_inputs_buffer s;
     _exported_temp_txn_wf_status := e;
     _temp_txn_wf_ids := _temp_txn_wf_ids s;
     _is_flushing_status_buffer := _is_flushing_status_buffer s;
     sent := sent s |}.

Definition set_temp (e : gset string) (s : t) : t :=
  {| db := db s; _workflow_status_buffer := _workflow_status_buffer s;
     _workflow_inputs_buffer := _workflow_inputs_buffer s;
     _exported_temp_txn_wf_status := _exported_temp_txn_wf_status s;
     _temp_txn_wf_ids := e;
     _is_flushing_status_buffer := _is_flushing_status_buffer s;
     sent := sent s |}.

Definition set_is_flushing (b : bool) (s : t) : t :=
  {| db := db s; _workflow_status_buffer := _workflow_status_buffer s;
     _workflow_inputs_buffer := _workflow_inputs_buffer s;
     _exported_temp_txn_wf_status := _exported_temp_txn_wf_status s;
     _temp_txn_wf_ids := _temp_txn_wf_ids s;
     _is_flushing_status_buffer := b;
     sent := sent s |}.

Definition send_statement (st : statement) (s : t) : t :=
  {| db := db s; _workflow_status_buffer := _workflow_status_buffer s;
     _workflow_inputs_buffer := _workflow_inputs_buffer s;
     _exported_temp_txn_wf_status := _exported_temp_txn_wf_status s;
     _temp_txn_wf_ids := _temp_txn_wf_ids s;
     _is_flushing_status_buffer := _is_flushing_status_buffer s;
     sent := sent s ++ [st] |}.

(** *** Methods as state transformers that may raise *)

Definition M (A : Type) : Type := t -> outcome A * t.

Definition ret {A} (a : A) : M A := fun s => (Return a, s).
Definition raise {A} (e : exn) : M A := fun s => (Raise e, s).
Definition bind {A B} (m : M A) (k : A -> M B) : M B :=
  fun s => match m s with
           | (Return a, s') => k a s'
           | (Raise e, s') => (Raise e, s')
           end.

Notation "x <- m ;; k" := (bind m (fun x => k))
  (at level 100, m at next level, right associativity).
Notation "m ;; k" := (bind m (fun _ => k))
  (at level 100, right associativity).

(** [try: m except e: h e] *)
Definition try_except {A} (m : M A) (h : exn -> M A) : M A :=
  fun s => match m s with
           | (Return a, s') => (Return a, s')
           | (Raise e, s') => h e s'
           end.

(** [async with self.async_engine.begin() as c: body]: commit when the body
    returns, roll the tables back when it raises. *)
Definition transaction {A} (body : M A) : M A :=
  fun s => match body s with
           | (Return a, s') => (Return a, s')
           | (Raise e, s') => (Raise e, set_db (db s) s')
           end.

(** [await c.execute(stmt)] for a statement that changes the tables or fails
    with a SQLSTATE. *)
Definition execute (stmt : tables -> string + tables) : M unit :=
  fun s => match stmt (db s) with
           | inr d => (Return tt, set_db d s)
           | inl sqlstate => (Raise (DBAPIError sqlstate), s)
           end.

(** A query: reads the tables. *)
Definition query {A} (q : tables -> A) : M A := fun s => (Return (q (db s)), s).

(** What other processes do to the tables between two transactions of one
    method. *)
Definition yield_to (env : tables -> tables) : M unit :=
  fun s => (Return tt, set_db (env (db s)) s).

(** Run on the caller's connection when one is given, else in a transaction
    of its own. *)
Definition on_connection {A} (conn : option AsyncConnection) (m : M A) : M A :=
  match conn with
  | Some _ => m
  | None => transaction m
  end.

(** *** Operation outputs (lines 573-623) *)

Definition is_None {A} (o : option A) : bool :=
  match o with None => true | Some _ => false end.

Definition record_operation_result (result : OperationResultInternal)
    (conn : option AsyncConnection) : M unit :=
  let error := or_error result in
  let output := or_output result in
  if negb (is_None error || is_None output) then
    raise (AssertionError "Only one of error or output can be set")
  else
    let sql := insert_operation_outputs
                 {| oo_workflow_uuid := or_workflow_uuid result;
                    oo_function_id := or_function_id result;
                    oo_output := output;
                    oo_error := error |} in
    try_except (on_connection conn (execute sql))
      (fun e => match e with
                | DBAPIError sqlstate =>
                    if String.eqb sqlstate "23505"
                    then raise (DBOSWorkflowConflictIDError (or_workflow_uuid result))
                    else raise e
                | _ => raise e
                end).

Definition select_operation_outputs (workflow_uuid : string) (function_id : Z)
    (d : tables) : list operation_outputs_row :=
  filter (fun r => oo_workflow_uuid r = workflow_uuid
                   /\ oo_function_id r = function_id) (operation_outputs d).

Definition check_operation_execution (workflow_uuid : string) (function_id : Z)
    (conn : option AsyncConnection) : M (option RecordedResult) :=
  rows <- on_connection conn (query (select_operation_outputs workflow_uuid function_id)) ;;
  match rows with
  | [] => ret None
  | r :: _ => ret (Some {| rr_output := oo_output r; rr_error := oo_error r |})
  end.

(** *** Statements the server fails *)

(** A statement can fail for a reason the modelled tables do not show: a
    lost connection, or a constraint of the deployed schema that the
    modelled files do not declare, as a foreign key from
    [operation_outputs] to [workflow_status]. [fault] is the SQLSTATE of
    the [DBAPIError] the driver then raises in place of running the
    statement. *)
Definition failing_with (fault : option string) : M unit :=
  match fault with
  | Some sqlstate => raise (DBAPIError sqlstate)
  | None => ret tt
  end.

(** [record_operation_result] (lines 573-594) with the fault of its
    [INSERT] made explicit; without a fault it is
    [record_operation_result]. *)
Definition record_operation_result_on (fault : option string)
    (result : OperationResultInternal) (conn : option AsyncConnection) : M unit :=
  let error := or_error result in
  let output := or_output result in
  if negb (is_None error || is_None output) then
    raise (AssertionError "Only one of error or output can be set")
  else
    let sql := insert_operation_outputs
                 {| oo_workflow_uuid := or_workflow_uuid result;
                    oo_function_id := or_function_id result;
                    oo_output := output;
                    oo_error := error |} in
    try_except (on_connection conn (failing_with fault ;; execute sql))
      (fun e => match e with
                | DBAPIError sqlstate =>
                    if String.eqb sqlstate "23505"
                    then raise (DBOSWorkflowConflictIDError (or_workflow_uuid result))
                    else raise e
                | _ => raise e
                end).

(** *** send (lines 625-660) *)

Section messaging.
Context `{Serializer}.

(** [insert_fault] and [journal_fault] are the faults of the two [INSERT]s
    of the call: the one into [notifications] and the one
    [record_operation_result] issues. *)
Definition send (insert_fault journal_fault : option string) (now_ms : Z)
    (workflow_uuid : string) (function_id : Z)
    (destination_uuid : string) (message : pyval) (topic : option string)
    : M unit :=
  let topic := match topic with Some tp => tp | None => dbos_null_topic end in
  transaction (
    recorded_output <- check_operation_execution workflow_uuid function_id (Some Connection) ;;
    match recorded_output with
    | Some _ => ret tt
    | None =>
        try_except
          (failing_with insert_fault ;;
           execute (insert_notifications
                      {| n_destination_uuid := destination_uuid;
                         n_topic := topic;
                         n_message := serialize message;
                         n_created_at_epoch_ms := now_ms |}))
          (fun e => match e with
                    | DBAPIError sqlstate =>
                        if String.eqb sqlstate "23503"
                        then raise (DBOSNonExistentWorkflowError destination_uuid)
                        else raise e
                    | _ => raise e
                    end) ;;
        record_operation_result_on journal_fault
          {| or_workflow_uuid := workflow_uuid; or_function_id := function_id;
             or_output := None; or_error := None |}
          (Some Connection)
    end).

(** *** Durable sleep (lines 815-845) *)

(** [max(0, x)] *)
Definition max0 (x : Q) : Q := if Qle_bool x 0 then 0%Q else x.

(** [sleep] reads [time.time()] twice: [time1] where it computes the end
    time, [time2] where it computes the duration. The check and the journal
    write are two transactions; [env] is what other processes do between
    them. The result pairs the returned duration with the argument of
    [time.sleep], if it was called. *)
Definition sleep (env : tables -> tables) (time1 time2 : Q)
    (workflow_uuid : string) (function_id : Z) (seconds : Q)
    (skip_sleep : bool) : M (Q * option Q) :=
  recorded_output <- check_operation_execution workflow_uuid function_id None ;;
  end_time <-
    match recorded_output with
    | Some r =>
        match rr_output r with
        | None => raise (AssertionError "no recorded end time")
        | Some o => ret (deserialize o)
        end
    | None =>
        let end_time := (time1 + seconds)%Q in
        yield_to env ;;
        try_except
          (record_operation_result
             {| or_workflow_uuid := workflow_uuid;
                or_function_id := function_id;
                or_output := Some (serialize (PyFloat end_time));
                or_error := None |} None)
          (fun e => match e with
                    | DBOSWorkflowConflictIDError _ => ret tt
                    | _ => raise e
                    end) ;;
        ret (PyFloat end_time)
    end ;;
  remaining <-
    match end_time with
    | PyFloat e => ret (e - time2)%Q
    | PyInt z => ret (inject_Z z - time2)%Q
    | _ => raise TypeError
    end ;;
  let duration := max0 remaining in
  ret (duration, if skip_sleep then None else Some duration).

(** *** recv (lines 662-756) *)

Definition select_notifications (workflow_uuid topic : string) (d : tables)
    : list notifications_row :=
  filter (fun n => n_destination_uuid n = workflow_uuid /\ n_topic n = topic)
         (notifications d).

(** [ORDER BY created_at_epoch_ms ASC] *)
Definition created_le (a b : notifications_row) : Prop :=
  n_created_at_epoch_ms a <= n_created_at_epoch_ms b.

#[export] Instance created_le_dec : RelDecision created_le.
Proof. intros a b. unfold created_le. apply _. Defined.

(** The common table expression [oldest_entry]: the matching rows, oldest
    first, [LIMIT 1]. *)
Definition oldest_entry (workflow_uuid topic : string) (d : tables)
    : list notifications_row :=
  take 1 (merge_sort created_le (select_notifications workflow_uuid topic d)).

(** The join condition of the [DELETE]: destination, topic and
    [created_at_epoch_ms] equal those of a row of the expression. *)
Definition joins_oldest (cte : list notifications_row) (n : notifications_row)
    : bool :=
  existsb (fun o => String.eqb (n_destination_uuid n) (n_destination_uuid o)
                    && String.eqb (n_topic n) (n_topic o)
                    && Z.eqb (n_created_at_epoch_ms n) (n_created_at_epoch_ms o))
          cte.

(** [DELETE FROM notifications USING oldest_entry WHERE ... RETURNING message] *)
Definition delete_oldest_entry (workflow_uuid topic : string) (d : tables)
    : list string * tables :=
  let cte := oldest_entry workflow_uuid topic d in
  (map n_message (List.filter (joins_oldest cte) (notifications d)),
   with_notifications
     (List.filter (fun n => negb (joins_oldest cte n)) (notifications d)) d).

(** [await c.execute(stmt)] for a statement that returns rows. *)
Definition execute_returning {A} (stmt : tables -> A * tables) : M A :=
  fun s => let '(a, d) := stmt (db s) in (Return a, set_db d s).

(** The last transaction of [recv] (lines 713-756). *)
Definition recv_consume (workflow_uuid : string) (function_id : Z)
    (topic : string) : M pyval :=
  transaction (
    rows <- execute_returning (delete_oldest_entry workflow_uuid topic) ;;
    let message := match rows with
                   | r :: _ => deserialize r
                   | [] => PyNone
                   end in
    record_operation_result
      {| or_workflow_uuid := workflow_uuid; or_function_id := function_id;
         or_output := Some (serialize message); or_error := None |}
      (Some Connection) ;;
    ret message).

(** The condition variable only bounds how long [recv] waits; [wait] is what
    other processes do to the tables meanwhile. *)
Definition recv (env wait : tables -> tables) (time1 time2 : Q)
    (workflow_uuid : string) (function_id timeout_function_id : Z)
    (topic : option string) (timeout_seconds : Q) : M pyval :=
  let topic := match topic with Some tp => tp | None => dbos_null_topic end in
  recorded_output <- check_operation_execution workflow_uuid function_id None ;;
  match recorded_output with
  | Some r =>
      match rr_output r with
      | Some o => ret (deserialize o)
      | None => raise (PyException "No output recorded in the last recv")
      end
  | None =>
      init_recv <- transaction (query (select_notifications workflow_uuid topic)) ;;
      match init_recv with
      | [] =>
          actual_timeout <- sleep env time1 time2 workflow_uuid
                              timeout_function_id timeout_seconds true ;;
          yield_to wait
      | _ :: _ => ret tt
      end ;;
      recv_consume workflow_uuid function_id topic
  end.

End messaging.

(** *** Workflow status (lines 231-309, 560-571) *)

Definition set_ws_status (v : string) (r : workflow_status_row) :=
  {| ws_workflow_uuid := ws_workflow_uuid r; ws_status := v;
     ws_name := ws_name r; ws_class_name := ws_class_name r;
     ws_config_name := ws_config_name r; ws_output := ws_output r;
     ws_error := ws_error r; ws_executor_id := ws_executor_id r;
     ws_application_version := ws_application_version r;
     ws_application_id := ws_application_id r; ws_request := ws_request r;
     ws_recovery_attempts := ws_recovery_attempts r;
     ws_authenticated_user := ws_authenticated_user r;
     ws_authenticated_roles := ws_authenticated_roles r;
     ws_assumed_role := ws_assumed_role r; ws_queue_name := ws_queue_name r;
     ws_created_at := ws_created_at r |}.

Definition set_ws_result (o e : option string) (r : workflow_status_row) :=
  {| ws_workflow_uuid := ws_workflow_uuid r; ws_status := ws_status r;
     ws_name := ws_name r; ws_class_name := ws_class_name r;
     ws_config_name := ws_config_name r; ws_output := o;
     ws_error := e; ws_executor_id := ws_executor_id r;
     ws_application_version := ws_application_version r;
     ws_application_id := ws_application_id r; ws_request := ws_request r;
     ws_recovery_attempts := ws_recovery_attempts r;
     ws_authenticated_user := ws_authenticated_user r;
     ws_authenticated_roles := ws_authenticated_roles r;
     ws_assumed_role := ws_assumed_role r; ws_queue_name := ws_queue_name r;
     ws_created_at := ws_created_at r |}.

Definition set_ws_recovery_attempts (v : Z) (r : workflow_status_row) :=
  {| ws_workflow_uuid := ws_workflow_uuid r; ws_status := ws_status r;
     ws_name := ws_name r; ws_class_name := ws_class_name r;
     ws_config_name := ws_config_name r; ws_output := ws_output r;
     ws_error := ws_error r; ws_executor_id := ws_executor_id r;
     ws_application_version := ws_application_version r;
     ws_application_id := ws_application_id r; ws_request := ws_request r;
     ws_recovery_attempts := v;
     ws_authenticated_user := ws_authenticated_user r;
     ws_authenticated_roles := ws_authenticated_roles r;
     ws_assumed_role := ws_assumed_role r; ws_queue_name := ws_queue_name r;
     ws_created_at := ws_created_at r |}.

(** The row [pg.insert(workflow_status).values(...)] inserts:
    [recovery_attempts] takes its default and [created_at] the server's
    clock. *)
Definition inserted_row (now_ms : Z) (st : WorkflowStatusInternal)
    : workflow_status_row :=
  {| ws_workflow_uuid := workflow_uuid st; ws_status := status st;
     ws_name := name st; ws_class_name := class_name st;
     ws_config_name := config_name st; ws_output := output st;
     ws_error := error st; ws_executor_id := executor_id st;
     ws_application_version := app_version st;
     ws_application_id := app_id st; ws_request := request st;
     ws_recovery_attempts := 0;
     ws_authenticated_user := authenticated_user st;
     ws_authenticated_roles := authenticated_roles st;
     ws_assumed_role := assumed_role st; ws_queue_name := queue_name st;
     ws_created_at := now_ms |}.

(** [INSERT INTO workflow_status ... ON CONFLICT]: [Some f] is
    [DO UPDATE SET] as [f] rewrites the conflicting row, [None] is
    [DO NOTHING]. *)
Definition insert_workflow_status (new : workflow_status_row)
    (on_conflict : option (workflow_status_row -> workflow_status_row))
    (d : tables) : string + tables :=
  if has_workflow (ws_workflow_uuid new) d then
    match on_conflict with
    | Some f =>
        inr (with_workflow_status
               (map (fun r => if String.eqb (ws_workflow_uuid r) (ws_workflow_uuid new)
                              then f r else r)
                    (workflow_status d)) d)
    | None => inr d
    end
  else inr (with_workflow_status (workflow_status d ++ [new]) d).

Definition modify (f : t -> t) : M unit := fun s => (Return tt, f s).

Definition update_workflow_status (now_ms : Z) (st : WorkflowStatusInternal)
    (replace in_recovery : bool) (conn : option AsyncConnection) : M unit :=
  let cmd :=
    insert_workflow_status (inserted_row now_ms st)
      (if replace then
         Some (fun r => set_ws_result (output st) (error st)
                          (set_ws_status (status st) r))
       else if in_recovery then
         Some (fun r => set_ws_recovery_attempts (ws_recovery_attempts r + 1) r)
       else None) in
  modify (send_statement (UpsertWorkflowStatus (workflow_uuid st))) ;;
  on_connection conn (execute cmd) ;;
  (* Record we have exported status for this single-transaction workflow *)
  s <- (fun s => (Return s, s)) ;;
  if decide (workflow_uuid st ∈ _temp_txn_wf_ids s) then
    modify (set_exported ({[workflow_uuid st]} ∪ _exported_temp_txn_wf_status s))
  else ret tt.

(** [UPDATE target SET ... FROM other WHERE cond]: a target row is rewritten
    when it joins some row of [other]; the result carries the row count. *)
Definition update_from {A B} (cond : A -> B -> bool) (f : A -> A)
    (target : list A) (other : list B) : Z * list A :=
  (Z.of_nat (length (List.filter (fun a => existsb (cond a) other) target)),
   map (fun a => if existsb (cond a) other then f a else a) target).

(** SQLSTATE of a value that cannot be cast to the type of its column. *)
Definition cannot_coerce : string := "42846".

(** The two statements of [set_workflow_status] update [workflow_status]
    under a [WHERE] that names [workflow_inputs.workflow_uuid]; SQLAlchemy
    renders this as [UPDATE workflow_status SET ... FROM workflow_inputs
    WHERE workflow_inputs.workflow_uuid = :uuid]. The second statement sets
    the integer column [recovery_attempts] to [reset_recovery_attempts]
    itself, the Python bool [True]: the server refuses the statement
    whatever the rows are. *)
Definition set_workflow_status (workflow_uuid : string)
    (status : WorkflowStatusString) (reset_recovery_attempts : bool) : M unit :=
  transaction (
    execute (fun d =>
      inr (with_workflow_status
             (snd (update_from
                     (fun _ wi => String.eqb (wi_workflow_uuid wi) workflow_uuid)
                     (set_ws_status (value status))
                     (workflow_status d) (workflow_inputs d))) d)) ;;
    if reset_recovery_attempts then
      execute (fun _ => inl cannot_coerce)
    else ret tt).

Definition get_pending_workflows (executor_id : string) : M (list string) :=
  transaction (
    query (fun d =>
      map ws_workflow_uuid
          (filter (fun r => ws_status r = value PENDING
                            /\ ws_executor_id r = Some executor_id)
                  (workflow_status d)))).

(** *** Workflow inputs (lines 486-506) *)

Definition has_inputs (uuid : string) (d : tables) : bool :=
  existsb (fun r => String.eqb (wi_workflow_uuid r) uuid) (workflow_inputs d).

(** [INSERT INTO workflow_inputs ... ON CONFLICT DO NOTHING]: a row with the
    same key is left alone; a new row needs its [workflow_status] row. *)
Definition insert_workflow_inputs (r : workflow_inputs_row) (d : tables)
    : string + tables :=
  if has_inputs (wi_workflow_uuid r) d then inr d
  else if has_workflow (wi_workflow_uuid r) d
       then inr (with_workflow_inputs (workflow_inputs d ++ [r]) d)
       else inl foreign_key_violation.

Definition update_workflow_inputs (workflow_uuid : string) (inputs : string)
    (conn : option AsyncConnection) : M unit :=
  let cmd := insert_workflow_inputs
               {| wi_workflow_uuid := workflow_uuid; wi_inputs := inputs |} in
  modify (send_statement (InsertWorkflowInputs workflow_uuid)) ;;
  on_connection conn (execute cmd) ;;
  s <- (fun s => (Return s, s)) ;;
  if decide (workflow_uuid ∈ _temp_txn_wf_ids s) then
    (* Clean up the single-transaction tracking sets *)
    modify (set_exported (_exported_temp_txn_wf_status s ∖ {[workflow_uuid]})) ;;
    modify (set_temp (_temp_txn_wf_ids s ∖ {[workflow_uuid]}))
  else ret tt.

(** *** The buffered writer (lines 953-1045) *)

Definition buffer_workflow_status (st : WorkflowStatusInternal) : M unit :=
  modify (fun s => set_status_buffer
                     (PyDict.set (workflow_uuid st) st (_workflow_status_buffer s)) s).

Definition buffer_workflow_inputs (workflow_id inputs : string) : M unit :=
  modify (fun s => set_inputs_buffer
                     (PyDict.set workflow_id inputs (_workflow_inputs_buffer s)) s) ;;
  modify (fun s => set_temp ({[workflow_id]} ∪ _temp_txn_wf_ids s) s).

Definition _is_buffers_empty (s : t) : bool :=
  (Z.of_nat (length (_workflow_status_buffer s)) =? 0)
  && (Z.of_nat (length (_workflow_inputs_buffer s)) =? 0).

(** [fault wf_id] is the exception, if any, with which the server fails the
    statement for [wf_id] during this pass; the statement is the first thing
    the callee does, so failing before the call is failing in it. *)
Definition failing (fault : string -> option exn) (wf_id : string) : M unit :=
  match fault wf_id with
  | Some e => raise e
  | None => ret tt
  end.

(** The [while] loop of [_flush_workflow_status_buffer]: [ids] is what is
    left of [status_iter], [d0] the tables at the start of the transaction. *)
Fixpoint flush_status_loop (now_ms : Z) (fault : string -> option exn)
    (d0 : tables) (ids : list string) (exported : Z)
    (exported_status : PyDict.t WorkflowStatusInternal) (s : t) : t :=
  if negb (exported <? buffer_flush_batch_size) then s
  else
    match ids with
    | [] => s
    | wf_id :: ids' =>
        (* Pop the first key in the buffer (FIFO) *)
        let '(st, buf) := PyDict.pop wf_id (_workflow_status_buffer s) in
        let s := set_status_buffer buf s in
        match st with
        | None => flush_status_loop now_ms fault d0 ids' exported exported_status s
        | Some st =>
            let exported_status := PyDict.set wf_id st exported_status in
            match (failing fault wf_id ;;
                   update_workflow_status now_ms st true false (Some Connection)) s with
            | (Return _, s) =>
                flush_status_loop now_ms fault d0 ids' (exported + 1) exported_status s
            | (Raise _, s) =>
                (* c.rollback(), then add the exported status back *)
                let s := set_db d0 s in
                set_status_buffer
                  (PyDict.update exported_status (_workflow_status_buffer s)) s
            end
        end
    end.

Definition _flush_workflow_status_buffer (now_ms : Z)
    (fault : string -> option exn) : M unit :=
  fun s =>
    if Z.of_nat (length (_workflow_status_buffer s)) =? 0 then (Return tt, s)
    else (Return tt,
          flush_status_loop now_ms fault (db s)
            (PyDict.keys (_workflow_status_buffer s)) 0 [] s).

(** The [while] loop of [_flush_workflow_inputs_buffer]. *)
Fixpoint flush_inputs_loop (fault : string -> option exn)
    (d0 : tables) (ids : list string) (exported : Z)
    (exported_inputs : PyDict.t string) (s : t) : t :=
  if negb (exported <? buffer_flush_batch_size) then s
  else
    match ids with
    | [] => s
    | wf_id :: ids' =>
        if decide (wf_id ∉ _exported_temp_txn_wf_status s) then
          (* Skip exporting inputs if the status has not been exported yet *)
          flush_inputs_loop fault d0 ids' exported exported_inputs s
        else
          let '(inputs, buf) := PyDict.pop wf_id (_workflow_inputs_buffer s) in
          let s := set_inputs_buffer buf s in
          match inputs with
          | None => flush_inputs_loop fault d0 ids' exported exported_inputs s
          | Some inputs =>
              let exported_inputs := PyDict.set wf_id inputs exported_inputs in
              match (failing fault wf_id ;;
                     update_workflow_inputs wf_id inputs (Some Connection)) s with
              | (Return _, s) =>
                  flush_inputs_loop fault d0 ids' (exported + 1) exported_inputs s
              | (Raise _, s) =>
                  (* c.rollback(), then add the exported inputs back *)
                  let s := set_db d0 s in
                  set_inputs_buffer
                    (PyDict.update exported_inputs (_workflow_inputs_buffer s)) s
              end
          end
    end.

Definition _flush_workflow_inputs_buffer (fault : string -> option exn)
    : M unit :=
  fun s =>
    if Z.of_nat (length (_workflow_inputs_buffer s)) =? 0 then (Return tt, s)
    else (Return tt,
          flush_inputs_loop fault (db s)
            (PyDict.keys (_workflow_inputs_buffer s)) 0 [] s).

(** One iteration of the [while] loop of [flush_workflow_buffers]; the
    sleeps at its end are not modelled. *)
Definition flush_workflow_buffers (now_ms : Z)
    (status_fault inputs_fault : string -> option exn) : M unit :=
  try_except
    (modify (set_is_flushing true) ;;
     (* Must flush the status buffer first, as the inputs table has a
        foreign key constraint on the status table. *)
     _flush_workflow_status_buffer now_ms status_fault ;;
     _flush_workflow_inputs_buffer inputs_fault ;;
     modify (set_is_flushing false))
    (fun _ => ret tt).

(** *** The job queue (lines 1047-1092) *)

Definition enqueue (now_ms : Z) (workflow_id queue_name : string) : M unit :=
  transaction (
    execute (fun d =>
      if existsb (fun r => String.eqb (jq_workflow_uuid r) workflow_id) (job_queue d)
      then inr d
      else inr (with_job_queue
                  (job_queue d ++ [{| jq_workflow_uuid := workflow_id;
                                      jq_queue_name := queue_name;
                                      jq_created_at_epoch_ms := now_ms |}]) d))).

Definition enqueued_le (a b : job_queue_row) : Prop :=
  jq_created_at_epoch_ms a <= jq_created_at_epoch_ms b.

#[export] Instance enqueued_le_dec : RelDecision enqueued_le.
Proof. intros a b. unfold enqueued_le. apply _. Defined.

(** SQLSTATE of [LIMIT] with a negative count. *)
Definition invalid_row_count_in_limit_clause : string := "2201W".

(** SQLSTATE of a number that does not fit the type it is sent as. *)
Definition numeric_value_out_of_range : string := "22003".

(** The [SELECT workflow_uuid FROM job_queue WHERE queue_name = ?], with
    [ORDER BY created_at_epoch_ms ASC LIMIT concurrency] when a concurrency
    is given. *)
Definition select_job_queue (queue_name : string) (concurrency : option Z)
    (d : tables) : string + list string :=
  let rows := filter (fun r => jq_queue_name r = queue_name) (job_queue d) in
  match concurrency with
  | None => inr (map jq_workflow_uuid rows)
  | Some n =>
      (* a Python int has no bound; the count of [LIMIT] is bound as an
         INTEGER *)
      if (n <? - 2 ^ 31) || (2 ^ 31 <=? n) then inl numeric_value_out_of_range
      else if n <? 0 then inl invalid_row_count_in_limit_clause
      else inr (map jq_workflow_uuid
                    (take (Z.to_nat n) (merge_sort enqueued_le rows)))
  end.

Definition is_enqueued (id : string) (r : workflow_status_row) : bool :=
  String.eqb (ws_workflow_uuid r) id && String.eqb (ws_status r) (value ENQUEUED).

(** [UPDATE workflow_status SET status = 'PENDING' WHERE workflow_uuid = id
    AND status = 'ENQUEUED'], with its row count. *)
Definition admit_if_enqueued (id : string) (d : tables) : Z * tables :=
  (Z.of_nat (length (List.filter (is_enqueued id) (workflow_status d))),
   with_workflow_status
     (map (fun r => if is_enqueued id r then set_ws_status (value PENDING) r else r)
          (workflow_status d)) d).

Fixpoint start_queued_loop (dequeued_ids ret_ids : list string)
    : M (list string) :=
  match dequeued_ids with
  | [] => ret ret_ids
  | id :: ids =>
      rowcount <- execute_returning (admit_if_enqueued id) ;;
      start_queued_loop ids (if 0 <? rowcount then ret_ids ++ [id] else ret_ids)
  end.

Definition start_queued_workflows (queue_name : string) (concurrency : option Z)
    : M (list string) :=
  transaction (
    rows <- (fun s => match select_job_queue queue_name concurrency (db s) with
                      | inr rows => (Return rows, s)
                      | inl sqlstate => (Raise (DBAPIError sqlstate), s)
                      end) ;;
    start_queued_loop rows []).

Definition remove_from_queue (workflow_id : string) : M unit :=
  transaction (
    execute (fun d =>
      inr (with_job_queue
             (filter (fun r => jq_workflow_uuid r <> workflow_id) (job_queue d)) d))).

(** *** Reading workflow status and inputs (lines 311-520) *)

(** [SELECT ... FROM workflow_status WHERE workflow_uuid = ?] *)
Definition select_workflow_status (workflow_uuid : string) (d : tables)
    : list workflow_status_row :=
  filter (fun r => ws_workflow_uuid r = workflow_uuid) (workflow_status d).

Definition get_workflow_status (workflow_uuid : string)
    : M (option WorkflowStatusInternal) :=
  transaction (
    rows <- query (select_workflow_status workflow_uuid) ;;
    match rows with
    | [] => ret None
    | row :: _ =>
        ret (Some {| workflow_uuid := workflow_uuid;
                     status := ws_status row;
                     name := ws_name row;
                     class_name := ws_class_name row;
                     config_name := ws_config_name row;
                     output := None;
                     error := None;
                     app_id := None;
                     app_version := None;
                     executor_id := None;
                     request := ws_request row;
                     recovery_attempts := Some (ws_recovery_attempts row);
                     authenticated_user := ws_authenticated_user row;
                     authenticated_roles := ws_authenticated_roles row;
                     assumed_role := ws_assumed_role row;
                     queue_name := ws_queue_name row |})
    end).

Definition get_workflow_status_w_outputs (workflow_uuid : string)
    : M (option WorkflowStatusInternal) :=
  transaction (
    rows <- query (select_workflow_status workflow_uuid) ;;
    match rows with
    | [] => ret None
    | row :: _ =>
        ret (Some {| workflow_uuid := workflow_uuid;
                     status := ws_status row;
                     name := ws_name row;
                     config_name := ws_config_name row;
                     class_name := ws_class_name row;
                     output := ws_output row;
                     error := ws_error row;
                     app_id := None;
                     app_version := None;
                     executor_id := None;
                     request := ws_request row;
                     recovery_attempts := None;
                     authenticated_user := ws_authenticated_user row;
                     authenticated_roles := ws_authenticated_roles row;
                     assumed_role := ws_assumed_role row;
                     queue_name := ws_queue_name row |})
    end).

(** [dbos.utils.serialize] / [deserialize] at the type
    [Optional[WorkflowStatusInternal]], where [get_workflow_status_within_wf]
    uses them. *)
Class StatusSerializer := {
  serialize_status : option WorkflowStatusInternal -> string;
  deserialize_status : string -> option WorkflowStatusInternal
}.

(** [if res["output"]:] holds for a string that is neither [None] nor
    empty. *)
Definition get_workflow_status_within_wf `{StatusSerializer}
    (workflow_uuid calling_wf : string) (calling_wf_fn : Z)
    : M (option WorkflowStatusInternal) :=
  res <- check_operation_execution calling_wf calling_wf_fn None ;;
  match res with
  | Some r =>
      match rr_output r with
      | Some o => if String.eqb o "" then ret None else ret (deserialize_status o)
      | None => ret None
      end
  | None =>
      stat <- get_workflow_status workflow_uuid ;;
      record_operation_result
        {| or_workflow_uuid := calling_wf; or_function_id := calling_wf_fn;
           or_output := Some (serialize_status stat); or_error := None |} None ;;
      ret stat
  end.

Definition select_workflow_inputs (workflow_uuid : string) (d : tables)
    : list workflow_inputs_row :=
  filter (fun r => wi_workflow_uuid r = workflow_uuid) (workflow_inputs d).

Definition get_workflow_inputs `{Serializer} (workflow_uuid : string)
    : M (option pyval) :=
  transaction (
    rows <- query (select_workflow_inputs workflow_uuid) ;;
    match rows with
    | [] => ret None
    | row :: _ => ret (Some (deserialize (wi_inputs row)))
    end).

(** *** Awaiting a result (lines 420-458) *)

(** The dictionary [await_workflow_result_internal] returns: the status is
    SUCCESS with the [output] column or ERROR with the [error] column. *)
Inductive awaited :=
| Succeeded (workflow_uuid : string) (output : option string)
| Failed (workflow_uuid : string) (error : option string).

(** The polling loop has no bound of its own; [sleeps] lists what other
    processes do to the tables during each [time.sleep], and the result is
    [None] when the loop is still polling after the last of them. *)
Fixpoint await_workflow_result_internal (sleeps : list (tables -> tables))
    (workflow_uuid : string) : M (option awaited) :=
  rows <- transaction (query (select_workflow_status workflow_uuid)) ;;
  let poll_again :=
    match sleeps with
    | [] => ret None
    | others :: sleeps' =>
        yield_to others ;;
        await_workflow_result_internal sleeps' workflow_uuid
    end in
  match rows with
  | row :: _ =>
      if String.eqb (ws_status row) (value SUCCESS)
      then ret (Some (Succeeded workflow_uuid (ws_output row)))
      else if String.eqb (ws_status row) (value ERROR)
      then ret (Some (Failed workflow_uuid (ws_error row)))
      else poll_again
  | [] => poll_again
  end.

End SystemDatabase.

(** ** Workflow events ([set_event], [get_event], lines 847-951) *)

Module WorkflowEvents.
Import SystemSchema SystemDatabase.

(** Modelled from the spec: [workflow_events] of
    [dbos/schemas/system_database.py], which is not among the modelled
    files: primary key ([workflow_uuid], [key]) and a [value] (section 3). *)
Record workflow_events_row := {
  we_workflow_uuid : string;
  we_key : string;
  we_value : string
}.

(** A [SystemDatabase] object together with the [workflow_events] table of
    its database. *)
Record state := {
  sysdb : SystemDatabase.t;
  workflow_events : list workflow_events_row
}.

Definition ME (A : Type) : Type := state -> outcome A * state.

Definition ret {A} (a : A) : ME A := fun s => (Return a, s).
Definition raise {A} (e : exn) : ME A := fun s => (Raise e, s).
Definition bind {A B} (m : ME A) (k : A -> ME B) : ME B :=
  fun s => match m s with
           | (Return a, s') => k a s'
           | (Raise e, s') => (Raise e, s')
           end.

Notation "x <-- m ;; k" := (bind m (fun x => k))
  (at level 100, m at next level, right associativity).
Notation "m ;;; k" := (bind m (fun _ => k))
  (at level 100, right associativity).

(** A method of [SystemDatabase] run on the object. *)
Definition lift {A} (m : M A) : ME A :=
  fun s => let '(o, s') := m (sysdb s) in
           (o, {| sysdb := s'; workflow_events := workflow_events s |}).

(** [async with self.async_engine.begin() as c: body] over all tables. *)
Definition transaction {A} (body : ME A) : ME A :=
  fun s => match body s with
           | (Return a, s') => (Return a, s')
           | (Raise e, s') =>
               (Raise e, {| sysdb := set_db (db (sysdb s)) (sysdb s');
                            workflow_events := workflow_events s |})
           end.

(** What other processes do to the database while a method waits. *)
Definition yield_to (others : tables * list workflow_events_row ->
                              tables * list workflow_events_row) : ME unit :=
  fun s => let '(d, ev) := others (db (sysdb s), workflow_events s) in
           (Return tt, {| sysdb := set_db d (sysdb s); workflow_events := ev |}).

Definition same_event (workflow_uuid key : string) (r : workflow_events_row)
    : bool :=
  String.eqb (we_workflow_uuid r) workflow_uuid && String.eqb (we_key r) key.

(** [INSERT INTO workflow_events ... ON CONFLICT (workflow_uuid, key)
    DO UPDATE SET value = ...] *)
Definition upsert_workflow_events (workflow_uuid key value : string)
    (events : list workflow_events_row) : list workflow_events_row :=
  if existsb (same_event workflow_uuid key) events then
    map (fun r => if same_event workflow_uuid key r
                  then {| we_workflow_uuid := we_workflow_uuid r;
                          we_key := we_key r; we_value := value |}
                  else r) events
  else events ++ [{| we_workflow_uuid := workflow_uuid; we_key := key;
                     we_value := value |}].

(** [SELECT value FROM workflow_events WHERE workflow_uuid = ? AND key = ?] *)
Definition select_workflow_events (workflow_uuid key : string)
    (events : list workflow_events_row) : list string :=
  map we_value (List.filter (same_event workflow_uuid key) events).

Record GetEventWorkflowContext := {
  ctx_workflow_uuid : string;
  ctx_function_id : Z;
  ctx_timeout_function_id : Z
}.

Section events.
Context `{Serializer}.

Definition set_event (workflow_uuid : string) (function_id : Z)
    (key : string) (message : pyval) : ME unit :=
  transaction (
    recorded_output <-- lift (check_operation_execution workflow_uuid function_id
                                (Some Connection)) ;;
    match recorded_output with
    | Some _ => ret tt
    | None =>
        (fun s => (Return tt,
                   {| sysdb := sysdb s;
                      workflow_events :=
                        upsert_workflow_events workflow_uuid key
                          (serialize message) (workflow_events s) |})) ;;;
        lift (record_operation_result
                {| or_workflow_uuid := workflow_uuid;
                   or_function_id := function_id;
                   or_output := None; or_error := None |}
                (Some Connection))
    end).

(** [time1], [time2] and [env] are those of the [sleep] that journals the
    timeout; [wait] is what other processes do while [get_event] waits on
    its condition. The result of [get_event] does not depend on how long it
    waited. *)
Definition get_event (env : tables -> tables)
    (wait : tables * list workflow_events_row ->
            tables * list workflow_events_row)
    (time1 time2 : Q) (target_uuid key : string) (timeout_seconds : Q)
    (caller_ctx : option GetEventWorkflowContext) : ME pyval :=
  let get_sql := fun s => (Return (select_workflow_events target_uuid key
                                     (workflow_events s)), s) in
  let body :=
    init_recv <-- transaction get_sql ;;
    value <--
      match init_recv with
      | v :: _ => ret (deserialize v)
      | [] =>
          match caller_ctx with
          | Some ctx =>
              actual_timeout <-- lift (sleep env time1 time2 (ctx_workflow_uuid ctx)
                                         (ctx_timeout_function_id ctx)
                                         timeout_seconds true) ;;
              ret tt
          | None => ret tt
          end ;;;
          yield_to wait ;;;
          final_recv <-- transaction get_sql ;;
          match final_recv with
          | v :: _ => ret (deserialize v)
          | [] => ret PyNone
          end
      end ;;
    match caller_ctx with
    | Some ctx =>
        lift (record_operation_result
                {| or_workflow_uuid := ctx_workflow_uuid ctx;
                   or_function_id := ctx_function_id ctx;
                   or_output := Some (serialize value);
                   or_error := None |} None)
    | None => ret tt
    end ;;;
    ret value in
  match caller_ctx with
  | Some ctx =>
      recorded_output <-- lift (check_operation_execution (ctx_workflow_uuid ctx)
                                  (ctx_function_id ctx) None) ;;
      match recorded_output with
      | Some r =>
          match rr_output r with
          | Some o => ret (deserialize o)
          | None => raise (PyException "No output recorded in the last get_event")
          end
      | None => body
      end
  | None => body
  end.

End events.
End WorkflowEvents.

(** ** The queue dispatcher ([dbos/queue.py]) *)

Module Queue.
Import SystemDatabase.

Record QueueRateLimit := {
  limit : Z;
  period : Q
}.

Record Queue := {
  name : string;
  concurrency : option Z;
  limiter : option QueueRateLimit
}.

Section dispatcher.
(** [start_queued_workflows_sync], which [queue_thread] calls with the
    whole queue, its limiter included, and [execute_workflow_id], the
    workflow executor, are not among the modelled files. *)
Variable start_queued_workflows_sync : Queue -> M (list string).
Variable WorkflowHandle : Type.
Variable execute_workflow_id : string -> M WorkflowHandle.

(** The [for id in wf_ids] loop of a queue's turn. The result lists the ids
    handed to [execute_workflow_id], the last of them being the one whose
    execution raised when the loop is left by an exception. *)
Fixpoint execute_each (wf_ids : list string) (s : t)
    : list string * option exn * t :=
  match wf_ids with
  | [] => ([], None, s)
  | id :: ids =>
      match execute_workflow_id id s with
      | (Return _, s') =>
          let '(handed, warning, s'') := execute_each ids s' in
          (id :: handed, warning, s'')
      | (Raise e, s') => ([id], Some e, s')
      end
  end.

(** The [try] block of a queue's turn: an exception of
    [start_queued_workflows_sync] or of the executor ends the turn and is
    logged as a warning. *)
Definition queue_turn (queue : Queue) (s : t) : list string * option exn * t :=
  match start_queued_workflows_sync queue s with
  | (Return wf_ids, s') => execute_each wf_ids s'
  | (Raise e, s') => ([], Some e, s')
  end.

(** The body of [queue_thread]'s loop after the one-second wait: a pass over
    [queue_info_map]. The result lists the ids handed to
    [execute_workflow_id] and the exceptions logged, in order. *)
Fixpoint queue_thread_pass (queue_info_map : PyDict.t Queue) (s : t)
    : list string * list exn * t :=
  match queue_info_map with
  | [] => ([], [], s)
  | (_, queue) :: rest =>
      let '(handed, warning, s1) := queue_turn queue s in
      let '(more, warnings, s2) := queue_thread_pass rest s1 in
      (handed ++ more,
       match warning with Some e => e :: warnings | None => warnings end,
       s2)
  end.
End dispatcher.

End Queue.

(** ** The recovery engine ([dbos/_recovery.py]) *)

Module Recovery.
Import SystemDatabase.

(** What [recover_pending_workflows] writes to the logger. *)
Inductive log_record :=
| SkipLocalRecovery (vmid : string)
| RecoveringExecutor (executor_id : string)
| PendingWorkflows (workflow_uuids : list string)
| RecoveredPendingWorkflows.

(** Modelled from the spec: [_sys_db.GetPendingWorkflowsOutput] is not among
    the modelled files; the caller reads its [workflow_uuid] only. *)
Record GetPendingWorkflowsOutput := {
  pw_workflow_uuid : string
}.

(** A non-empty string is what Python takes for true. *)
Definition truthy (v : option string) : bool :=
  match v with
  | Some s => negb (String.eqb s "")
  | None => false
  end.

Section recovery.
(** [execute_workflow_by_id] belongs to the workflow executor, outside the
    modelled files. *)
Variable WorkflowHandle : Type.
Variable execute_workflow_by_id : string -> M WorkflowHandle.

(** Modelled from the spec: [dbos._sys_db.get_pending_workflows] is not
    among the modelled files; by section 4.9 it yields all workflow uuids in
    PENDING for the executor, which is what [get_pending_workflows] of
    [system_database.py] selects; each id is wrapped as the caller reads
    it. *)
Definition pending_workflows_of (executor_id : string)
    : M (list GetPendingWorkflowsOutput) :=
  ids <- get_pending_workflows executor_id ;;
  ret (map (fun id => {| pw_workflow_uuid := id |}) ids).

Fixpoint recover_each (pending_workflows : list GetPendingWorkflowsOutput)
    : M (list WorkflowHandle) :=
  match pending_workflows with
  | [] => ret []
  | pending_workflow :: rest =>
      handle <- execute_workflow_by_id (pw_workflow_uuid pending_workflow) ;;
      handles <- recover_each rest ;;
      ret (handle :: handles)
  end.

(** The [for executor_id in executor_ids] loop; [vmid] is
    [os.environ.get("DBOS__VMID")]. *)
Fixpoint recover_executors (vmid : option string) (executor_ids : list string)
    : M (list WorkflowHandle * list log_record) :=
  match executor_ids with
  | [] => ret ([], [])
  | executor_id :: rest =>
      let skip_log :=
        if String.eqb executor_id "local" && truthy vmid
        then [SkipLocalRecovery (default "" vmid)]
        else [] in
      pending_workflows <- pending_workflows_of executor_id ;;
      handles <- recover_each pending_workflows ;;
      more <- recover_executors vmid rest ;;
      ret (handles ++ fst more,
           skip_log ++ [RecoveringExecutor executor_id;
                        PendingWorkflows (map pw_workflow_uuid pending_workflows)]
                    ++ snd more)
  end.

Definition recover_pending_workflows (vmid : option string)
    (executor_ids : list string)
    : M (list WorkflowHandle * list log_record) :=
  r <- recover_executors vmid executor_ids ;;
  ret (fst r, snd r ++ [RecoveredPendingWorkflows]).
End recovery.

(** *** startup_recovery_thread (lines 16-32) *)

(** [pending_workflows.remove(x)]: the first element equal to [x] goes;
    [None] stands for the [ValueError] of a list without one. *)
Fixpoint list_remove (x : GetPendingWorkflowsOutput)
    (l : list GetPendingWorkflowsOutput)
    : option (list GetPendingWorkflowsOutput) :=
  match l with
  | [] => None
  | y :: l' =>
      if String.eqb (pw_workflow_uuid y) (pw_workflow_uuid x) then Some l'
      else option_map (cons y) (list_remove x l')
  end.

Section startup.
Variable WorkflowHandle : Type.
Variable execute_workflow_by_id : string -> M WorkflowHandle.
(** [DBOSWorkflowFunctionNotFoundError] is raised by the workflow executor,
    outside the modelled files: the exceptions of that class. *)
Variable is_function_not_found : exn -> bool.

(** The [for] loop over [list(pending_workflows)]. The list is the caller's
    and is mutated in place, so the result carries it as the loop leaves
    it, also when the loop is left by an exception. *)
Fixpoint recover_snapshot (snapshot pending_workflows : list GetPendingWorkflowsOutput)
    (s : t) : outcome unit * list GetPendingWorkflowsOutput * t :=
  match snapshot with
  | [] => (Return tt, pending_workflows, s)
  | pending_workflow :: rest =>
      match execute_workflow_by_id (pw_workflow_uuid pending_workflow) s with
      | (Return _, s') =>
          match list_remove pending_workflow pending_workflows with
          | Some pending_workflows' => recover_snapshot rest pending_workflows' s'
          | None =>
              (Raise (PyException "list.remove(x): x not in list"),
               pending_workflows, s')
          end
      | (Raise e, s') => (Raise e, pending_workflows, s')
      end
  end.

(** [is_set] lists what [stop_event.is_set()] answers at each test of the
    [while] condition; when the answers run out the thread is still running
    and there is no result. [others] is what other threads do to the tables
    during [time.sleep(1)]. Registering the stop event with
    [dbos.stop_events] is not modelled. *)
Fixpoint startup_recovery_thread (others : SystemSchema.tables -> SystemSchema.tables)
    (is_set : list bool)
    (pending_workflows : list GetPendingWorkflowsOutput) (s : t)
    : option (outcome unit * list GetPendingWorkflowsOutput * t) :=
  match is_set with
  | [] => None
  | stop :: later =>
      if negb (negb stop && (0 <? Z.of_nat (length pending_workflows)))
      then Some (Return tt, pending_workflows, s)
      else
        match recover_snapshot pending_workflows pending_workflows s with
        | (Return _, pending_workflows', s') =>
            startup_recovery_thread others later pending_workflows' s'
        | (Raise e, pending_workflows', s') =>
            if is_function_not_found e then
              (* time.sleep(1) *)
              startup_recovery_thread others later pending_workflows'
                (set_db (others (db s')) s')
            else Some (Raise e, pending_workflows', s')
        end
  end.
End startup.

End Recovery.

(** ** The application database journal ([dbos/application_database.py]) *)

Module ApplicationDatabase.

Record TransactionResultInternal := {
  workflow_uuid : string;
  function_id : Z;
  output : option string;
  error : option string;
  txn_id : option string;
  txn_snapshot : string;
  executor_id : option string
}.

(** Modelled from the spec: [dbos/schemas/application_database.py] is not
    among the modelled files; [transaction_outputs] has the key
    ([workflow_uuid], [function_id]) of [operation_outputs] plus [txn_id],
    [txn_snapshot] and [executor_id] (section 3). *)
Record transaction_outputs_row := {
  to_workflow_uuid : string;
  to_function_id : Z;
  to_output : option string;
  to_error : option string;
  to_txn_id : option string;
  to_txn_snapshot : string;
  to_executor_id : option string
}.

(** A session on the application database: the journal table and what
    [pg_current_xact_id_if_assigned()::text] yields in the open
    transaction. *)
Record Session := {
  transaction_outputs : list transaction_outputs_row;
  pg_current_xact_id_if_assigned : option string
}.

Definition has_transaction_output (uuid : string) (function_id : Z)
    (s : Session) : bool :=
  existsb (fun r => String.eqb (to_workflow_uuid r) uuid
                    && Z.eqb (to_function_id r) function_id)
          (transaction_outputs s).

Definition insert_transaction_outputs (r : transaction_outputs_row) (s : Session)
    : string + Session :=
  if has_transaction_output (to_workflow_uuid r) (to_function_id r) s
  then inl SystemSchema.unique_violation
  else inr {| transaction_outputs := transaction_outputs s ++ [r];
              pg_current_xact_id_if_assigned := pg_current_xact_id_if_assigned s |}.

(** [x if x else None] on an optional string. *)
Definition if_truthy (x : option string) : option string :=
  match x with
  | Some s => if String.eqb s "" then None else Some s
  | None => None
  end.

(** The [except DBAPIError] clause shared by the three writers. *)
Definition on_dbapi_error (uuid : string) (sqlstate : string) : exn :=
  if String.eqb sqlstate "23505" then DBOSWorkflowConflictIDError uuid
  else DBAPIError sqlstate.

Definition record_transaction_output (session : Session)
    (output : TransactionResultInternal) : outcome unit * Session :=
  match insert_transaction_outputs
          {| to_workflow_uuid := workflow_uuid output;
             to_function_id := function_id output;
             to_output := ApplicationDatabase.output output;
             to_error := None;
             to_txn_id := pg_current_xact_id_if_assigned session;
             to_txn_snapshot := txn_snapshot output;
             to_executor_id := if_truthy (executor_id output) |} session with
  | inr session' => (Return tt, session')
  | inl sqlstate => (Raise (on_dbapi_error (workflow_uuid output) sqlstate), session)
  end.

Definition record_transaction_output_async (session : Session)
    (output : TransactionResultInternal) : outcome unit * Session :=
  match insert_transaction_outputs
          {| to_workflow_uuid := workflow_uuid output;
             to_function_id := function_id output;
             to_output := ApplicationDatabase.output output;
             to_error := None;
             to_txn_id := pg_current_xact_id_if_assigned session;
             to_txn_snapshot := txn_snapshot output;
             to_executor_id := if_truthy (executor_id output) |} session with
  | inr session' => (Return tt, session')
  | inl sqlstate => (Raise (on_dbapi_error (workflow_uuid output) sqlstate), session)
  end.

(** [record_transaction_error_async] opens a transaction of its own on the
    engine; [conn] is the application database as that transaction sees
    it. *)
Definition record_transaction_error_async (conn : Session)
    (output : TransactionResultInternal) : outcome unit * Session :=
  match insert_transaction_outputs
          {| to_workflow_uuid := workflow_uuid output;
             to_function_id := function_id output;
             to_output := None;
             to_error := error output;
             to_txn_id := pg_current_xact_id_if_assigned conn;
             to_txn_snapshot := txn_snapshot output;
             to_executor_id := if_truthy (executor_id output) |} conn with
  | inr conn' => (Return tt, conn')
  | inl sqlstate => (Raise (on_dbapi_error (workflow_uuid output) sqlstate), conn)
  end.

Definition record_transaction_error (conn : Session)
    (output : TransactionResultInternal) : outcome unit * Session :=
  record_transaction_error_async conn output.

Definition check_transaction_execution (session : Session)
    (workflow_uuid : string) (function_id : Z) : option RecordedResult :=
  match filter (fun r => to_workflow_uuid r = workflow_uuid
                         /\ to_function_id r = function_id)
               (transaction_outputs session) with
  | [] => None
  | r :: _ => Some {| rr_output := to_output r; rr_error := to_error r |}
  end.

End ApplicationDatabase.


(** ** Fixtures for the examples *)

Module Fixtures.
Import SystemSchema.

Definition zstr (z : Z) : string := NilZero.string_of_int (Z.to_int z).

Definition zparse (s : string) : Z :=
  match NilZero.int_of_string s with
  | Some i => Z.of_int i
  | None => 0
  end.

Fixpoint split_at (c : Ascii.ascii) (s : string) : string * string :=
  match s with
  | EmptyString => (EmptyString, EmptyString)
  | String a r =>
      if Ascii.eqb a c then (EmptyString, r)
      else let '(x, y) := split_at c r in (String a x, y)
  end.

(** A small serializer standing in for jsonpickle: ["null"] for [None], a
    one-letter tag and the payload otherwise. *)
Definition tagged_serializer : Serializer :=
  {| serialize v :=
       match v with
       | PyNone => "null"
       | PyStr s => String "s"%char s
       | PyInt z => String "i"%char (zstr z)
       | PyFloat q =>
           String "f"%char
             (String.append (zstr (Qnum q))
                (String "/"%char (zstr (Zpos (Qden q)))))
       end;
     deserialize s :=
       match s with
       | String "s"%char r => PyStr r
       | String "i"%char r => PyInt (zparse r)
       | String "f"%char r =>
           let '(a, b) := split_at "/"%char r in
           PyFloat (zparse a # Z.to_pos (zparse b))
       | _ => PyNone
       end |}.

(** A [workflow_status] row with the given key, status and executor. *)
Definition status_row (uuid status : string) (executor : option string)
    (queue : option string) : workflow_status_row :=
  {| ws_workflow_uuid := uuid; ws_status := status; ws_name := "wf";
     ws_class_name := None; ws_config_name := None; ws_output := None;
     ws_error := None; ws_executor_id := executor;
     ws_application_version := None; ws_application_id := None;
     ws_request := None; ws_recovery_attempts := 0;
     ws_authenticated_user := None; ws_authenticated_roles := None;
     ws_assumed_role := None; ws_queue_name := queue; ws_created_at := 0 |}.

(** The [WorkflowStatusInternal] a caller buffers for a workflow. *)
Definition internal_status (uuid status : string) : WorkflowStatusInternal :=
  {| workflow_uuid := uuid; status := status; name := "wf";
     class_name := None; config_name := None; output := None; error := None;
     executor_id := Some "local"; app_version := None; app_id := None;
     request := None; recovery_attempts := None; authenticated_user := None;
     assumed_role := None; authenticated_roles := None; queue_name := None |}.

(** Two workflows enqueued on queue ["q"], oldest first. *)
Definition two_enqueued : tables :=
  {| workflow_status := [status_row "W1" "ENQUEUED" (Some "local") (Some "q");
                         status_row "W2" "ENQUEUED" (Some "local") (Some "q")];
     workflow_inputs := [];
     operation_outputs := [];
     notifications := [];
     job_queue := [{| jq_workflow_uuid := "W1"; jq_queue_name := "q";
                      jq_created_at_epoch_ms := 1 |};
                   {| jq_workflow_uuid := "W2"; jq_queue_name := "q";
                      jq_created_at_epoch_ms := 2 |}] |}.

(** Workflow ["W"] with two notifications on topic ["t"] that carry the same
    [created_at_epoch_ms]. *)
Definition tied_notifications : tables :=
  {| workflow_status := [status_row "W" "PENDING" (Some "local") None];
     workflow_inputs := [];
     operation_outputs := [];
     notifications :=
       [{| n_destination_uuid := "W"; n_topic := "t";
           n_message := serialize (Serializer := tagged_serializer) (PyInt 42);
           n_created_at_epoch_ms := 100 |};
        {| n_destination_uuid := "W"; n_topic := "t";
           n_message := serialize (Serializer := tagged_serializer) (PyInt 43);
           n_created_at_epoch_ms := 100 |}];
     job_queue := [] |}.

(** Workflow ["W"] with two notifications on topic ["t"], sent one
    millisecond apart. *)
Definition ordered_notifications : tables :=
  {| workflow_status := [status_row "W" "PENDING" (Some "local") None];
     workflow_inputs := [];
     operation_outputs := [];
     notifications :=
       [{| n_destination_uuid := "W"; n_topic := "t";
           n_message := serialize (Serializer := tagged_serializer) (PyInt 42);
           n_created_at_epoch_ms := 100 |};
        {| n_destination_uuid := "W"; n_topic := "t";
           n_message := serialize (Serializer := tagged_serializer) (PyInt 43);
           n_created_at_epoch_ms := 101 |}];
     job_queue := [] |}.

(** Two pending workflows of executor ["local"]; only ["W1"] has an inputs
    row. *)
Definition two_pending : tables :=
  {| workflow_status := [status_row "W1" "PENDING" (Some "local") None;
                         status_row "W2" "PENDING" (Some "local") None];
     workflow_inputs := [{| wi_workflow_uuid := "W1"; wi_inputs := "{}" |}];
     operation_outputs := [];
     notifications := [];
     job_queue := [] |}.

(** One pending workflow without an inputs row. *)
Definition one_pending : tables :=
  {| workflow_status := [status_row "W1" "PENDING" (Some "local") None];
     workflow_inputs := [];
     operation_outputs := [];
     notifications := [];
     job_queue := [] |}.

(** A temp workflow ["W"] whose status and inputs were just buffered. *)
Definition buffered_status_and_inputs : SystemDatabase.t :=
  snd (SystemDatabase.bind
         (SystemDatabase.buffer_workflow_status (internal_status "W" "PENDING"))
         (fun _ => SystemDatabase.buffer_workflow_inputs "W" "{}")
         (SystemDatabase.init empty)).

(** Inputs buffered for ["W"] while no status of ["W"] was ever written. *)
Definition buffered_inputs_only : SystemDatabase.t :=
  snd (SystemDatabase.buffer_workflow_inputs "W" "{}" (SystemDatabase.init empty)).

(** Inputs left in the buffer for a workflow that has its status row and is
    in neither tracking set. *)
Definition buffered_inputs_untracked : SystemDatabase.t :=
  SystemDatabase.set_inputs_buffer [("W1", "{}")] (SystemDatabase.init one_pending).

End Fixtures.

(** * Vocabulary of the statements *)

Import SystemSchema SystemDatabase.

(** The row [record_operation_result] inserts for a result. *)
Definition journal_row (result : OperationResultInternal) : operation_outputs_row :=
  {| oo_workflow_uuid := or_workflow_uuid result;
     oo_function_id := or_function_id result;
     oo_output := or_output result;
     oo_error := or_error result |}.

Definition journal_message `{Serializer} (workflow_uuid : string) (function_id : Z)
    (message : pyval) (d : tables) : tables :=
  with_operation_outputs
    (operation_outputs d ++
       [{| oo_workflow_uuid := workflow_uuid; oo_function_id := function_id;
           oo_output := Some (serialize message); oo_error := None |}]) d.

(** The rows of [select_notifications]. *)
Definition matches (uuid topic : string) (n : notifications_row) : Prop :=
  n_destination_uuid n = uuid /\ n_topic n = topic.



(** What one guarded call of [update_workflow_inputs] on the transaction's
    connection can change, whether it returns or raises. *)
Definition inputs_call_post (wf : string) (s s' : t) : Prop :=
  (exists l, sent s' = sent s ++ map InsertWorkflowInputs l /\ Forall (eq wf) l)
  /\ _workflow_inputs_buffer s' = _workflow_inputs_buffer s
  /\ _exported_temp_txn_wf_status s' ⊆ _exported_temp_txn_wf_status s
  /\ workflow_status (db s') = workflow_status (db s)
  /\ (forall r, In r (workflow_inputs (db s')) ->
        In r (workflow_inputs (db s))
        \/ has_workflow (wi_workflow_uuid r) (db s) = true).

(** What a run of the inputs loop can change: [d0] is the database at the
    start of the transaction, [ei] the entries popped so far. *)
Definition inputs_loop_post (d0 : tables) (ei : PyDict.t string) (s s' : t) : Prop :=
  (exists ins, sent s' = sent s ++ map InsertWorkflowInputs ins
               /\ Forall (fun u => u ∈ _exported_temp_txn_wf_status s) ins)
  /\ _exported_temp_txn_wf_status s' ⊆ _exported_temp_txn_wf_status s
  /\ (forall u, u ∉ _exported_temp_txn_wf_status s ->
        PyDict.get u ei = None ->
        PyDict.get u (_workflow_inputs_buffer s')
        = PyDict.get u (_workflow_inputs_buffer s))
  /\ (workflow_status (db s) = workflow_status d0 ->
      workflow_status (db s') = workflow_status d0
      /\ forall r, In r (workflow_inputs (db s')) ->
           In r (workflow_inputs (db s)) \/ In r (workflow_inputs d0)
           \/ has_workflow (wi_workflow_uuid r) d0 = true).

(** The handles of a recovery run, its exception and the state it leaves,
    without the log. *)
Definition handles_of {WorkflowHandle L} (r : outcome (list WorkflowHandle * L) * t)
    : outcome (list WorkflowHandle) * t :=
  (match fst r with
   | Return (handles, _) => Return handles
   | Raise e => Raise e
   end, snd r).

(** Rows of the application database journal. *)
Module JournalRows.
Import ApplicationDatabase.

(** The journal table with one more row. *)
Definition add_row (r : transaction_outputs_row) (s : Session) : Session :=
  {| transaction_outputs := transaction_outputs s ++ [r];
     pg_current_xact_id_if_assigned := pg_current_xact_id_if_assigned s |}.

(** The row each writer sends, as a function of its argument. *)
Definition output_row (s : Session) (a : TransactionResultInternal) :=
  {| to_workflow_uuid := workflow_uuid a; to_function_id := function_id a;
     to_output := output a; to_error := None;
     to_txn_id := pg_current_xact_id_if_assigned s;
     to_txn_snapshot := txn_snapshot a;
     to_executor_id := if_truthy (executor_id a) |}.

Definition error_row (s : Session) (a : TransactionResultInternal) :=
  {| to_workflow_uuid := workflow_uuid a; to_function_id := function_id a;
     to_output := None; to_error := error a;
     to_txn_id := pg_current_xact_id_if_assigned s;
     to_txn_snapshot := txn_snapshot a;
     to_executor_id := if_truthy (executor_id a) |}.

Definition at_most_one (r : transaction_outputs_row) : Prop :=
  to_output r = None \/ to_error r = None.

End JournalRows.

(** * Vocabulary of the further statements *)

(** The rows [check_transaction_execution] selects. *)
Definition select_transaction_outputs (uuid : string) (fn : Z)
    (s : ApplicationDatabase.Session)
    : list ApplicationDatabase.transaction_outputs_row :=
  filter (fun r => ApplicationDatabase.to_workflow_uuid r = uuid
                   /\ ApplicationDatabase.to_function_id r = fn)
         (ApplicationDatabase.transaction_outputs s).

(** What [update_workflow_status] does to a row that is already there. *)
Definition on_conflict_row (st : WorkflowStatusInternal)
    (replace in_recovery : bool) (r : workflow_status_row) : workflow_status_row :=
  if replace then set_ws_result (output st) (error st) (set_ws_status (status st) r)
  else if in_recovery then set_ws_recovery_attempts (ws_recovery_attempts r + 1) r
  else r.

(** The dictionaries [get_workflow_status] and
    [get_workflow_status_w_outputs] build from a row. *)
Definition status_of_row (workflow_uuid : string) (row : workflow_status_row)
    : WorkflowStatusInternal :=
  {| workflow_uuid := workflow_uuid; status := ws_status row;
     name := ws_name row; class_name := ws_class_name row;
     config_name := ws_config_name row; output := None; error := None;
     app_id := None; app_version := None; executor_id := None;
     request := ws_request row;
     recovery_attempts := Some (ws_recovery_attempts row);
     authenticated_user := ws_authenticated_user row;
     authenticated_roles := ws_authenticated_roles row;
     assumed_role := ws_assumed_role row; queue_name := ws_queue_name row |}.

Definition status_w_outputs_of_row (workflow_uuid : string)
    (row : workflow_status_row) : WorkflowStatusInternal :=
  {| workflow_uuid := workflow_uuid; status := ws_status row;
     name := ws_name row; config_name := ws_config_name row;
     class_name := ws_class_name row; output := ws_output row;
     error := ws_error row; app_id := None; app_version := None;
     executor_id := None; request := ws_request row;
     recovery_attempts := None;
     authenticated_user := ws_authenticated_user row;
     authenticated_roles := ws_authenticated_roles row;
     assumed_role := ws_assumed_role row; queue_name := ws_queue_name row |}.

(** What [update_workflow_inputs] does to the tracking sets once its
    statement went through. *)
Definition untracked (uuid : string) (s : t) : t :=
  if decide (uuid ∈ _temp_txn_wf_ids s)
  then set_temp (_temp_txn_wf_ids s ∖ {[uuid]})
         (set_exported (_exported_temp_txn_wf_status s ∖ {[uuid]}) s)
  else s.

(** What a poll of [await_workflow_result_internal] returns on the tables
    [d], if it returns. *)
Definition terminal_result (uuid : string) (d : tables) : option awaited :=
  match select_workflow_status uuid d with
  | row :: _ =>
      if String.eqb (ws_status row) (value SUCCESS)
      then Some (Succeeded uuid (ws_output row))
      else if String.eqb (ws_status row) (value ERROR)
      then Some (Failed uuid (ws_error row))
      else None
  | [] => None
  end.

(** The tables at each poll: at the start and after each sleep. *)
Fixpoint polled (sleeps : list (tables -> tables)) (d : tables) : list tables :=
  d :: match sleeps with
       | [] => []
       | others :: sleeps' => polled sleeps' (others d)
       end.

(** The journal after [set_event] has recorded its step. *)
Definition journaled_event_done (workflow_uuid : string) (function_id : Z)
    (d : tables) : tables :=
  with_operation_outputs
    (operation_outputs d ++
       [{| oo_workflow_uuid := workflow_uuid; oo_function_id := function_id;
           oo_output := None; oo_error := None |}]) d.

(** The journal after a step has recorded the output [o]. *)
Definition journal_value (workflow_uuid : string) (function_id : Z) (o : string)
    (d : tables) : tables :=
  with_operation_outputs
    (operation_outputs d ++
       [{| oo_workflow_uuid := workflow_uuid; oo_function_id := function_id;
           oo_output := Some o; oo_error := None |}]) d.

(** The [workflow_status] rows of a status' workflow carry its status,
    output and error. *)
Definition carries (st : WorkflowStatusInternal) (row : workflow_status_row)
    : Prop :=
  ws_status row = status st /\ ws_output row = output st
  /\ ws_error row = error st.

Definition flushed (st : WorkflowStatusInternal) (d : tables) : Prop :=
  select_workflow_status (workflow_uuid st) d <> []
  /\ Forall (carries st) (select_workflow_status (workflow_uuid st) d).

(** A status buffer as [buffer_workflow_status] builds it: a dictionary
    whose keys are the uuids of its values. *)
Definition keyed_by_uuid (b : PyDict.t WorkflowStatusInternal) : Prop :=
  NoDup (PyDict.keys b)
  /\ Forall (fun kv => workflow_uuid (snd kv) = fst kv) b.

(** The uuids [get_pending_workflows] selects for an executor. *)
Definition pending_of (executor_id : string) (d : tables) : list string :=
  map ws_workflow_uuid
      (filter (fun r => ws_status r = value PENDING
                        /\ ws_executor_id r = Some executor_id)
              (workflow_status d)).

(** What [update_workflow_status] does to the tracking sets once its
    statement went through. *)
Definition tracked (uuid : string) (s : t) : t :=
  if decide (uuid ∈ _temp_txn_wf_ids s)
  then set_exported ({[uuid]} ∪ _exported_temp_txn_wf_status s) s
  else s.

(** The tables after the upsert of [update_workflow_status]. *)
Definition upserted (now_ms : Z) (st : WorkflowStatusInternal)
    (replace in_recovery : bool) (d : tables) : tables :=
  if has_workflow (workflow_uuid st) d
  then with_workflow_status
         (map (fun r => if String.eqb (ws_workflow_uuid r) (workflow_uuid st)
                        then on_conflict_row st replace in_recovery r else r)
              (workflow_status d)) d
  else with_workflow_status (workflow_status d ++ [inserted_row now_ms st]) d.
(** * Properties *)

(** ** Records are determined by their fields *)

Lemma set_db_same (s : t) : set_db (db s) s = s.
Proof. by destruct s. Qed.

Lemma db_set_db d (s : t) : db (set_db d s) = d.
Proof. done. Qed.

(** ** Operation outputs *)

Lemma select_operation_outputs_nil uuid fn d :
  select_operation_outputs uuid fn d = [] <-> has_operation_output uuid fn d = false.
Proof.
  unfold select_operation_outputs, has_operation_output.
  induction (operation_outputs d) as [|r l IH]; [done|].
  rewrite filter_cons. cbn [existsb].
  destruct (String.eqb_spec (oo_workflow_uuid r) uuid) as [Hu|Hu];
    destruct (Z.eqb_spec (oo_function_id r) fn) as [Hf|Hf]; cbn [andb orb];
    case_decide; try tauto; try done.
Qed.

(** [check_operation_execution] never raises and leaves the state alone; it
    answers [None] exactly when no row is journaled under the key. *)
Lemma check_operation_execution_spec uuid fn conn (s : t) :
  exists r, check_operation_execution uuid fn conn s = (Return r, s)
            /\ (r = None <-> has_operation_output uuid fn (db s) = false)
            /\ r = match select_operation_outputs uuid fn (db s) with
                   | [] => None
                   | x :: _ => Some {| rr_output := oo_output x; rr_error := oo_error x |}
                   end.
Proof.
  pose proof (select_operation_outputs_nil uuid fn (db s)) as Hnil.
  eexists; split; [|split; [|reflexivity]].
  - unfold check_operation_execution, bind, on_connection, transaction, query, ret.
    destruct conn; destruct (select_operation_outputs uuid fn (db s)); reflexivity.
  - destruct (select_operation_outputs uuid fn (db s)).
    + split; [intros _; by apply Hnil | done].
    + split; [done | intros Hh; apply Hnil in Hh; done].
Qed.

(** What [record_operation_result] does once the assertion has passed. *)
Lemma record_operation_result_passed result conn (s : t) :
  or_error result = None \/ or_output result = None ->
  record_operation_result result conn s =
    if has_operation_output (or_workflow_uuid result) (or_function_id result) (db s)
    then (Raise (DBOSWorkflowConflictIDError (or_workflow_uuid result)), s)
    else (Return tt,
          set_db (with_operation_outputs
                    (operation_outputs (db s) ++ [journal_row result]) (db s)) s).
Proof.
  intros Hone.
  unfold record_operation_result.
  replace (negb (is_None (or_error result) || is_None (or_output result)))
    with false by (destruct Hone as [-> | ->]; cbn; by rewrite ?orb_true_r).
  unfold try_except, on_connection, transaction, execute, insert_operation_outputs.
  cbn [oo_workflow_uuid oo_function_id].
  destruct conn;
    destruct (has_operation_output (or_workflow_uuid result)
                (or_function_id result) (db s)); cbn;
    rewrite ?set_db_same; reflexivity.
Qed.

(** C1 (amended): [record_operation_result] fails its assertion exactly when
    both [output] and [error] are non-null, before any statement is sent. A
    result with at most one of them non-null, both null included, passes:
    for a workflow that has its [workflow_status] row it is inserted when no
    row holds the key ([workflow_uuid], [function_id]), and whenever a row
    holds the key the call raises [DBOSWorkflowConflictIDError] with the
    state unchanged. *)
Theorem record_operation_result_at_most_one
    (result : OperationResultInternal) (conn : option AsyncConnection) (s : t) :
  (is_Some (or_output result) /\ is_Some (or_error result) ->
     record_operation_result result conn s =
       (Raise (AssertionError "Only one of error or output can be set"), s))
  /\ (or_output result = None \/ or_error result = None ->
      has_operation_output (or_workflow_uuid result) (or_function_id result) (db s) = true ->
      record_operation_result result conn s =
        (Raise (DBOSWorkflowConflictIDError (or_workflow_uuid result)), s))
  /\ (or_output result = None \/ or_error result = None ->
      has_workflow (or_workflow_uuid result) (db s) = true ->
      has_operation_output (or_workflow_uuid result) (or_function_id result) (db s) = false ->
      record_operation_result result conn s =
        (Return tt,
         set_db (with_operation_outputs
                   (operation_outputs (db s) ++
                      [{| oo_workflow_uuid := or_workflow_uuid result;
                          oo_function_id := or_function_id result;
                          oo_output := or_output result;
                          oo_error := or_error result |}]) (db s)) s))
  /\ (forall e s', record_operation_result result conn s = (Raise e, s') ->
        s' = s
        /\ (e = AssertionError "Only one of error or output can be set"
            <-> is_Some (or_output result) /\ is_Some (or_error result))).
Proof.
  split; [|split; [|split]].
  - intros [[o Ho] [e He]]. unfold record_operation_result.
    by rewrite Ho, He.
  - intros Hone Hkey. rewrite record_operation_result_passed by tauto.
    by rewrite Hkey.
  - intros Hone _ Hkey. rewrite record_operation_result_passed by tauto.
    by rewrite Hkey.
  - intros e s'. destruct (or_output result) as [o|] eqn:Ho;
      [destruct (or_error result) as [x|] eqn:He|].
    + unfold record_operation_result. rewrite Ho, He. cbn.
      intros [= <- <-]. split; [done|]. split; [intros _; split; by eexists|done].
    + rewrite record_operation_result_passed by (left; exact He).
      destruct (has_operation_output _ _ _); [|done]. intros [= <- <-].
      split; [done|]. split; [done|]. intros [_ [x Hx]]. done.
    + rewrite record_operation_result_passed by (right; exact Ho).
      destruct (has_operation_output _ _ _); [|done]. intros [= <- <-].
      split; [done|]. split; [done|]. intros [[x Hx] _]. done.
Qed.

(** ** send *)

Section send_properties.
Context `{Serializer}.

(** Without a fault [record_operation_result_on] is
    [record_operation_result]. *)
Lemma record_operation_result_on_None result conn (s : t) :
  record_operation_result_on None result conn s
  = record_operation_result result conn s.
Proof.
  unfold record_operation_result_on, record_operation_result, failing_with.
  destruct (negb _); [done|]. unfold try_except, on_connection, transaction, bind, ret.
  by destruct conn.
Qed.

(** A fault of the journal's [INSERT] inside a transaction: the unique
    violation becomes the conflict error, any other SQLSTATE is raised as
    the driver gives it; nothing is written. *)
Lemma record_operation_result_on_fault sqlstate result (s : t) :
  or_error result = None \/ or_output result = None ->
  record_operation_result_on (Some sqlstate) result (Some Connection) s
  = (Raise (if String.eqb sqlstate "23505"
            then DBOSWorkflowConflictIDError (or_workflow_uuid result)
            else DBAPIError sqlstate), s).
Proof.
  intros Hone. unfold record_operation_result_on.
  replace (negb (is_None (or_error result) || is_None (or_output result)))
    with false by (destruct Hone as [-> | ->]; cbn; by rewrite ?orb_true_r).
  unfold try_except, on_connection, failing_with, bind, raise.
  by destruct (String.eqb sqlstate "23505").
Qed.

(** The outcomes of [send], one by one. *)
Lemma send_eq insert_fault journal_fault now_ms workflow_uuid function_id
    destination_uuid message topic (s : t) :
  send insert_fault journal_fault now_ms workflow_uuid function_id
    destination_uuid message topic s =
    if has_operation_output workflow_uuid function_id (db s) then (Return tt, s)
    else
      match insert_fault with
      | Some sqlstate =>
          (Raise (if String.eqb sqlstate "23503"
                  then DBOSNonExistentWorkflowError destination_uuid
                  else DBAPIError sqlstate), s)
      | None =>
          if has_workflow destination_uuid (db s) then
            match journal_fault with
            | Some sqlstate =>
                (Raise (if String.eqb sqlstate "23505"
                        then DBOSWorkflowConflictIDError workflow_uuid
                        else DBAPIError sqlstate), s)
            | None =>
                (Return tt,
                 set_db (with_operation_outputs
                           (operation_outputs (db s) ++
                              [{| oo_workflow_uuid := workflow_uuid;
                                  oo_function_id := function_id;
                                  oo_output := None; oo_error := None |}])
                           (with_notifications
                              (notifications (db s) ++
                                 [{| n_destination_uuid := destination_uuid;
                                     n_topic := default dbos_null_topic topic;
                                     n_message := serialize message;
                                     n_created_at_epoch_ms := now_ms |}])
                              (db s))) s)
            end
          else (Raise (DBOSNonExistentWorkflowError destination_uuid), s)
      end.
Proof.
  unfold send, transaction. unfold bind at 1.
  destruct (check_operation_execution_spec workflow_uuid function_id
              (Some Connection) s) as (r & -> & Hr & _).
  destruct (has_operation_output workflow_uuid function_id (db s)) eqn:Hj.
  - destruct r as [r|]; [done|]. by destruct Hr as [Hr _]; specialize (Hr eq_refl).
  - destruct r as [r|]; [by destruct Hr as [_ Hr]; specialize (Hr eq_refl)|].
    unfold bind at 1. unfold try_except at 1.
    destruct insert_fault as [sqlstate|].
    + unfold bind, failing_with, raise.
      destruct (String.eqb sqlstate "23503"); by rewrite set_db_same.
    + unfold bind at 1, failing_with, ret, execute, insert_notifications.
      cbn [n_destination_uuid].
      destruct (has_workflow destination_uuid (db s)) eqn:Hw.
      * destruct journal_fault as [sqlstate|].
        -- rewrite record_operation_result_on_fault by (by left).
           cbn [or_workflow_uuid]. f_equal. by destruct s.
        -- rewrite record_operation_result_on_None.
           rewrite record_operation_result_passed by (by left).
           cbn [or_workflow_uuid or_function_id db set_db].
           replace (has_operation_output workflow_uuid function_id _) with false.
           destruct topic; reflexivity.
      * cbn. by rewrite set_db_same.
Qed.

(** C4: [send] returns without touching the tables when the caller's
    ([workflow_uuid], [function_id]) is already journaled. Otherwise it
    inserts the notification, with the topic defaulting to
    ["__null__topic__"] and the message serialized, and then journals the
    operation, for a caller and a destination that have their
    [workflow_status] rows and with no statement failing. It raises
    [DBOSNonExistentWorkflowError] exactly when the insert is answered with
    SQLSTATE 23503, which the tables decide by the destination's missing
    [workflow_status] row; any other failure of the insert is raised as it
    is. All of it is one transaction: when the journal's statement fails
    after the notification was inserted, the notification is gone again,
    and a [send] that raises has changed nothing. *)
Theorem send_idempotent_and_maps_errors (insert_fault journal_fault : option string)
    (now_ms : Z) (workflow_uuid : string)
    (function_id : Z) (destination_uuid : string) (message : pyval)
    (topic : option string) (s : t) :
  let sent_row :=
    {| n_destination_uuid := destination_uuid;
       n_topic := match topic with Some tp => tp | None => "__null__topic__" end;
       n_message := serialize message;
       n_created_at_epoch_ms := now_ms |} in
  let done_row :=
    {| oo_workflow_uuid := workflow_uuid; oo_function_id := function_id;
       oo_output := None; oo_error := None |} in
  let run := send insert_fault journal_fault now_ms workflow_uuid function_id
               destination_uuid message topic s in
  let journaled := has_operation_output workflow_uuid function_id (db s) in
  let foreign_key_fails :=
    insert_fault = Some "23503"
    \/ (insert_fault = None /\ has_workflow destination_uuid (db s) = false) in
  (journaled = true -> run = (Return tt, s))
  /\ (journaled = false -> foreign_key_fails ->
      run = (Raise (DBOSNonExistentWorkflowError destination_uuid), s))
  /\ (journaled = false ->
      forall sqlstate, insert_fault = Some sqlstate -> sqlstate <> "23503" ->
      run = (Raise (DBAPIError sqlstate), s))
  /\ (journaled = false -> insert_fault = None ->
      has_workflow destination_uuid (db s) = true ->
      forall sqlstate, journal_fault = Some sqlstate ->
      run = (Raise (if String.eqb sqlstate "23505"
                    then DBOSWorkflowConflictIDError workflow_uuid
                    else DBAPIError sqlstate), s))
  /\ (journaled = false -> insert_fault = None -> journal_fault = None ->
      has_workflow destination_uuid (db s) = true ->
      has_workflow workflow_uuid (db s) = true ->
      run = (Return tt,
             set_db (with_operation_outputs
                       (operation_outputs (db s) ++ [done_row])
                       (with_notifications (notifications (db s) ++ [sent_row])
                                           (db s))) s))
  /\ (forall d s', run = (Raise (DBOSNonExistentWorkflowError d), s') ->
      d = destination_uuid /\ journaled = false /\ foreign_key_fails)
  /\ (forall e s', run = (Raise e, s') -> s' = s).
Proof.
  cbv zeta. rewrite send_eq.
  split; [|split; [|split; [|split; [|split; [|split]]]]].
  - by intros ->.
  - intros -> [-> | [-> ->]]; done.
  - intros -> sqlstate -> Hne. by destruct (String.eqb_spec sqlstate "23503").
  - by intros -> -> -> sqlstate ->.
  - intros -> -> -> -> _. by destruct topic.
  - intros d s'.
    destruct (has_operation_output _ _ _); [done|].
    destruct insert_fault as [sqlstate|].
    + destruct (String.eqb_spec sqlstate "23503") as [->|]; [|done].
      intros [= <- _]. split; [done|]. split; [done|]. by left.
    + destruct (has_workflow destination_uuid (db s)) eqn:Hw.
      * destruct journal_fault as [sqlstate|]; [|done].
        by destruct (String.eqb sqlstate "23505").
      * intros [= <- _]. split; [done|]. split; [done|]. by right.
  - intros e s'.
    destruct (has_operation_output _ _ _); [done|].
    destruct insert_fault as [sqlstate|]; [by intros [= _ <-]|].
    destruct (has_workflow destination_uuid (db s)); [|by intros [= _ <-]].
    destruct journal_fault as [sqlstate|]; [by intros [= _ <-]|done].
Qed.

End send_properties.

(** ** The application database journal *)

Module AppDBProperties.
Import ApplicationDatabase JournalRows.

Lemma record_transaction_output_eq session a :
  record_transaction_output session a =
    if has_transaction_output (workflow_uuid a) (function_id a) session
    then (Raise (DBOSWorkflowConflictIDError (workflow_uuid a)), session)
    else (Return tt, add_row (output_row session a) session).
Proof.
  unfold record_transaction_output, insert_transaction_outputs.
  cbn [to_workflow_uuid to_function_id].
  by destruct (has_transaction_output _ _ _).
Qed.

Lemma record_transaction_error_async_eq session a :
  record_transaction_error_async session a =
    if has_transaction_output (workflow_uuid a) (function_id a) session
    then (Raise (DBOSWorkflowConflictIDError (workflow_uuid a)), session)
    else (Return tt, add_row (error_row session a) session).
Proof.
  unfold record_transaction_error_async, insert_transaction_outputs.
  cbn [to_workflow_uuid to_function_id].
  by destruct (has_transaction_output _ _ _).
Qed.

(** C10: whatever [output] and [error] the argument carries,
    [record_transaction_output] writes a row whose [error] is null and
    [record_transaction_error_async] a row whose [output] is null; each
    appends exactly that row when the key is free and otherwise raises
    [DBOSWorkflowConflictIDError] and writes nothing. Hence a table whose
    rows have at most one of [output]/[error] non-null keeps that property
    under both writers. *)
Theorem transaction_outputs_rows_have_at_most_one
    (session : Session) (a : TransactionResultInternal) :
  let taken := has_transaction_output (workflow_uuid a) (function_id a) session in
  to_error (output_row session a) = None
  /\ to_output (error_row session a) = None
  /\ record_transaction_output session a =
       (if taken
        then (Raise (DBOSWorkflowConflictIDError (workflow_uuid a)), session)
        else (Return tt, add_row (output_row session a) session))
  /\ record_transaction_error_async session a =
       (if taken
        then (Raise (DBOSWorkflowConflictIDError (workflow_uuid a)), session)
        else (Return tt, add_row (error_row session a) session))
  /\ (Forall at_most_one (transaction_outputs session) ->
      Forall at_most_one
        (transaction_outputs (snd (record_transaction_output session a)))
      /\ Forall at_most_one
           (transaction_outputs (snd (record_transaction_error_async session a)))).
Proof.
  cbv zeta.
  rewrite record_transaction_output_eq, record_transaction_error_async_eq.
  repeat split; try reflexivity;
    destruct (has_transaction_output _ _ _); cbn; try done;
    apply Forall_app; split; try done;
    apply Forall_singleton; [by right | by left].
Qed.

End AppDBProperties.

(** ** Durable sleep *)

Lemma select_operation_outputs_app uuid fn d l :
  select_operation_outputs uuid fn (with_operation_outputs (operation_outputs d ++ l) d)
  = select_operation_outputs uuid fn d
    ++ filter (fun r => oo_workflow_uuid r = uuid /\ oo_function_id r = fn) l.
Proof. unfold select_operation_outputs. cbn. apply filter_app. Qed.

Section sleep_properties.
Context `{Serializer}.

(** The journaled branch: the recorded end time decides the duration. *)
Lemma sleep_journaled env time1 time2 uuid fn seconds skip_sleep (s : t) r rest o e :
  select_operation_outputs uuid fn (db s) = r :: rest ->
  oo_output r = Some o ->
  deserialize o = PyFloat e ->
  sleep env time1 time2 uuid fn seconds skip_sleep s =
    (Return (max0 (e - time2),
             if skip_sleep then None else Some (max0 (e - time2))), s).
Proof.
  intros Hsel Ho He. unfold sleep. unfold bind at 1.
  destruct (check_operation_execution_spec uuid fn None s) as (x & -> & _ & ->).
  rewrite Hsel. cbn [rr_output]. rewrite Ho.
  unfold bind, ret. by rewrite He.
Qed.

(** The fresh branch: the end time is [time1 + seconds]; it is journaled
    unless a concurrent journaler took the key, whose conflict is
    swallowed. *)
Lemma sleep_fresh env time1 time2 uuid fn seconds skip_sleep (s : t) :
  has_operation_output uuid fn (db s) = false ->
  sleep env time1 time2 uuid fn seconds skip_sleep s =
    (Return (max0 (time1 + seconds - time2),
             if skip_sleep then None
             else Some (max0 (time1 + seconds - time2))),
     set_db (if has_operation_output uuid fn (env (db s)) then env (db s)
             else with_operation_outputs
                    (operation_outputs (env (db s)) ++
                       [{| oo_workflow_uuid := uuid; oo_function_id := fn;
                           oo_output := Some (serialize (PyFloat (time1 + seconds)));
                           oo_error := None |}])
                    (env (db s))) s).
Proof.
  intros Hfresh. unfold sleep. unfold bind at 1.
  destruct (check_operation_execution_spec uuid fn None s) as (x & -> & Hx & _).
  destruct Hx as [_ Hx]. rewrite (Hx Hfresh).
  unfold bind at 1. unfold bind at 1. unfold bind at 1. unfold yield_to.
  unfold try_except.
  rewrite record_operation_result_passed by (by left).
  cbn [or_workflow_uuid or_function_id db set_db].
  destruct (has_operation_output uuid fn (env (db s))); reflexivity.
Qed.

(** [max0] is the clamp [max(0, x)]. *)
Lemma max0_clamp (x : Q) :
  (0 <= max0 x)%Q
  /\ ((x <= 0)%Q -> max0 x = 0%Q)
  /\ ((0 < x)%Q -> max0 x = x).
Proof.
  unfold max0. destruct (Qle_bool x 0) eqn:Hx.
  - apply Qle_bool_iff in Hx. split; [apply Qle_refl|]. split; [done|].
    intros Hpos. exfalso. by apply (Qlt_not_le 0 x).
  - assert (Hpos : (0 < x)%Q).
    { apply Qnot_le_lt. intros Hle. apply Qle_bool_iff in Hle. congruence. }
    split; [by apply Qlt_le_weak|]. split; [|done].
    intros Hle. exfalso. by apply (Qlt_not_le 0 x).
Qed.

(** C3: a journaled end time is used as recorded, whatever [seconds] and the
    clock say; without one, [sleep] journals [time1 + seconds], and when a
    concurrent journaler took the key in between, the conflict is swallowed;
    either way it returns [max(0, end - now)], that is a duration that is
    never negative, zero when the end time has passed and [end - now]
    otherwise, and, unless [skip_sleep], blocks for as long. A [sleep]
    invoked again on the state a first [sleep] left returns the time
    remaining until the end time the first one scheduled. *)
Theorem sleep_is_idempotent (env : tables -> tables) (time1 time2 : Q)
    (workflow_uuid : string) (function_id : Z) (seconds : Q)
    (skip_sleep : bool) (s : t) :
  let run := sleep env time1 time2 workflow_uuid function_id seconds skip_sleep s in
  let waits_until (end_time now : Q) (skip : bool) (r : Q * option Q) :=
    (0 <= fst r)%Q
    /\ ((end_time - now <= 0)%Q -> fst r = 0%Q)
    /\ ((0 < end_time - now)%Q -> fst r = (end_time - now)%Q)
    /\ snd r = (if skip then None else Some (fst r)) in
  (forall r rest o e,
      select_operation_outputs workflow_uuid function_id (db s) = r :: rest ->
      oo_output r = Some o ->
      deserialize o = PyFloat e ->
      exists d, run = (Return d, s) /\ waits_until e time2 skip_sleep d)
  /\ (has_operation_output workflow_uuid function_id (db s) = false ->
      (exists d, fst run = Return d
                 /\ waits_until (time1 + seconds)%Q time2 skip_sleep d)
      /\ (has_operation_output workflow_uuid function_id (env (db s)) = true ->
          db (snd run) = env (db s))
      /\ (has_operation_output workflow_uuid function_id (env (db s)) = false ->
          db (snd run) =
            with_operation_outputs
              (operation_outputs (env (db s)) ++
                 [{| oo_workflow_uuid := workflow_uuid;
                     oo_function_id := function_id;
                     oo_output := Some (serialize (PyFloat (time1 + seconds)));
                     oo_error := None |}])
              (env (db s))))
  /\ (has_operation_output workflow_uuid function_id (db s) = false ->
      has_operation_output workflow_uuid function_id (env (db s)) = false ->
      deserialize (serialize (PyFloat (time1 + seconds))) = PyFloat (time1 + seconds) ->
      forall env' time1' time2' seconds' skip_sleep',
      exists d,
        sleep env' time1' time2' workflow_uuid function_id seconds' skip_sleep'
              (snd run)
        = (Return d, snd run)
        /\ waits_until (time1 + seconds)%Q time2' skip_sleep' d).
Proof.
  cbv zeta.
  assert (Hwaits : forall e now (skip : bool),
    (0 <= fst (max0 (e - now), if skip then None else Some (max0 (e - now))))%Q
    /\ ((e - now <= 0)%Q ->
        fst (max0 (e - now), if skip then None else Some (max0 (e - now))) = 0%Q)
    /\ ((0 < e - now)%Q ->
        fst (max0 (e - now), if skip then None else Some (max0 (e - now)))
        = (e - now)%Q)
    /\ snd (max0 (e - now), if skip then None else Some (max0 (e - now)))
       = (if skip then None
          else Some (fst (max0 (e - now),
                          if skip then None else Some (max0 (e - now)))))).
  { intros e now skip. cbn [fst snd].
    destruct (max0_clamp (e - now)) as (H0 & Hle & Hlt). by repeat split. }
  split; [|split].
  - intros r rest o e Hsel Ho He. eexists. split; [by eapply sleep_journaled|].
    apply Hwaits.
  - intros Hfresh. rewrite (sleep_fresh _ _ _ _ _ _ _ _ Hfresh). cbn [fst snd db set_db].
    split; [eexists; split; [reflexivity|apply Hwaits]|]. split; by intros ->.
  - intros Hfresh Henv Hround env' time1' time2' seconds' skip_sleep'.
    rewrite (sleep_fresh _ _ _ _ _ _ _ _ Hfresh). cbn [snd]. rewrite Henv.
    apply select_operation_outputs_nil in Henv.
    eexists. split; [|apply Hwaits].
    eapply sleep_journaled;
      [ cbn [db set_db]; rewrite select_operation_outputs_app, Henv;
        rewrite filter_cons, filter_nil; cbn;
        case_decide; [reflexivity|tauto]
      | reflexivity
      | exact Hround ].
Qed.

End sleep_properties.

(** ** Queue admission *)

Lemma with_workflow_status_same d : with_workflow_status (workflow_status d) d = d.
Proof. by destruct d. Qed.







Lemma map_is_fmap {A B} (f : A -> B) (l : list A) : map f l = f <$> l.
Proof. induction l as [|a l IH]; [done|]. cbn. by rewrite IH. Qed.







(** ** Insertion-ordered dictionaries *)

Section pydict_lemmas.
Context {V : Type}.
Implicit Types d : PyDict.t V.

Lemma get_remove_ne k u d : k <> u -> PyDict.get u (PyDict.remove k d) = PyDict.get u d.
Proof.
  intros Hne. induction d as [|[k' v'] d IH]; [done|]. cbn.
  destruct (String.eqb_spec k k') as [->|Hk]; cbn.
  - destruct (String.eqb_spec u k'); [congruence|done].
  - by rewrite IH.
Qed.

Lemma get_set_ne k v u d : k <> u -> PyDict.get u (PyDict.set k v d) = PyDict.get u d.
Proof.
  intros Hne. induction d as [|[k' v'] d IH]; cbn.
  - destruct (String.eqb_spec u k); [congruence|done].
  - destruct (String.eqb_spec k k') as [->|Hk]; cbn.
    + destruct (String.eqb_spec u k'); [congruence|done].
    + by rewrite IH.
Qed.

Lemma get_update_absent other : forall d u,
  PyDict.get u other = None -> PyDict.get u (PyDict.update other d) = PyDict.get u d.
Proof.
  unfold PyDict.update.
  induction other as [|[k v] other IH]; intros d u Hu; [done|].
  cbn in Hu |- *. destruct (String.eqb_spec u k) as [Heq|Hk]; [done|].
  rewrite IH by done. apply get_set_ne. congruence.
Qed.

End pydict_lemmas.

(** ** The buffered writer *)

Ltac fields :=
  cbn [db sent _workflow_inputs_buffer _workflow_status_buffer
       _exported_temp_txn_wf_status _temp_txn_wf_ids _is_flushing_status_buffer
       set_db set_exported set_temp set_inputs_buffer set_status_buffer
       set_is_flushing send_statement fst snd
       workflow_status workflow_inputs operation_outputs notifications job_queue
       with_workflow_inputs with_workflow_status] in *.

Lemma inputs_call_effect fault wf inputs (s : t) o s' :
  (failing fault wf ;; update_workflow_inputs wf inputs (Some Connection)) s = (o, s') ->
  inputs_call_post wf s s'.
Proof.
  unfold inputs_call_post, bind, failing.
  destruct (fault wf) as [e|].
  - intros [= _ <-]. split; [by exists []; rewrite app_nil_r|]. by repeat split; auto.
  - unfold ret, update_workflow_inputs, bind, modify, on_connection, execute,
      insert_workflow_inputs.
    fields. cbn [wi_workflow_uuid].
    assert (Hsent : forall x : t, exists l,
               sent x ++ [InsertWorkflowInputs wf]
               = sent x ++ map InsertWorkflowInputs l /\ Forall (eq wf) l)
      by (intros x; exists [wf]; split; [done|by repeat constructor]).
    destruct (has_inputs wf (db s)); [|destruct (has_workflow wf (db s)) eqn:Hw];
      fields.
    + destruct (decide (wf ∈ _temp_txn_wf_ids s)) as [Hin|Hin];
        unfold bind, modify, ret; intros Heq; apply (f_equal snd) in Heq; cbn [snd] in Heq; subst s'; fields;
        (split; [apply Hsent|]); (split; [done|]); (split; [first [done | by apply subseteq_difference_l]|]);
        (split; [done|]); by intros r; left.
    + destruct (decide (wf ∈ _temp_txn_wf_ids s)) as [Hin|Hin];
        unfold bind, modify, ret; intros Heq; apply (f_equal snd) in Heq; cbn [snd] in Heq; subst s'; fields;
        (split; [apply Hsent|]); (split; [done|]); (split; [first [done | by apply subseteq_difference_l]|]);
        (split; [done|]);
        intros r [Hr|[<-|[]]]%in_app_or; [by left | by right | by left | by right].
    + intros [= _ <-]; fields.
      (split; [apply Hsent|]); (split; [done|]); (split; [first [done | by apply subseteq_difference_l]|]);
        (split; [done|]); by intros r; left.
Qed.

Lemma has_workflow_ext u d d' :
  workflow_status d = workflow_status d' -> has_workflow u d = has_workflow u d'.
Proof. unfold has_workflow. by intros ->. Qed.

Lemma inputs_loop_post_refl d0 ei s : inputs_loop_post d0 ei s s.
Proof.
  split; [by exists []; rewrite app_nil_r|].
  split; [done|]. split; [done|]. intros Hs. split; [done|]. by left.
Qed.

Lemma inputs_loop_post_pop d0 ei wf (s s' : t) :
  wf ∈ _exported_temp_txn_wf_status s ->
  inputs_loop_post d0 ei
    (set_inputs_buffer (PyDict.remove wf (_workflow_inputs_buffer s)) s) s' ->
  inputs_loop_post d0 ei s s'.
Proof.
  intros Hwf (Hsent & Hsub & Hbuf & Hdb). fields.
  split; [done|]. split; [done|]. split; [|done].
  intros u Hu Hei. rewrite Hbuf by done. apply get_remove_ne. by intros ->.
Qed.

Lemma inputs_loop_post_call d0 ei wf inputs (s s1 s' : t) :
  wf ∈ _exported_temp_txn_wf_status s ->
  inputs_call_post wf s s1 ->
  inputs_loop_post d0 (PyDict.set wf inputs ei) s1 s' ->
  inputs_loop_post d0 ei s s'.
Proof.
  intros Hwf ((l & Hl & Hlwf) & Hbuf1 & Hsub1 & Hws1 & Hwi1)
             ((ins & Hins & Hinsx) & Hsub & Hbuf & Hdb).
  split; [|split; [|split]].
  - exists (l ++ ins). rewrite Hins, Hl, map_app, app_assoc. split; [done|].
    apply Forall_app. split.
    + eapply Forall_impl; [exact Hlwf|]. by intros ? <-.
    + eapply Forall_impl; [exact Hinsx|]. intros u Hu. by apply Hsub1.
  - by etransitivity.
  - intros u Hu Hei. rewrite Hbuf, Hbuf1; [done| |].
    + intros Hu1. by apply Hu, Hsub1.
    + rewrite get_set_ne; [done|]. by intros ->.
  - intros Hs. destruct Hdb as [Hws Hwi]; [congruence|]. split; [done|].
    intros r Hr. destruct (Hwi r Hr) as [Hr1|Hr1]; [|by right].
    destruct (Hwi1 r Hr1) as [Hr0|Hr0]; [by left|].
    right; right. by rewrite <- (has_workflow_ext _ _ _ Hs).
Qed.

Lemma inputs_loop_post_rollback d0 ei wf inputs (s s1 : t) :
  wf ∈ _exported_temp_txn_wf_status s ->
  inputs_call_post wf s s1 ->
  inputs_loop_post d0 ei s
    (set_inputs_buffer
       (PyDict.update (PyDict.set wf inputs ei)
          (_workflow_inputs_buffer (set_db d0 s1))) (set_db d0 s1)).
Proof.
  intros Hwf ((l & Hl & Hlwf) & Hbuf1 & Hsub1 & Hws1 & Hwi1).
  split; [|split; [|split]]; fields.
  - exists l. split; [done|]. eapply Forall_impl; [exact Hlwf|]. by intros ? <-.
  - done.
  - intros u Hu Hei. rewrite get_update_absent, Hbuf1; [done|].
    rewrite get_set_ne; [done|]. by intros ->.
  - intros _. split; [done|]. by right; left.
Qed.

Lemma flush_inputs_loop_post fault d0 ids : forall exported ei (s : t),
  inputs_loop_post d0 ei s (flush_inputs_loop fault d0 ids exported ei s).
Proof.
  induction ids as [|wf ids IH]; intros exported ei s; cbn [flush_inputs_loop];
    destruct (exported <? buffer_flush_batch_size); cbn [negb];
    try apply inputs_loop_post_refl.
  destruct (decide (wf ∉ _exported_temp_txn_wf_status s)) as [Hout|Hin]; [apply IH|].
  apply dec_stable in Hin. unfold PyDict.pop.
  destruct (PyDict.get wf (_workflow_inputs_buffer s)) as [inputs|].
  - destruct ((failing fault wf;; update_workflow_inputs wf inputs (Some Connection))
                (set_inputs_buffer (PyDict.remove wf (_workflow_inputs_buffer s)) s))
      as [[[]|e] s1] eqn:Hcall;
      apply inputs_call_effect in Hcall;
      apply (inputs_loop_post_pop _ _ wf); try done.
    + eapply inputs_loop_post_call; [done|exact Hcall|apply IH].
    + by eapply inputs_loop_post_rollback.
  - apply (inputs_loop_post_pop _ _ wf); [done|]. apply IH.
Qed.

Lemma flush_inputs_post fault (s : t) :
  _flush_workflow_inputs_buffer fault s
  = (Return tt, snd (_flush_workflow_inputs_buffer fault s))
  /\ inputs_loop_post (db s) [] s (snd (_flush_workflow_inputs_buffer fault s)).
Proof.
  unfold _flush_workflow_inputs_buffer.
  destruct (Z.of_nat (length (_workflow_inputs_buffer s)) =? 0); cbn [snd].
  - split; [done|]. apply inputs_loop_post_refl.
  - split; [done|]. apply flush_inputs_loop_post.
Qed.

Lemma status_call_sent now_ms fault wf st (s : t) o s' :
  (failing fault wf ;; update_workflow_status now_ms st true false (Some Connection)) s
  = (o, s') ->
  exists l, sent s' = sent s ++ map UpsertWorkflowStatus l.
Proof.
  unfold bind, failing. destruct (fault wf) as [e|].
  - intros [= _ <-]. exists []. by rewrite app_nil_r.
  - unfold ret, update_workflow_status, bind, modify, on_connection, execute,
      insert_workflow_status.
    fields.
    destruct (has_workflow _ _); fields;
      destruct (decide (_ ∈ _temp_txn_wf_ids s)) as [Hin|Hin];
      unfold ret; intros Heq; apply (f_equal snd) in Heq; cbn [snd] in Heq;
      subst s'; fields; by exists [workflow_uuid st].
Qed.

Lemma flush_status_loop_sent now_ms fault d0 ids : forall exported es (s : t),
  exists ups,
    sent (flush_status_loop now_ms fault d0 ids exported es s)
    = sent s ++ map UpsertWorkflowStatus ups.
Proof.
  assert (Hrefl : forall s : t, exists ups, sent s = sent s ++ map UpsertWorkflowStatus ups)
    by (intros s; exists []; by rewrite app_nil_r).
  induction ids as [|wf ids IH]; intros exported es s; cbn [flush_status_loop];
    destruct (exported <? buffer_flush_batch_size); cbn [negb]; try apply Hrefl.
  unfold PyDict.pop.
  destruct (PyDict.get wf (_workflow_status_buffer s)) as [st|].
  - destruct ((failing fault wf;;
               update_workflow_status now_ms st true false (Some Connection))
                (set_status_buffer (PyDict.remove wf (_workflow_status_buffer s)) s))
      as [[[]|e] s1] eqn:Hcall;
      apply status_call_sent in Hcall as [l Hl]; fields.
    + destruct (IH (exported + 1) (PyDict.set wf st es) s1) as [ups Hups].
      exists (l ++ ups). by rewrite Hups, Hl, map_app, app_assoc.
    + by exists l.
  - destruct (IH exported es
                (set_status_buffer (PyDict.remove wf (_workflow_status_buffer s)) s))
      as [ups Hups].
    by exists ups.
Qed.

Lemma flush_status_post now_ms fault (s : t) :
  _flush_workflow_status_buffer now_ms fault s
  = (Return tt, snd (_flush_workflow_status_buffer now_ms fault s))
  /\ exists ups,
       sent (snd (_flush_workflow_status_buffer now_ms fault s))
       = sent s ++ map UpsertWorkflowStatus ups.
Proof.
  unfold _flush_workflow_status_buffer.
  destruct (Z.of_nat (length (_workflow_status_buffer s)) =? 0); cbn [snd].
  - split; [done|]. exists []. by rewrite app_nil_r.
  - split; [done|]. apply flush_status_loop_sent.
Qed.

(** C9: one pass of [flush_workflow_buffers] is the status flush followed by
    the inputs flush, so every [workflow_status] statement of the pass is
    sent before any [workflow_inputs] statement. The inputs flush sends a
    row only for a uuid that is in [_exported_temp_txn_wf_status] (hence in
    that set or outside [_temp_txn_wf_ids]); a buffered row whose uuid is
    not in [_exported_temp_txn_wf_status], in particular one that is neither
    in that set nor outside [_temp_txn_wf_ids], stays in the buffer
    unchanged. Every [workflow_inputs] row the
    pass adds has its [workflow_status] row in the database as the status
    flush committed it, and the inputs flush leaves [workflow_status]
    alone. *)
Theorem flush_status_before_inputs (now_ms : Z)
    (status_fault inputs_fault : string -> option exn) (s : t) :
  let s1 := snd (_flush_workflow_status_buffer now_ms status_fault
                   (set_is_flushing true s)) in
  let s2 := snd (_flush_workflow_inputs_buffer inputs_fault s1) in
  flush_workflow_buffers now_ms status_fault inputs_fault s
  = (Return tt, set_is_flushing false s2)
  /\ (exists ups ins,
        sent s1 = sent s ++ map UpsertWorkflowStatus ups
        /\ sent s2 = sent s1 ++ map InsertWorkflowInputs ins
        /\ forall u, In u ins ->
             u ∈ _exported_temp_txn_wf_status s1
             /\ (u ∈ _exported_temp_txn_wf_status s1 \/ u ∉ _temp_txn_wf_ids s1))
  /\ (forall u,
        u ∉ _exported_temp_txn_wf_status s1
        \/ ~ (u ∈ _exported_temp_txn_wf_status s1 \/ u ∉ _temp_txn_wf_ids s1) ->
        PyDict.get u (_workflow_inputs_buffer s2)
        = PyDict.get u (_workflow_inputs_buffer s1))
  /\ (forall r, In r (workflow_inputs (db s2)) ->
        In r (workflow_inputs (db s1))
        \/ has_workflow (wi_workflow_uuid r) (db s1) = true)
  /\ workflow_status (db s2) = workflow_status (db s1).
Proof.
  cbv zeta.
  destruct (flush_status_post now_ms status_fault (set_is_flushing true s))
    as [Hrun1 [ups Hups]].
  set (s1 := snd (_flush_workflow_status_buffer now_ms status_fault
                    (set_is_flushing true s))) in *.
  destruct (flush_inputs_post inputs_fault s1)
    as [Hrun2 ((ins & Hins & Hallowed) & _ & Hbuf & Hdb)].
  set (s2 := snd (_flush_workflow_inputs_buffer inputs_fault s1)) in *.
  destruct (Hdb eq_refl) as [Hws Hwi].
  split; [|split; [|split; [|split]]].
  - unfold flush_workflow_buffers, try_except. unfold bind at 1.
    unfold modify at 1. unfold bind at 1. rewrite Hrun1.
    unfold bind at 1. rewrite Hrun2. reflexivity.
  - exists ups, ins. split; [exact Hups|]. split; [exact Hins|].
    intros u Hu. rewrite Forall_forall in Hallowed.
    assert (u ∈ _exported_temp_txn_wf_status s1)
      by (by apply Hallowed, list_elem_of_In).
    by split; [|left].
  - intros u Hu. apply Hbuf; [|done]. intros Hin.
    destruct Hu as [Hu|Hu]; [done|]. apply Hu. by left.
  - intros r Hr. destruct (Hwi r Hr) as [?|[?|?]]; auto.
  - exact Hws.
Qed.

(** ** recv: the consuming step when timestamps do not tie *)

Lemma select_notifications_unfold uuid topic d :
  select_notifications uuid topic d = filter (matches uuid topic) (notifications d).
Proof. reflexivity. Qed.

Lemma joins_oldest_single o n :
  joins_oldest [o] n = true <->
  n_destination_uuid n = n_destination_uuid o
  /\ n_topic n = n_topic o
  /\ n_created_at_epoch_ms n = n_created_at_epoch_ms o.
Proof.
  unfold joins_oldest. cbn [existsb]. rewrite orb_false_r, !andb_true_iff.
  rewrite !String.eqb_eq, Z.eqb_eq. tauto.
Qed.

Lemma joins_oldest_nil n : joins_oldest [] n = false.
Proof. reflexivity. Qed.

(** Splitting the table around the one row that joins a row [o] whose
    timestamp no other matching row shares. *)
Lemma delete_single uuid topic o : forall ns,
  NoDup (map n_created_at_epoch_ms (filter (matches uuid topic) ns)) ->
  In o (filter (matches uuid topic) ns) ->
  exists l1 l2,
    ns = l1 ++ o :: l2
    /\ List.filter (joins_oldest [o]) ns = [o]
    /\ List.filter (fun n => negb (joins_oldest [o] n)) ns = l1 ++ l2.
Proof.
  assert (Ho : forall l, In o (filter (matches uuid topic) l) -> matches uuid topic o).
  { intros l Hin. apply list_elem_of_In, list_elem_of_filter in Hin. tauto. }
  assert (Hnone : forall a l,
    matches uuid topic o ->
    n_created_at_epoch_ms a = n_created_at_epoch_ms o ->
    ~ In (n_created_at_epoch_ms a)
         (map n_created_at_epoch_ms (filter (matches uuid topic) l)) ->
    List.filter (joins_oldest [o]) l = []
    /\ List.filter (fun n => negb (joins_oldest [o] n)) l = l).
  { intros a l [Hou Hot] Hc. induction l as [|b l IH]; intros Hnot; [done|].
    cbn [List.filter]. destruct (joins_oldest [o] b) eqn:Hj.
    - exfalso. apply joins_oldest_single in Hj as (Hd & Ht & Hcb).
      apply Hnot. rewrite filter_cons_True by (split; congruence).
      left. congruence.
    - cbn [negb]. destruct IH as [-> ->]; [|done].
      intros Hin. apply Hnot. rewrite filter_cons.
      destruct (decide (matches uuid topic b)); [by right|done]. }
  induction ns as [|a ns IH]; intros Hnd Hin; [done|].
  rewrite filter_cons in Hnd, Hin. cbn [List.filter].
  destruct (decide (matches uuid topic a)) as [Ha|Ha].
  - cbn [map] in Hnd. apply NoDup_cons in Hnd as [Hfresh Hnd].
    rewrite list_elem_of_In in Hfresh.
    destruct Hin as [->|Hin].
    + destruct (Hnone o ns Ha eq_refl Hfresh) as [-> ->].
      replace (joins_oldest [o] o) with true
        by (symmetry; by apply joins_oldest_single).
      by exists [], ns.
    + destruct (joins_oldest [o] a) eqn:Hj.
      * exfalso. apply joins_oldest_single in Hj as (_ & _ & Hc).
        apply Hfresh. rewrite Hc. by apply in_map.
      * destruct (IH Hnd Hin) as (l1 & l2 & -> & -> & Hrest).
        exists (a :: l1), l2. cbn [negb]. by rewrite Hrest.
  - destruct (joins_oldest [o] a) eqn:Hj.
    + exfalso. apply joins_oldest_single in Hj as (Hd & Ht & _).
      destruct (Ho _ Hin) as [Hou Hot]. apply Ha. split; congruence.
    + destruct (IH Hnd Hin) as (l1 & l2 & -> & -> & Hrest).
      exists (a :: l1), l2. cbn [negb]. by rewrite Hrest.
Qed.

(** [ORDER BY created_at_epoch_ms ASC LIMIT 1] yields nothing when nothing
    matches and otherwise one matching row that no matching row precedes. *)
Lemma oldest_entry_cases uuid topic d :
  (select_notifications uuid topic d = [] /\ oldest_entry uuid topic d = [])
  \/ exists o,
       oldest_entry uuid topic d = [o]
       /\ In o (select_notifications uuid topic d)
       /\ forall n, In n (select_notifications uuid topic d) ->
            n_created_at_epoch_ms o <= n_created_at_epoch_ms n.
Proof.
  unfold oldest_entry.
  assert (Htrans : Transitive created_le)
    by (intros x y z; unfold created_le; lia).
  assert (Htotal : Total created_le)
    by (intros x y; unfold created_le; lia).
  pose proof (merge_sort_Permutation created_le
                (select_notifications uuid topic d)) as Hperm.
  pose proof (StronglySorted_merge_sort created_le
                (select_notifications uuid topic d)) as Hsorted.
  destruct (merge_sort created_le (select_notifications uuid topic d))
    as [|o m].
  - left. split; [|done]. by apply Permutation_nil in Hperm.
  - right. exists o. split; [done|].
    apply StronglySorted_cons in Hsorted as [Hle _].
    rewrite Forall_forall in Hle. split.
    + apply list_elem_of_In. rewrite <- Hperm. by left.
    + intros n Hn. apply list_elem_of_In in Hn. rewrite <- Hperm in Hn.
      apply elem_of_cons in Hn as [->|Hn]; [lia|]. by apply Hle.
Qed.

Lemma filter_negb_nil (ns : list notifications_row) :
  List.filter (fun n => negb (joins_oldest [] n)) ns = ns.
Proof.
  induction ns as [|a ns IH]; [done|]. cbn [List.filter].
  rewrite joins_oldest_nil. cbn [negb]. by f_equal.
Qed.

Lemma filter_joins_nil (ns : list notifications_row) :
  List.filter (joins_oldest []) ns = [].
Proof. induction ns as [|a ns IH]; [done|]. cbn [List.filter]. by rewrite joins_oldest_nil. Qed.

Lemma with_notifications_same d : with_notifications (notifications d) d = d.
Proof. by destruct d. Qed.

Section recv_properties.
Context `{Serializer}.

(** The consuming step in terms of what the [DELETE] returns. *)
Lemma recv_consume_run workflow_uuid function_id topic (s : t) rows d' :
  has_operation_output workflow_uuid function_id (db s) = false ->
  delete_oldest_entry workflow_uuid topic (db s) = (rows, d') ->
  operation_outputs d' = operation_outputs (db s) ->
  recv_consume workflow_uuid function_id topic s
  = (Return (match rows with r :: _ => deserialize r | [] => PyNone end),
     set_db (journal_message workflow_uuid function_id
               (match rows with r :: _ => deserialize r | [] => PyNone end) d') s).
Proof.
  intros Hfresh Hdel Hoo. unfold recv_consume, transaction.
  unfold bind at 1. unfold execute_returning. rewrite Hdel.
  unfold bind. rewrite record_operation_result_passed by (by left).
  cbn [or_workflow_uuid or_function_id db set_db].
  replace (has_operation_output workflow_uuid function_id d') with false
    by (unfold has_operation_output in *; by rewrite Hoo).
  reflexivity.
Qed.

Lemma recv_consume_empty workflow_uuid function_id topic (s : t) :
  has_operation_output workflow_uuid function_id (db s) = false ->
  select_notifications workflow_uuid topic (db s) = [] ->
  recv_consume workflow_uuid function_id topic s
  = (Return PyNone,
     set_db (journal_message workflow_uuid function_id PyNone (db s)) s).
Proof.
  intros Hfresh Hnil.
  destruct (oldest_entry_cases workflow_uuid topic (db s))
    as [[_ Hcte]|(o & _ & Hin & _)]; [|by rewrite Hnil in Hin].
  rewrite (recv_consume_run _ _ _ _ [] (db s)); [done|done| |done].
  unfold delete_oldest_entry.
  rewrite Hcte, filter_negb_nil, filter_joins_nil.
  by rewrite with_notifications_same.
Qed.

Lemma recv_consume_nonempty workflow_uuid function_id topic (s : t) :
  has_operation_output workflow_uuid function_id (db s) = false ->
  NoDup (map n_created_at_epoch_ms
           (select_notifications workflow_uuid topic (db s))) ->
  select_notifications workflow_uuid topic (db s) <> [] ->
  exists o l1 l2,
    notifications (db s) = l1 ++ o :: l2
    /\ In o (select_notifications workflow_uuid topic (db s))
    /\ (forall n, In n (select_notifications workflow_uuid topic (db s)) ->
          n_created_at_epoch_ms o <= n_created_at_epoch_ms n)
    /\ recv_consume workflow_uuid function_id topic s
       = (Return (deserialize (n_message o)),
          set_db (journal_message workflow_uuid function_id
                    (deserialize (n_message o))
                    (with_notifications (l1 ++ l2) (db s))) s).
Proof.
  intros Hfresh Hnd Hsome.
  destruct (oldest_entry_cases workflow_uuid topic (db s))
    as [[Hnil _]|(o & Hcte & Hin & Hmin)]; [done|].
  destruct (delete_single workflow_uuid topic o (notifications (db s)) Hnd Hin)
    as (l1 & l2 & Hsplit & Hdel & Hkeep).
  exists o, l1, l2. split; [done|]. split; [done|]. split; [done|].
  rewrite (recv_consume_run _ _ _ _ [n_message o]
             (with_notifications (l1 ++ l2) (db s))); [done|done| |done].
  unfold delete_oldest_entry. by rewrite Hcte, Hdel, Hkeep.
Qed.

(** When the matching rows carry pairwise distinct timestamps and the
    caller's key is not journaled yet, the consuming step of [recv] deletes
    exactly one row, a matching row that is oldest among the matching ones,
    returns its deserialized message and journals it; when nothing matches
    it deletes nothing, returns [None] and journals its serialized form. *)
Theorem recv_consume_takes_oldest (workflow_uuid : string) (function_id : Z)
    (topic : string) (s : t) :
  has_operation_output workflow_uuid function_id (db s) = false ->
  NoDup (map n_created_at_epoch_ms
           (select_notifications workflow_uuid topic (db s))) ->
  (select_notifications workflow_uuid topic (db s) = [] ->
     recv_consume workflow_uuid function_id topic s
     = (Return PyNone,
        set_db (journal_message workflow_uuid function_id PyNone (db s)) s))
  /\ (select_notifications workflow_uuid topic (db s) <> [] ->
      exists o l1 l2,
        notifications (db s) = l1 ++ o :: l2
        /\ In o (select_notifications workflow_uuid topic (db s))
        /\ (forall n, In n (select_notifications workflow_uuid topic (db s)) ->
              n_created_at_epoch_ms o <= n_created_at_epoch_ms n)
        /\ recv_consume workflow_uuid function_id topic s
           = (Return (deserialize (n_message o)),
              set_db (journal_message workflow_uuid function_id
                        (deserialize (n_message o))
                        (with_notifications (l1 ++ l2) (db s))) s)).
Proof.
  intros Hfresh Hnd. split.
  - intros Hnil. by apply recv_consume_empty.
  - intros Hsome. by apply recv_consume_nonempty.
Qed.

(** Under the same conditions two consuming steps in a row, with nothing
    sent in between, observe the two oldest matching rows, the older one
    first. *)
Theorem recv_consume_fifo (workflow_uuid : string) (fn1 fn2 : Z)
    (topic : string) (s : t) :
  fn1 <> fn2 ->
  has_operation_output workflow_uuid fn1 (db s) = false ->
  has_operation_output workflow_uuid fn2 (db s) = false ->
  NoDup (map n_created_at_epoch_ms
           (select_notifications workflow_uuid topic (db s))) ->
  (2 <= length (select_notifications workflow_uuid topic (db s)))%nat ->
  let first := recv_consume workflow_uuid fn1 topic s in
  let second := recv_consume workflow_uuid fn2 topic (snd first) in
  exists o1 o2,
    In o1 (select_notifications workflow_uuid topic (db s))
    /\ In o2 (select_notifications workflow_uuid topic (db s))
    /\ n_created_at_epoch_ms o1 < n_created_at_epoch_ms o2
    /\ (forall n, In n (select_notifications workflow_uuid topic (db s)) ->
          n = o1 \/ n_created_at_epoch_ms o2 <= n_created_at_epoch_ms n)
    /\ fst first = Return (deserialize (n_message o1))
    /\ fst second = Return (deserialize (n_message o2)).
Proof.
  intros Hfn Hfresh1 Hfresh2 Hnd Hlen. cbv zeta.
  destruct (recv_consume_nonempty workflow_uuid fn1 topic s Hfresh1 Hnd)
    as (o1 & l1 & l2 & Hsplit & Hin1 & Hmin1 & ->).
  { intros Hnil. rewrite Hnil in Hlen. cbn in Hlen. lia. }
  cbn [fst snd].
  set (s1 := set_db _ s).
  assert (Hm1 : matches workflow_uuid topic o1).
  { pose proof Hin1 as Hm. rewrite select_notifications_unfold in Hm.
    apply list_elem_of_In, list_elem_of_filter in Hm. tauto. }
  assert (Hsel : select_notifications workflow_uuid topic (db s)
                 = filter (matches workflow_uuid topic) l1
                   ++ o1 :: filter (matches workflow_uuid topic) l2).
  { rewrite select_notifications_unfold, Hsplit, filter_app.
    by rewrite filter_cons_True. }
  assert (Hsel1 : select_notifications workflow_uuid topic (db s1)
                  = filter (matches workflow_uuid topic) l1
                    ++ filter (matches workflow_uuid topic) l2).
  { rewrite select_notifications_unfold. subst s1. cbn. apply filter_app. }
  rewrite Hsel in Hnd, Hlen, Hmin1 |- *.
  rewrite map_app in Hnd. cbn [map] in Hnd.
  apply NoDup_app in Hnd as (Hnd1 & Hsep & Hnd2).
  apply NoDup_cons in Hnd2 as [Hfresh Hnd2].
  destruct (recv_consume_nonempty workflow_uuid fn2 topic s1)
    as (o2 & k1 & k2 & _ & Hin2 & Hmin2 & ->).
  { subst s1. cbn. unfold has_operation_output in *. cbn.
    rewrite existsb_app, Hfresh2. cbn.
    destruct (Z.eqb_spec fn1 fn2); [done|]. by rewrite andb_false_r. }
  { rewrite Hsel1, map_app. apply NoDup_app. split; [done|]. split; [|done].
    intros x Hx1 Hx2. apply (Hsep x Hx1). by right. }
  { rewrite Hsel1. rewrite length_app in Hlen. cbn [length] in Hlen.
    intros Hnil. apply (f_equal length) in Hnil. rewrite length_app in Hnil.
    cbn in Hnil. lia. }
  rewrite Hsel1 in Hin2, Hmin2.
  exists o1, o2. split; [apply in_or_app; right; by left|].
  assert (Hin2' : In o2 (filter (matches workflow_uuid topic) l1
                         ++ o1 :: filter (matches workflow_uuid topic) l2)).
  { apply in_app_or in Hin2 as [?|?]; apply in_or_app; [by left|by right; right]. }
  split; [done|]. split.
  - pose proof (Hmin1 o2 Hin2') as Hle.
    assert (n_created_at_epoch_ms o1 <> n_created_at_epoch_ms o2); [|lia].
    intros Heq. apply in_app_or in Hin2 as [Hl|Hr].
    + apply (Hsep (n_created_at_epoch_ms o1)); [|by left].
      rewrite Heq. by apply list_elem_of_In, in_map.
    + apply Hfresh. rewrite Heq. by apply list_elem_of_In, in_map.
  - split; [|done]. intros n Hn.
    apply in_app_or in Hn as [Hn|[Hn|Hn]]; [right|by left|right];
      apply Hmin2, in_or_app; [by left|by right].
Qed.

End recv_properties.

(** ** set_workflow_status and recovery as they are *)

Lemma update_from_constant {A B} (p : B -> bool) (f : A -> A)
    (target : list A) (other : list B) :
  snd (update_from (fun _ b => p b) f target other)
  = if existsb p other then map f target else target.
Proof.
  unfold update_from. cbn [snd].
  destruct (existsb p other); [reflexivity|apply map_id].
Qed.

(** With [reset_recovery_attempts], the second statement of
    [set_workflow_status] binds the Python bool to the integer column
    [recovery_attempts]; the server refuses it, and the call raises the
    driver's error with the status update rolled back. Without it, the call
    returns and rewrites the status, and nothing else, of every
    [workflow_status] row when [workflow_inputs] holds a row for the given
    uuid, and of none otherwise. *)
Theorem set_workflow_status_effect (uuid : string) (st : WorkflowStatusString)
    (s : t) :
  (exists sqlstate,
     set_workflow_status uuid st true s = (Raise (DBAPIError sqlstate), s))
  /\ set_workflow_status uuid st false s =
      (Return tt,
       set_db (with_workflow_status
                 (if existsb (fun wi => String.eqb (wi_workflow_uuid wi) uuid)
                             (workflow_inputs (db s))
                  then map (fun r =>
                              {| ws_workflow_uuid := ws_workflow_uuid r;
                                 ws_status := value st;
                                 ws_name := ws_name r;
                                 ws_class_name := ws_class_name r;
                                 ws_config_name := ws_config_name r;
                                 ws_output := ws_output r;
                                 ws_error := ws_error r;
                                 ws_executor_id := ws_executor_id r;
                                 ws_application_version := ws_application_version r;
                                 ws_application_id := ws_application_id r;
                                 ws_request := ws_request r;
                                 ws_recovery_attempts := ws_recovery_attempts r;
                                 ws_authenticated_user := ws_authenticated_user r;
                                 ws_authenticated_roles := ws_authenticated_roles r;
                                 ws_assumed_role := ws_assumed_role r;
                                 ws_queue_name := ws_queue_name r;
                                 ws_created_at := ws_created_at r |})
                           (workflow_status (db s))
                  else workflow_status (db s)) (db s)) s).
Proof.
  unfold set_workflow_status, transaction, bind, execute, ret.
  rewrite update_from_constant. split.
  - eexists. cbn [db set_db]. f_equal. by destruct s.
  - cbn [db set_db]. by destruct (existsb _ (workflow_inputs (db s))).
Qed.

Section recovery_properties.
Variable WorkflowHandle : Type.
Variable execute_workflow_by_id : string -> M WorkflowHandle.

Lemma recover_executors_ignores_vmid vmid executor_ids : forall s : t,
  handles_of (Recovery.recover_executors WorkflowHandle execute_workflow_by_id
                vmid executor_ids s)
  = handles_of (Recovery.recover_executors WorkflowHandle execute_workflow_by_id
                  None executor_ids s).
Proof.
  induction executor_ids as [|e ids IH]; intros s; [done|].
  cbn [Recovery.recover_executors]. unfold bind, ret.
  destruct (Recovery.pending_workflows_of e s) as [[pending|ex] s1]; [|done].
  destruct (Recovery.recover_each WorkflowHandle execute_workflow_by_id pending s1)
    as [[handles|ex] s2]; [|done].
  specialize (IH s2). unfold handles_of in IH.
  destruct (Recovery.recover_executors _ _ vmid ids s2) as [[[h1 l1]|e1] s3],
           (Recovery.recover_executors _ _ None ids s2) as [[[h2 l2]|e2] s4];
    cbn in IH |- *; unfold handles_of; cbn; congruence.
Qed.

(** The handles [recover_pending_workflows] returns, the exception it
    raises and the state it leaves do not depend on [DBOS__VMID]. *)
Theorem recover_pending_workflows_ignores_vmid (vmid : option string)
    (executor_ids : list string) (s : t) :
  handles_of (Recovery.recover_pending_workflows WorkflowHandle
                execute_workflow_by_id vmid executor_ids s)
  = handles_of (Recovery.recover_pending_workflows WorkflowHandle
                  execute_workflow_by_id None executor_ids s).
Proof.
  pose proof (recover_executors_ignores_vmid vmid executor_ids s) as Hsame.
  unfold Recovery.recover_pending_workflows, bind, handles_of in *.
  destruct (Recovery.recover_executors _ _ vmid executor_ids s) as [[[h1 l1]|e1] s3],
           (Recovery.recover_executors _ _ None executor_ids s) as [[[h2 l2]|e2] s4];
    cbn in Hsame |- *; congruence.
Qed.

End recovery_properties.

(** * Scenarios on concrete inputs *)

Module Scenarios.
Import Fixtures.
#[local] Existing Instance tagged_serializer.

(** S1 of the spec: a second result under the same key conflicts and the
    first stays. *)
Example oaoo_step :
  let first := {| or_workflow_uuid := "W1"; or_function_id := 3;
                  or_output := Some "a"; or_error := None |} in
  let second := {| or_workflow_uuid := "W1"; or_function_id := 3;
                   or_output := Some "b"; or_error := None |} in
  let s1 := snd (record_operation_result first None (init one_pending)) in
  fst (record_operation_result second None s1)
  = Raise (DBOSWorkflowConflictIDError "W1")
  /\ fst (check_operation_execution "W1" 3 None s1)
     = Return (Some {| rr_output := Some "a"; rr_error := None |}).
Proof. vm_compute. done. Qed.

(** C1 (counterexample): a result whose [output] and [error] are both null,
    journaled for a workflow that has its status row, does not fail the
    assertion; the call returns and the row is there. *)
Lemma record_operation_result_accepts_both_null :
  fst (record_operation_result
         {| or_workflow_uuid := "W1"; or_function_id := 3;
            or_output := None; or_error := None |} None (init one_pending))
  = Return tt
  /\ operation_outputs
       (db (snd (record_operation_result
                   {| or_workflow_uuid := "W1"; or_function_id := 3;
                      or_output := None; or_error := None |} None
                   (init one_pending))))
     = [{| oo_workflow_uuid := "W1"; oo_function_id := 3;
           oo_output := None; oo_error := None |}].
Proof. vm_compute. done. Qed.

Lemma record_operation_result_at_most_one_witness :
  record_operation_result
    {| or_workflow_uuid := "W1"; or_function_id := 3;
       or_output := Some "a"; or_error := Some "e" |} None (init one_pending)
  = (Raise (AssertionError "Only one of error or output can be set"),
     init one_pending)
  /\ record_operation_result
       {| or_workflow_uuid := "W1"; or_function_id := 3;
          or_output := Some "a"; or_error := None |} None (init one_pending)
     = (Return tt,
        set_db (with_operation_outputs
                  [{| oo_workflow_uuid := "W1"; oo_function_id := 3;
                      oo_output := Some "a"; oo_error := None |}] one_pending)
          (init one_pending)).
Proof.
  split.
  - apply (proj1 (record_operation_result_at_most_one _ _ _)).
    split; eexists; reflexivity.
  - apply (proj1 (proj2 (proj2 (record_operation_result_at_most_one
                                  {| or_workflow_uuid := "W1"; or_function_id := 3;
                                     or_output := Some "a"; or_error := None |}
                                  None (init one_pending)))));
      [by right|reflexivity|reflexivity].
Defined.

(** S2 of the spec: ["W2"] sends to ["W1"] on the default topic; the same
    send with the journal's statement failing leaves no notification; a send
    to a workflow that does not exist. *)
Lemma send_idempotent_and_maps_errors_witness :
  send None None 100 "W2" 1 "W1" (PyInt 42) None (init two_pending)
  = (Return tt,
     set_db (with_operation_outputs
               [{| oo_workflow_uuid := "W2"; oo_function_id := 1;
                   oo_output := None; oo_error := None |}]
               (with_notifications
                  [{| n_destination_uuid := "W1"; n_topic := "__null__topic__";
                      n_message := serialize (PyInt 42);
                      n_created_at_epoch_ms := 100 |}] two_pending))
       (init two_pending))
  /\ send None (Some "08006") 100 "W2" 1 "W1" (PyInt 42) None (init two_pending)
     = (Raise (DBAPIError "08006"), init two_pending)
  /\ send None None 100 "W2" 1 "W" (PyInt 42) (Some "t") (init two_pending)
     = (Raise (DBOSNonExistentWorkflowError "W"), init two_pending).
Proof.
  split; [|split].
  - apply (proj1 (proj2 (proj2 (proj2 (proj2
             (send_idempotent_and_maps_errors None None 100 "W2" 1 "W1" (PyInt 42)
                None (init two_pending)))))));
      reflexivity.
  - apply (proj1 (proj2 (proj2 (proj2
             (send_idempotent_and_maps_errors None (Some "08006") 100 "W2" 1 "W1"
                (PyInt 42) None (init two_pending))))) eq_refl eq_refl eq_refl
             "08006" eq_refl).
  - apply (proj1 (proj2 (send_idempotent_and_maps_errors None None 100 "W2" 1 "W"
                           (PyInt 42) (Some "t") (init two_pending))));
      [reflexivity|by right].
Defined.

(** S2 of the spec, continued: two sends (the first one repeated), then
    three receives. *)
Example send_then_recv :
  let s1 := snd (send None None 100 "W2" 1 "W1" (PyInt 42) (Some "t")
                   (init two_pending)) in
  let s2 := snd (send None None 101 "W2" 2 "W1" (PyInt 43) (Some "t") s1) in
  let r1 := recv_consume "W1" 10 "t" s2 in
  let r2 := recv_consume "W1" 11 "t" (snd r1) in
  let r3 := recv_consume "W1" 12 "t" (snd r2) in
  send None None 102 "W2" 1 "W1" (PyInt 42) (Some "t") s2 = (Return tt, s2)
  /\ fst r1 = Return (PyInt 42)
  /\ fst r2 = Return (PyInt 43)
  /\ fst r3 = Return PyNone.
Proof. vm_compute. done. Qed.

(** S3 of the spec: a sleep of 10 s started at 0, invoked again at 5. *)
Lemma sleep_is_idempotent_witness :
  exists d,
    sleep (fun d => d) 5 5 "W1" 7 10 false
      (snd (sleep (fun d => d) 0 2 "W1" 7 10 false (init one_pending)))
    = (Return d, snd (sleep (fun d => d) 0 2 "W1" 7 10 false (init one_pending)))
    /\ fst d = (0 + 10 - 5)%Q
    /\ snd d = Some (fst d).
Proof.
  assert (Hround : deserialize (serialize (PyFloat (0 + 10))) = PyFloat (0 + 10))
    by reflexivity.
  destruct (proj2 (proj2 (sleep_is_idempotent (fun d => d) 0 2 "W1" 7 10 false
                            (init one_pending)))
              eq_refl eq_refl Hround (fun d => d) 5%Q 5%Q 10%Q false)
    as (d & Hrun & _ & _ & Hpos & Hblock).
  exists d. split; [exact Hrun|]. split; [by apply Hpos|exact Hblock].
Defined.

Example sleep_across_recovery :
  fst (sleep (fun d => d) 5 5 "W1" 7 10 false
         (snd (sleep (fun d => d) 0 2 "W1" 7 10 false (init one_pending))))
  = Return (5%Q, Some 5%Q).
Proof. vm_compute. done. Qed.


(** S4 of the spec in small: concurrency 1 over two enqueued workflows. *)
Example queue_concurrency :
  let first := start_queued_workflows "q" (Some 1) (init two_enqueued) in
  fst first = Return ["W1"]
  /\ map (fun r => (ws_workflow_uuid r, ws_status r)) (workflow_status (db (snd first)))
     = [("W1", "PENDING"); ("W2", "ENQUEUED")]
  /\ fst (start_queued_workflows "q" (Some 1) (snd first)) = Return []
  /\ fst (start_queued_workflows "q" (Some 1)
            (snd (remove_from_queue "W1" (snd first)))) = Return ["W2"].
Proof. vm_compute. done. Qed.

(** C5 (failing input): two notifications for (["W"], ["t"]) share their
    [created_at_epoch_ms]. The consuming step of [recv] deletes both rows and
    returns only the first message; the next one finds nothing, so message
    43 is never received. *)
Theorem recv_consume_deletes_tied_rows :
  length (select_notifications "W" "t" tied_notifications) = 2%nat
  /\ fst (recv_consume "W" 1 "t" (init tied_notifications)) = Return (PyInt 42)
  /\ notifications (db (snd (recv_consume "W" 1 "t" (init tied_notifications)))) = []
  /\ fst (recv_consume "W" 2 "t"
            (snd (recv_consume "W" 1 "t" (init tied_notifications))))
     = Return PyNone.
Proof. vm_compute. done. Qed.

Lemma recv_consume_takes_oldest_witness :
  exists o,
    In o (select_notifications "W" "t" (db (init ordered_notifications)))
    /\ n_created_at_epoch_ms o = 100
    /\ fst (recv_consume "W" 1 "t" (init ordered_notifications))
       = Return (deserialize (n_message o)).
Proof.
  destruct (recv_consume_takes_oldest "W" 1 "t" (init ordered_notifications))
    as [_ Hsome].
  - reflexivity.
  - apply (bool_decide_unpack _). vm_compute. exact I.
  - destruct Hsome as (o & l1 & l2 & _ & Hin & Hmin & Hrun).
    + vm_compute. discriminate.
    + exists o. split; [exact Hin|]. split; [|by rewrite Hrun].
      assert (Hle : n_created_at_epoch_ms o <= 100)
        by (apply (Hmin {| n_destination_uuid := "W"; n_topic := "t";
                           n_message := "i42";
                           n_created_at_epoch_ms := 100 |}); by left).
      vm_compute in Hin. destruct Hin as [<-|[<-|[]]]; [reflexivity|].
      vm_compute in Hle. by destruct Hle.
Defined.

Lemma recv_consume_fifo_witness :
  exists o1 o2,
    n_created_at_epoch_ms o1 < n_created_at_epoch_ms o2
    /\ fst (recv_consume "W" 1 "t" (init ordered_notifications))
       = Return (deserialize (n_message o1))
    /\ fst (recv_consume "W" 2 "t"
              (snd (recv_consume "W" 1 "t" (init ordered_notifications))))
       = Return (deserialize (n_message o2)).
Proof.
  destruct (recv_consume_fifo "W" 1 2 "t" (init ordered_notifications))
    as (o1 & o2 & _ & _ & Hlt & _ & Hfirst & Hsecond).
  - lia.
  - reflexivity.
  - reflexivity.
  - apply (bool_decide_unpack _). vm_compute. exact I.
  - vm_compute. lia.
  - exists o1, o2. auto.
Defined.

(** C6 (failing input): with [DBOS__VMID] set, [recover_pending_workflows]
    logs that it skips executor ["local"] and then recovers its pending
    workflows all the same. *)
Theorem recover_pending_workflows_does_not_skip_local :
  fst (Recovery.recover_pending_workflows string (fun id => ret id)
         (Some "vm-1") ["local"] (init one_pending))
  = Return (["W1"],
            [Recovery.SkipLocalRecovery "vm-1";
             Recovery.RecoveringExecutor "local";
             Recovery.PendingWorkflows ["W1"];
             Recovery.RecoveredPendingWorkflows]).
Proof. vm_compute. done. Qed.

(** C7 (failing input): [set_workflow_status] for ["W1"] also rewrites the
    row of ["W2"] when ["W1"] has an inputs row, and rewrites nothing, not
    even the row of ["W1"], when ["W1"] has none. *)
Theorem set_workflow_status_misses_its_row :
  map (fun r => (ws_workflow_uuid r, ws_status r))
      (workflow_status
         (db (snd (set_workflow_status "W1" CANCELLED false (init two_pending)))))
  = [("W1", "CANCELLED"); ("W2", "CANCELLED")]
  /\ map (fun r => (ws_workflow_uuid r, ws_status r))
         (workflow_status
            (db (snd (set_workflow_status "W1" CANCELLED false (init one_pending)))))
     = [("W1", "PENDING")].
Proof. vm_compute. done. Qed.

(** S5 of the spec: status and inputs of a temp workflow are buffered; one
    pass writes the status row, then the inputs row, and empties both
    buffers. *)
Example buffer_flush_ordering :
  let s := snd (flush_workflow_buffers 0 (fun _ => None) (fun _ => None)
                  buffered_status_and_inputs) in
  sent s = [UpsertWorkflowStatus "W"; InsertWorkflowInputs "W"]
  /\ map ws_workflow_uuid (workflow_status (db s)) = ["W"]
  /\ workflow_inputs (db s) = [{| wi_workflow_uuid := "W"; wi_inputs := "{}" |}]
  /\ _is_buffers_empty s = true.
Proof. vm_compute. done. Qed.

(** Inputs whose status was never exported are not sent and stay
    buffered. *)
Example inputs_wait_for_status :
  let s := snd (flush_workflow_buffers 0 (fun _ => None) (fun _ => None)
                  buffered_inputs_only) in
  sent s = []
  /\ workflow_inputs (db s) = []
  /\ PyDict.get "W" (_workflow_inputs_buffer s) = Some "{}".
Proof. vm_compute. done. Qed.

(** The inputs flush tests membership in [_exported_temp_txn_wf_status]
    only: inputs of a workflow outside both tracking sets are not sent
    either. *)
Example untracked_inputs_stay_buffered :
  let s := snd (flush_workflow_buffers 0 (fun _ => None) (fun _ => None)
                  buffered_inputs_untracked) in
  sent s = []
  /\ workflow_inputs (db s) = []
  /\ PyDict.get "W1" (_workflow_inputs_buffer s) = Some "{}".
Proof. vm_compute. done. Qed.

(** When the server fails the status upsert, the batch is rolled back and
    restored, and the inputs wait for a later pass. *)
Example status_fault_keeps_inputs_buffered :
  let s := snd (flush_workflow_buffers 0 (fun _ => Some (DBAPIError "08006"))
                  (fun _ => None) buffered_status_and_inputs) in
  workflow_status (db s) = []
  /\ workflow_inputs (db s) = []
  /\ PyDict.keys (_workflow_status_buffer s) = ["W"]
  /\ PyDict.get "W" (_workflow_inputs_buffer s) = Some "{}".
Proof. vm_compute. done. Qed.

(** The application journal drops the [error] of an output record and the
    [output] of an error record. *)
Example transaction_output_and_error_rows :
  let a := {| ApplicationDatabase.workflow_uuid := "W";
              ApplicationDatabase.function_id := 1;
              ApplicationDatabase.output := Some "o";
              ApplicationDatabase.error := Some "e";
              ApplicationDatabase.txn_id := None;
              ApplicationDatabase.txn_snapshot := "10:20:";
              ApplicationDatabase.executor_id := Some "" |} in
  let session := {| ApplicationDatabase.transaction_outputs := [];
                    ApplicationDatabase.pg_current_xact_id_if_assigned := Some "731" |} in
  map (fun r => (ApplicationDatabase.to_output r, ApplicationDatabase.to_error r,
                 ApplicationDatabase.to_executor_id r))
      (ApplicationDatabase.transaction_outputs
         (snd (ApplicationDatabase.record_transaction_output session a)))
  = [(Some "o", None, None)]
  /\ map (fun r => (ApplicationDatabase.to_output r, ApplicationDatabase.to_error r,
                    ApplicationDatabase.to_executor_id r))
         (ApplicationDatabase.transaction_outputs
            (snd (ApplicationDatabase.record_transaction_error_async session a)))
     = [(None, Some "e", None)]
  /\ fst (ApplicationDatabase.record_transaction_output
            (snd (ApplicationDatabase.record_transaction_output session a)) a)
     = Raise (DBOSWorkflowConflictIDError "W").
Proof. vm_compute. done. Qed.

End Scenarios.

(** * Further properties *)

(** ** The operation journal is written once *)

Lemma check_operation_execution_value uuid fn conn (s : t) :
  check_operation_execution uuid fn conn s =
    (Return (match select_operation_outputs uuid fn (db s) with
             | [] => None
             | x :: _ => Some {| rr_output := oo_output x; rr_error := oo_error x |}
             end), s).
Proof.
  destruct (check_operation_execution_spec uuid fn conn s) as (r & Hrun & _ & ->).
  exact Hrun.
Qed.

Lemma has_operation_output_select uuid fn d :
  has_operation_output uuid fn d = true <-> select_operation_outputs uuid fn d <> [].
Proof.
  pose proof (select_operation_outputs_nil uuid fn d) as Hnil.
  destruct (has_operation_output uuid fn d); split; intros; try done.
  - intros Hsel. apply Hnil in Hsel. done.
  - destruct Hnil as [_ Hnil]. by specialize (Hnil eq_refl).
Qed.

Lemma record_operation_result_rejected result conn (s : t) o e :
  or_output result = Some o ->
  or_error result = Some e ->
  record_operation_result result conn s
  = (Raise (AssertionError "Only one of error or output can be set"), s).
Proof. intros Ho He. unfold record_operation_result. by rewrite Ho, He. Qed.

(** Rows already journaled under a key are what a later
    [record_operation_result] leaves there, whatever it records. *)
Lemma select_after_record uuid fn result conn (s : t) :
  has_operation_output uuid fn (db s) = true ->
  select_operation_outputs uuid fn (db (snd (record_operation_result result conn s)))
  = select_operation_outputs uuid fn (db s).
Proof.
  intros Hhas.
  destruct (or_output result) as [o|] eqn:Ho, (or_error result) as [e|] eqn:He.
  - by rewrite (record_operation_result_rejected result conn s o e).
  - rewrite record_operation_result_passed by (by left).
    destruct (has_operation_output (or_workflow_uuid result) _ _) eqn:Hk; [done|].
    cbn [snd db set_db]. rewrite select_operation_outputs_app.
    rewrite filter_cons, filter_nil. case_decide as Hm; [|by rewrite app_nil_r].
    cbn in Hm. destruct Hm as [<- <-]. congruence.
  - rewrite record_operation_result_passed by (by right).
    destruct (has_operation_output (or_workflow_uuid result) _ _) eqn:Hk; [done|].
    cbn [snd db set_db]. rewrite select_operation_outputs_app.
    rewrite filter_cons, filter_nil. case_decide as Hm; [|by rewrite app_nil_r].
    cbn in Hm. destruct Hm as [<- <-]. congruence.
  - rewrite record_operation_result_passed by (by left).
    destruct (has_operation_output (or_workflow_uuid result) _ _) eqn:Hk; [done|].
    cbn [snd db set_db]. rewrite select_operation_outputs_app.
    rewrite filter_cons, filter_nil. case_decide as Hm; [|by rewrite app_nil_r].
    cbn in Hm. destruct Hm as [<- <-]. congruence.
Qed.

(** Once a result is journaled under ([workflow_uuid], [function_id]),
    [check_operation_execution] keeps returning it after any further
    [record_operation_result]; a further record under the same key raises
    and changes nothing. *)
Theorem operation_journal_write_once (uuid : string) (fn : Z)
    (r : RecordedResult) (result : OperationResultInternal)
    (conn conn' conn'' : option AsyncConnection) (s : t) :
  fst (check_operation_execution uuid fn conn s) = Return (Some r) ->
  fst (check_operation_execution uuid fn conn'
         (snd (record_operation_result result conn'' s))) = Return (Some r)
  /\ (or_workflow_uuid result = uuid -> or_function_id result = fn ->
      (exists e, fst (record_operation_result result conn'' s) = Raise e)
      /\ snd (record_operation_result result conn'' s) = s).
Proof.
  rewrite !check_operation_execution_value. cbn [fst]. intros Hr.
  assert (Hhas : has_operation_output uuid fn (db s) = true).
  { apply has_operation_output_select. intros Hnil. by rewrite Hnil in Hr. }
  split.
  - by rewrite select_after_record.
  - intros <- <-.
    destruct (or_output result) as [o|] eqn:Ho, (or_error result) as [e|] eqn:He.
    + rewrite (record_operation_result_rejected result conn'' s o e) by done.
      split; [by eexists|done].
    + rewrite record_operation_result_passed, Hhas by (by left).
      split; [by eexists|done].
    + rewrite record_operation_result_passed, Hhas by (by right).
      split; [by eexists|done].
    + rewrite record_operation_result_passed, Hhas by (by left).
      split; [by eexists|done].
Qed.

(** A result with at most one of [output]/[error] set, recorded under a
    free key for a workflow that has its [workflow_status] row, is what
    [check_operation_execution] returns for that key. *)
Theorem record_then_check (result : OperationResultInternal)
    (conn conn' : option AsyncConnection) (s : t) :
  or_output result = None \/ or_error result = None ->
  has_workflow (or_workflow_uuid result) (db s) = true ->
  has_operation_output (or_workflow_uuid result) (or_function_id result) (db s) = false ->
  fst (record_operation_result result conn s) = Return tt
  /\ fst (check_operation_execution (or_workflow_uuid result) (or_function_id result)
            conn' (snd (record_operation_result result conn s)))
     = Return (Some {| rr_output := or_output result; rr_error := or_error result |}).
Proof.
  intros Hone _ Hfree.
  rewrite record_operation_result_passed, Hfree by tauto.
  split; [done|]. rewrite check_operation_execution_value.
  cbn [fst snd db set_db]. rewrite select_operation_outputs_app.
  apply select_operation_outputs_nil in Hfree. rewrite Hfree.
  rewrite filter_cons, filter_nil. cbn. case_decide; [done|tauto].
Qed.

(** ** The application journal: record, then check *)

Module AppDBRoundTrip.
Import ApplicationDatabase JournalRows AppDBProperties.

Lemma select_transaction_outputs_nil uuid fn s :
  select_transaction_outputs uuid fn s = [] <-> has_transaction_output uuid fn s = false.
Proof.
  unfold select_transaction_outputs, has_transaction_output.
  induction (transaction_outputs s) as [|r l IH]; [done|].
  rewrite filter_cons. cbn [existsb].
  destruct (String.eqb_spec (to_workflow_uuid r) uuid) as [Hu|Hu];
    destruct (Z.eqb_spec (to_function_id r) fn) as [Hf|Hf]; cbn [andb orb];
    case_decide; try tauto; try done.
Qed.

Lemma select_add_row uuid fn r s :
  select_transaction_outputs uuid fn (add_row r s)
  = select_transaction_outputs uuid fn s
    ++ filter (fun r => to_workflow_uuid r = uuid /\ to_function_id r = fn) [r].
Proof.
  unfold select_transaction_outputs, add_row. cbn [transaction_outputs].
  apply filter_app.
Qed.

Lemma check_transaction_execution_value session uuid fn :
  check_transaction_execution session uuid fn =
    match select_transaction_outputs uuid fn session with
    | [] => None
    | r :: _ => Some {| rr_output := to_output r; rr_error := to_error r |}
    end.
Proof. reflexivity. Qed.

(** A transaction's output or error recorded under a free key is what
    [check_transaction_execution] then returns, with the other column null;
    and the check answers [None] exactly for a key without a row. *)
Theorem transaction_journal_round_trip (session : Session)
    (a : TransactionResultInternal) :
  (forall uuid fn, check_transaction_execution session uuid fn = None
                   <-> has_transaction_output uuid fn session = false)
  /\ (has_transaction_output (workflow_uuid a) (function_id a) session = false ->
      check_transaction_execution (snd (record_transaction_output session a))
        (workflow_uuid a) (function_id a)
      = Some {| rr_output := output a; rr_error := None |}
      /\ check_transaction_execution (snd (record_transaction_error_async session a))
           (workflow_uuid a) (function_id a)
         = Some {| rr_output := None; rr_error := error a |}).
Proof.
  split.
  - intros uuid fn. rewrite check_transaction_execution_value.
    rewrite <- select_transaction_outputs_nil.
    by destruct (select_transaction_outputs uuid fn session).
  - intros Hfree.
    rewrite record_transaction_output_eq, record_transaction_error_async_eq, Hfree.
    cbn [snd]. rewrite !check_transaction_execution_value, !select_add_row.
    apply select_transaction_outputs_nil in Hfree. rewrite Hfree.
    rewrite !filter_cons, !filter_nil. cbn.
    split; (case_decide; [done|tauto]).
Qed.

(** What is journaled for a transaction stays: after any further
    [record_transaction_output] or [record_transaction_error_async] the
    check returns the same result, and a further record under the same key
    raises [DBOSWorkflowConflictIDError]. *)
Theorem transaction_journal_write_once (session : Session) (uuid : string)
    (fn : Z) (r : RecordedResult) (a : TransactionResultInternal) :
  check_transaction_execution session uuid fn = Some r ->
  check_transaction_execution (snd (record_transaction_output session a)) uuid fn
  = Some r
  /\ check_transaction_execution (snd (record_transaction_error_async session a)) uuid fn
     = Some r
  /\ (workflow_uuid a = uuid -> function_id a = fn ->
      record_transaction_output session a
      = (Raise (DBOSWorkflowConflictIDError uuid), session)
      /\ record_transaction_error_async session a
         = (Raise (DBOSWorkflowConflictIDError uuid), session)).
Proof.
  intros Hr.
  assert (Hhas : has_transaction_output uuid fn session = true).
  { destruct (has_transaction_output uuid fn session) eqn:E; [done|].
    apply select_transaction_outputs_nil in E.
    rewrite check_transaction_execution_value, E in Hr. done. }
  rewrite record_transaction_output_eq, record_transaction_error_async_eq.
  assert (Hkeep : forall row,
    has_transaction_output (to_workflow_uuid row) (to_function_id row) session = false ->
    check_transaction_execution (add_row row session) uuid fn = Some r).
  { intros row Hfree. rewrite check_transaction_execution_value, select_add_row.
    rewrite check_transaction_execution_value in Hr.
    rewrite filter_cons, filter_nil. case_decide as Hm.
    - destruct Hm as [<- <-]. congruence.
    - by rewrite app_nil_r. }
  split; [|split].
  - destruct (has_transaction_output (workflow_uuid a) _ _) eqn:E; [done|].
    by apply Hkeep.
  - destruct (has_transaction_output (workflow_uuid a) _ _) eqn:E; [done|].
    by apply Hkeep.
  - intros -> ->. by rewrite Hhas.
Qed.

End AppDBRoundTrip.

(** ** The job queue *)


Lemma queued_iff id (l : list job_queue_row) :
  existsb (fun r => String.eqb (jq_workflow_uuid r) id) l = true
  <-> In id (map jq_workflow_uuid l).
Proof.
  rewrite existsb_exists, in_map_iff. split.
  - intros (r & Hin & Heq%String.eqb_eq). eauto.
  - intros (r & Heq & Hin). exists r. by rewrite String.eqb_eq.
Qed.

Lemma enqueue_eq now_ms workflow_id queue_name (s : t) :
  enqueue now_ms workflow_id queue_name s =
    (Return tt,
     if existsb (fun r => String.eqb (jq_workflow_uuid r) workflow_id)
                (job_queue (db s))
     then s
     else set_db (with_job_queue
                    (job_queue (db s) ++
                       [{| jq_workflow_uuid := workflow_id;
                           jq_queue_name := queue_name;
                           jq_created_at_epoch_ms := now_ms |}]) (db s)) s).
Proof.
  unfold enqueue, transaction, execute.
  destruct (existsb _ (job_queue (db s))); [by rewrite set_db_same|done].
Qed.

(** For a workflow that has its [workflow_status] row, [enqueue] puts the
    workflow on the queue once: it keeps [job_queue] keyed by
    [workflow_uuid], leaves the tables alone when the workflow is already
    queued, and a repeated [enqueue], even for another queue, changes
    nothing. *)
Theorem enqueue_is_idempotent (now_ms now_ms' : Z)
    (workflow_id queue_name queue_name' : string) (s : t) :
  NoDup (map jq_workflow_uuid (job_queue (db s))) ->
  has_workflow workflow_id (db s) = true ->
  fst (enqueue now_ms workflow_id queue_name s) = Return tt
  /\ NoDup (map jq_workflow_uuid
              (job_queue (db (snd (enqueue now_ms workflow_id queue_name s)))))
  /\ In workflow_id
        (map jq_workflow_uuid
           (job_queue (db (snd (enqueue now_ms workflow_id queue_name s)))))
  /\ (In workflow_id (map jq_workflow_uuid (job_queue (db s))) ->
      snd (enqueue now_ms workflow_id queue_name s) = s)
  /\ enqueue now_ms' workflow_id queue_name'
       (snd (enqueue now_ms workflow_id queue_name s))
     = (Return tt, snd (enqueue now_ms workflow_id queue_name s)).
Proof.
  intros Hpk _. rewrite !enqueue_eq. cbn [fst snd].
  destruct (existsb _ (job_queue (db s))) eqn:Hq.
  - rewrite Hq. apply queued_iff in Hq. done.
  - assert (Hfresh : ~ In workflow_id (map jq_workflow_uuid (job_queue (db s)))).
    { intros Hin%queued_iff. congruence. }
    cbn [db set_db job_queue with_job_queue].
    split; [done|]. rewrite map_app. cbn [map jq_workflow_uuid].
    split; [|split; [|split]].
    + apply NoDup_app. split; [done|]. split; [|apply NoDup_singleton].
      intros x Hx ->%list_elem_of_singleton. by apply Hfresh, list_elem_of_In.
    + apply in_or_app. right. by left.
    + done.
    + rewrite existsb_app. cbn [existsb jq_workflow_uuid].
      by rewrite String.eqb_refl, orb_true_r.
Qed.





(** ** Writing and reading workflow status *)

Lemma has_workflow_select uuid d :
  has_workflow uuid d = false <-> select_workflow_status uuid d = [].
Proof.
  unfold has_workflow, select_workflow_status.
  induction (workflow_status d) as [|r l IH]; [done|].
  rewrite filter_cons. cbn [existsb].
  destruct (String.eqb_spec (ws_workflow_uuid r) uuid); cbn [orb];
    case_decide; try done; tauto.
Qed.

Lemma on_conflict_row_uuid st replace in_recovery r :
  ws_workflow_uuid (on_conflict_row st replace in_recovery r) = ws_workflow_uuid r.
Proof. unfold on_conflict_row. by destruct replace, in_recovery. Qed.

Lemma select_workflow_status_map uuid u f (l : list workflow_status_row) :
  (forall r, ws_workflow_uuid (f r) = ws_workflow_uuid r) ->
  filter (fun r => ws_workflow_uuid r = u)
         (map (fun r => if String.eqb (ws_workflow_uuid r) uuid then f r else r) l)
  = if String.eqb u uuid
    then map f (filter (fun r => ws_workflow_uuid r = u) l)
    else filter (fun r => ws_workflow_uuid r = u) l.
Proof.
  intros Hf. induction l as [|r l IH]; [by destruct (String.eqb u uuid)|].
  cbn [map]. rewrite !filter_cons, IH.
  destruct (String.eqb_spec (ws_workflow_uuid r) uuid) as [Hr|Hr];
    destruct (String.eqb_spec u uuid) as [Hu|Hu];
    rewrite ?Hf; repeat case_decide; try done; congruence.
Qed.

(** The tables after [update_workflow_status], once the server has accepted
    its statement. *)
Lemma update_workflow_status_db now_ms st replace in_recovery conn (s : t) :
  fst (update_workflow_status now_ms st replace in_recovery conn s) = Return tt
  /\ db (snd (update_workflow_status now_ms st replace in_recovery conn s))
     = (if has_workflow (workflow_uuid st) (db s)
        then with_workflow_status
               (map (fun r => if String.eqb (ws_workflow_uuid r) (workflow_uuid st)
                              then on_conflict_row st replace in_recovery r else r)
                    (workflow_status (db s))) (db s)
        else with_workflow_status
               (workflow_status (db s) ++ [inserted_row now_ms st]) (db s))
  /\ _temp_txn_wf_ids (snd (update_workflow_status now_ms st replace in_recovery conn s))
     = _temp_txn_wf_ids s
  /\ _exported_temp_txn_wf_status
       (snd (update_workflow_status now_ms st replace in_recovery conn s))
     = (if decide (workflow_uuid st ∈ _temp_txn_wf_ids s)
        then {[workflow_uuid st]} ∪ _exported_temp_txn_wf_status s
        else _exported_temp_txn_wf_status s).
Proof.
  unfold update_workflow_status, bind, modify, on_connection, transaction, execute,
    insert_workflow_status, on_conflict_row, ret.
  cbn [ws_workflow_uuid inserted_row]. fields.
  assert (Hid : forall l : list workflow_status_row,
             map (fun r => if String.eqb (ws_workflow_uuid r) (workflow_uuid st)
                           then r else r) l = l).
  { intros l. rewrite <- (map_id l) at 2. apply map_ext. intros r.
    by destruct (String.eqb _ _). }
  destruct conn; fields;
    destruct (has_workflow (workflow_uuid st) (db s)), replace, in_recovery;
    fields; destruct (decide (workflow_uuid st ∈ _temp_txn_wf_ids s));
    fields; rewrite ?Hid, ?with_workflow_status_same; done.
Qed.

Lemma get_workflow_status_value uuid (s : t) :
  get_workflow_status uuid s =
    (Return (match select_workflow_status uuid (db s) with
             | [] => None
             | row :: _ => Some (status_of_row uuid row)
             end), s).
Proof.
  unfold get_workflow_status, transaction, bind, query, ret.
  by destruct (select_workflow_status uuid (db s)).
Qed.

Lemma get_workflow_status_w_outputs_value uuid (s : t) :
  get_workflow_status_w_outputs uuid s =
    (Return (match select_workflow_status uuid (db s) with
             | [] => None
             | row :: _ => Some (status_w_outputs_of_row uuid row)
             end), s).
Proof.
  unfold get_workflow_status_w_outputs, transaction, bind, query, ret.
  by destruct (select_workflow_status uuid (db s)).
Qed.

Lemma select_after_update now_ms st replace in_recovery conn (s : t) u :
  select_workflow_status u
    (db (snd (update_workflow_status now_ms st replace in_recovery conn s)))
  = if String.eqb u (workflow_uuid st) then
      match select_workflow_status u (db s) with
      | [] => [inserted_row now_ms st]
      | rows => map (on_conflict_row st replace in_recovery) rows
      end
    else select_workflow_status u (db s).
Proof.
  destruct (update_workflow_status_db now_ms st replace in_recovery conn s)
    as (_ & -> & _).
  destruct (has_workflow (workflow_uuid st) (db s)) eqn:Hw.
  - unfold select_workflow_status. cbn [workflow_status with_workflow_status].
    rewrite select_workflow_status_map by apply on_conflict_row_uuid.
    destruct (String.eqb_spec u (workflow_uuid st)) as [->|Hu]; [|done].
    fold (select_workflow_status (workflow_uuid st) (db s)).
    destruct (select_workflow_status (workflow_uuid st) (db s)) eqn:Hsel; [|done].
    apply has_workflow_select in Hsel. congruence.
  - apply has_workflow_select in Hw.
    unfold select_workflow_status in *. cbn [workflow_status with_workflow_status].
    rewrite filter_app, filter_cons, filter_nil. cbn [inserted_row ws_workflow_uuid].
    destruct (String.eqb_spec u (workflow_uuid st)) as [->|Hu].
    + rewrite Hw. by case_decide.
    + case_decide; [congruence|]. by rewrite app_nil_r.
Qed.

(** A call of [update_workflow_status] whose statement the server rejects
    raises what the driver raises and changes nothing. One whose statement
    the server accepts returns; for a workflow without a row it inserts one
    with the given status, name, output and error and zero recovery
    attempts. For a workflow that has a row it keeps name, request, queue
    and the other identity columns; with [replace] it overwrites status,
    output and error and leaves [recovery_attempts] alone even when
    [in_recovery] is set; without [replace], [in_recovery] adds one to
    [recovery_attempts] and leaves status, output and error; with neither
    the row is left as it is. Other workflows read the same before and
    after. *)
Theorem update_workflow_status_then_get (fault : string -> option exn)
    (now_ms : Z) (st : WorkflowStatusInternal)
    (replace in_recovery : bool) (conn : option AsyncConnection) (s : t) :
  let uuid := workflow_uuid st in
  let run := (failing fault uuid ;;
              update_workflow_status now_ms st replace in_recovery conn) s in
  let s' := snd run in
  (forall e, fault uuid = Some e -> run = (Raise e, s))
  /\ (fault uuid = None ->
      fst run = Return tt
      /\ (fst (get_workflow_status uuid s) = Return None ->
          exists new newo,
            fst (get_workflow_status uuid s') = Return (Some new)
            /\ fst (get_workflow_status_w_outputs uuid s') = Return (Some newo)
            /\ status new = status st /\ name new = name st
            /\ request new = request st /\ queue_name new = queue_name st
            /\ recovery_attempts new = Some 0
            /\ output newo = output st /\ error newo = error st)
      /\ (forall old oldo,
            fst (get_workflow_status uuid s) = Return (Some old) ->
            fst (get_workflow_status_w_outputs uuid s) = Return (Some oldo) ->
            exists new newo,
              fst (get_workflow_status uuid s') = Return (Some new)
              /\ fst (get_workflow_status_w_outputs uuid s') = Return (Some newo)
              /\ name new = name old /\ request new = request old
              /\ queue_name new = queue_name old
              /\ class_name new = class_name old /\ config_name new = config_name old
              /\ authenticated_user new = authenticated_user old
              /\ status new = (if replace then status st else status old)
              /\ output newo = (if replace then output st else output oldo)
              /\ error newo = (if replace then error st else error oldo)
              /\ recovery_attempts new
                 = (if replace then recovery_attempts old
                    else if in_recovery
                         then (fun n => n + 1) <$> recovery_attempts old
                         else recovery_attempts old))
      /\ (forall other, other <> uuid ->
            fst (get_workflow_status other s') = fst (get_workflow_status other s)
            /\ fst (get_workflow_status_w_outputs other s')
               = fst (get_workflow_status_w_outputs other s))).
Proof.
  cbv zeta. split.
  - intros e He. unfold bind, failing. by rewrite He.
  - intros Hok.
    assert (Heq : (failing fault (workflow_uuid st) ;;
                   update_workflow_status now_ms st replace in_recovery conn) s
                  = update_workflow_status now_ms st replace in_recovery conn s).
    { unfold bind, failing. rewrite Hok. unfold ret.
      by destruct (update_workflow_status now_ms st replace in_recovery conn s)
        as [[[]|e] s1]. }
    rewrite Heq. split; [apply update_workflow_status_db|].
    rewrite !get_workflow_status_value, !get_workflow_status_w_outputs_value.
    cbn [fst]. split; [|split].
    + intros Hnone. rewrite select_after_update, String.eqb_refl.
      destruct (select_workflow_status (workflow_uuid st) (db s)); [|done].
      do 2 eexists. split; [reflexivity|]. split; [reflexivity|]. done.
    + intros old oldo Hold Holdo.
      rewrite select_after_update, String.eqb_refl.
      destruct (select_workflow_status (workflow_uuid st) (db s)) as [|row rest];
        [done|].
      injection Hold as <-. injection Holdo as <-.
      cbn [map]. do 2 eexists. split; [reflexivity|]. split; [reflexivity|].
      unfold on_conflict_row. by destruct replace, in_recovery.
    + intros other Hother.
      rewrite !get_workflow_status_value, !get_workflow_status_w_outputs_value.
      cbn [fst]. rewrite select_after_update.
      by destruct (String.eqb_spec other (workflow_uuid st)).
Qed.

(** ** Workflow inputs: the first write wins *)

Lemma has_inputs_select uuid d :
  has_inputs uuid d = false <-> select_workflow_inputs uuid d = [].
Proof.
  unfold has_inputs, select_workflow_inputs.
  induction (workflow_inputs d) as [|r l IH]; [done|].
  rewrite filter_cons. cbn [existsb].
  destruct (String.eqb_spec (wi_workflow_uuid r) uuid); cbn [orb];
    case_decide; try done; tauto.
Qed.

(** The three outcomes of [update_workflow_inputs]. *)
Lemma update_workflow_inputs_eq uuid inputs conn (s : t) :
  update_workflow_inputs uuid inputs conn s =
    if has_inputs uuid (db s)
    then (Return tt, untracked uuid (send_statement (InsertWorkflowInputs uuid) s))
    else if has_workflow uuid (db s) then
      (Return tt,
       untracked uuid
         (set_db (with_workflow_inputs
                    (workflow_inputs (db s) ++
                       [{| wi_workflow_uuid := uuid; wi_inputs := inputs |}])
                    (db s))
            (send_statement (InsertWorkflowInputs uuid) s)))
    else (Raise (DBAPIError foreign_key_violation),
          send_statement (InsertWorkflowInputs uuid) s).
Proof.
  unfold update_workflow_inputs, bind, modify, on_connection, transaction, execute,
    insert_workflow_inputs, ret, untracked.
  cbn [wi_workflow_uuid].
  destruct conn; fields;
    (destruct (has_inputs uuid (db s)); [|destruct (has_workflow uuid (db s))]);
    fields; try destruct (decide (uuid ∈ _temp_txn_wf_ids s)); fields;
    try reflexivity.
  all: by destruct s.
Qed.

Lemma db_untracked uuid (s : t) : db (untracked uuid s) = db s.
Proof. unfold untracked. by case_decide. Qed.

Section inputs_properties.
Context `{Serializer}.

Lemma get_workflow_inputs_value uuid (s : t) :
  get_workflow_inputs uuid s =
    (Return (match select_workflow_inputs uuid (db s) with
             | [] => None
             | row :: _ => Some (deserialize (wi_inputs row))
             end), s).
Proof.
  unfold get_workflow_inputs, transaction, bind, query, ret.
  by destruct (select_workflow_inputs uuid (db s)).
Qed.

(** [update_workflow_inputs] writes the inputs of a workflow once: the first
    inputs written are what [get_workflow_inputs] returns from then on, a
    later write with other inputs returns normally and changes no table,
    and a write for a workflow without a status row raises the foreign-key
    error as it comes (SQLSTATE 23503) and changes no table. A write that
    returns leaves the workflow outside [_temp_txn_wf_ids] and, if it was
    in that set, outside [_exported_temp_txn_wf_status] too. *)
Theorem update_workflow_inputs_first_wins (uuid inputs inputs' : string)
    (conn conn' : option AsyncConnection) (s : t) :
  let run := update_workflow_inputs uuid inputs conn s in
  (has_inputs uuid (db s) = false -> has_workflow uuid (db s) = false ->
     fst run = Raise (DBAPIError "23503")
     /\ db (snd run) = db s
     /\ _temp_txn_wf_ids (snd run) = _temp_txn_wf_ids s
     /\ _exported_temp_txn_wf_status (snd run) = _exported_temp_txn_wf_status s)
  /\ (has_inputs uuid (db s) = false -> has_workflow uuid (db s) = true ->
      fst run = Return tt
      /\ fst (get_workflow_inputs uuid (snd run)) = Return (Some (deserialize inputs))
      /\ fst (update_workflow_inputs uuid inputs' conn' (snd run)) = Return tt
      /\ db (snd (update_workflow_inputs uuid inputs' conn' (snd run))) = db (snd run))
  /\ (forall old,
        fst (get_workflow_inputs uuid s) = Return (Some old) ->
        fst run = Return tt
        /\ db (snd run) = db s
        /\ fst (get_workflow_inputs uuid (snd run)) = Return (Some old))
  /\ (fst run = Return tt ->
      (uuid ∉ _temp_txn_wf_ids (snd run))
      /\ (uuid ∈ _temp_txn_wf_ids s ->
          uuid ∉ _exported_temp_txn_wf_status (snd run))).
Proof.
  cbv zeta. rewrite update_workflow_inputs_eq.
  split; [|split; [|split]].
  - intros -> ->. done.
  - intros Hi ->. rewrite Hi. cbn [fst snd]. split; [done|].
    rewrite get_workflow_inputs_value, update_workflow_inputs_eq.
    rewrite !db_untracked. fields.
    apply has_inputs_select in Hi.
    unfold select_workflow_inputs, has_inputs in *. fields.
    rewrite filter_app, Hi, filter_cons, filter_nil. cbn [wi_workflow_uuid].
    case_decide; [|done]. split; [done|].
    rewrite existsb_app. cbn [existsb wi_workflow_uuid].
    rewrite String.eqb_refl, orb_true_r. cbn [fst snd]. rewrite db_untracked.
    split; [done|]. cbn [db send_statement]. by rewrite db_untracked.
  - intros old. rewrite !get_workflow_inputs_value. cbn [fst]. intros Hold.
    assert (Hi : has_inputs uuid (db s) = true).
    { destruct (has_inputs uuid (db s)) eqn:E; [done|].
      apply has_inputs_select in E. by rewrite E in Hold. }
    rewrite Hi. cbn [fst snd]. by rewrite db_untracked.
  - assert (Hclean : forall s1 : t,
      _temp_txn_wf_ids s1 = _temp_txn_wf_ids s ->
      (uuid ∉ _temp_txn_wf_ids (untracked uuid s1))
      /\ (uuid ∈ _temp_txn_wf_ids s ->
          uuid ∉ _exported_temp_txn_wf_status (untracked uuid s1))).
    { intros s1 Htemp. unfold untracked. rewrite Htemp.
      destruct (decide (uuid ∈ _temp_txn_wf_ids s)) as [Hin|Hout]; fields.
      - split; [|intros _]; apply not_elem_of_difference; right;
          by apply elem_of_singleton.
      - by rewrite Htemp. }
    destruct (has_inputs uuid (db s)); [|destruct (has_workflow uuid (db s))];
      cbn [fst snd]; try done; intros _; by apply Hclean.
Qed.

End inputs_properties.

(** ** The status snapshot taken inside a workflow *)

Section status_within_wf.
Context `{StatusSerializer}.

Lemma get_workflow_status_within_wf_journaled uuid calling_wf fn (s : t) x rest :
  select_operation_outputs calling_wf fn (db s) = x :: rest ->
  get_workflow_status_within_wf uuid calling_wf fn s =
    (Return (match oo_output x with
             | Some o => if String.eqb o "" then None else deserialize_status o
             | None => None
             end), s).
Proof.
  intros Hsel. unfold get_workflow_status_within_wf. unfold bind at 1.
  rewrite check_operation_execution_value, Hsel. cbn [rr_output].
  destruct (oo_output x) as [o|]; [|done]. by destruct (String.eqb o "").
Qed.

(** The first [get_workflow_status_within_wf] under a caller's key returns
    the status as it is and journals it. When the serialized status is not
    the empty string and deserializes to itself, every later call under that
    key returns the same snapshot and changes nothing, whatever has happened
    to [workflow_status] since and whichever workflow is asked for. A key
    that holds a row without output gives [None]. *)
Theorem status_snapshot_is_replayed (workflow_uuid calling_wf : string)
    (calling_wf_fn : Z) (s : t) :
  (has_operation_output calling_wf calling_wf_fn (db s) = false ->
   forall stat,
     fst (get_workflow_status workflow_uuid s) = Return stat ->
     fst (get_workflow_status_within_wf workflow_uuid calling_wf calling_wf_fn s)
     = Return stat
     /\ (serialize_status stat <> "" ->
         deserialize_status (serialize_status stat) = stat ->
         forall (s2 : t) (asked : string),
           operation_outputs (db s2)
           = operation_outputs
               (db (snd (get_workflow_status_within_wf workflow_uuid calling_wf
                           calling_wf_fn s))) ->
           get_workflow_status_within_wf asked calling_wf calling_wf_fn s2
           = (Return stat, s2)))
  /\ (forall x rest,
        select_operation_outputs calling_wf calling_wf_fn (db s) = x :: rest ->
        oo_output x = None ->
        get_workflow_status_within_wf workflow_uuid calling_wf calling_wf_fn s
        = (Return None, s)).
Proof.
  split.
  - intros Hfresh stat. rewrite get_workflow_status_value. cbn [fst].
    intros [= Hstat].
    assert (Hrun :
      get_workflow_status_within_wf workflow_uuid calling_wf calling_wf_fn s
      = (Return stat,
         set_db (with_operation_outputs
                   (operation_outputs (db s) ++
                      [{| oo_workflow_uuid := calling_wf;
                          oo_function_id := calling_wf_fn;
                          oo_output := Some (serialize_status stat);
                          oo_error := None |}]) (db s)) s)).
    { unfold get_workflow_status_within_wf. unfold bind at 1.
      rewrite check_operation_execution_value.
      apply select_operation_outputs_nil in Hfresh as Hnil. rewrite Hnil.
      unfold bind at 1. rewrite get_workflow_status_value, Hstat.
      unfold bind. rewrite record_operation_result_passed by (by left).
      cbn [or_workflow_uuid or_function_id]. by rewrite Hfresh. }
    rewrite Hrun. cbn [fst snd db set_db]. split; [done|].
    intros Hne Hround s2 asked Hoo.
    rewrite (get_workflow_status_within_wf_journaled asked calling_wf calling_wf_fn s2
               {| oo_workflow_uuid := calling_wf; oo_function_id := calling_wf_fn;
                  oo_output := Some (serialize_status stat); oo_error := None |} []).
    + cbn [oo_output]. destruct (String.eqb_spec (serialize_status stat) "");
        [done|by rewrite Hround].
    + unfold select_operation_outputs. rewrite Hoo.
      cbn [operation_outputs with_operation_outputs]. rewrite filter_app.
      apply select_operation_outputs_nil in Hfresh.
      unfold select_operation_outputs in Hfresh. rewrite Hfresh.
      rewrite filter_cons, filter_nil. cbn. case_decide; [done|tauto].
  - intros x rest Hsel Hnone.
    rewrite (get_workflow_status_within_wf_journaled _ _ _ _ x rest Hsel).
    by rewrite Hnone.
Qed.

End status_within_wf.

(** ** Awaiting a workflow result *)

Lemma await_workflow_result_internal_step sleeps uuid (s : t) :
  await_workflow_result_internal sleeps uuid s =
    match terminal_result uuid (db s) with
    | Some r => (Return (Some r), s)
    | None =>
        match sleeps with
        | [] => (Return None, s)
        | others :: sleeps' =>
            await_workflow_result_internal sleeps' uuid (set_db (others (db s)) s)
        end
    end.
Proof.
  unfold terminal_result.
  destruct sleeps as [|others sleeps']; cbn [await_workflow_result_internal];
    unfold bind, transaction, query, ret, yield_to;
    destruct (select_workflow_status uuid (db s)) as [|row rest]; try done;
    destruct (String.eqb (ws_status row) (value SUCCESS)); try done;
    destruct (String.eqb (ws_status row) (value ERROR)); done.
Qed.

(** [await_workflow_result_internal] returns at the first poll that finds
    the workflow in status SUCCESS or ERROR, with that row's output or
    error, and not before; while every poll finds the row absent or in
    another status (PENDING, ENQUEUED, CANCELLED, RETRIES_EXCEEDED) it keeps
    polling, however many polls that takes. *)
Theorem await_returns_at_first_terminal_poll
    (sleeps : list (tables -> tables)) (workflow_uuid : string) (s : t) :
  (Forall (fun d => terminal_result workflow_uuid d = None) (polled sleeps (db s)) ->
     fst (await_workflow_result_internal sleeps workflow_uuid s) = Return None)
  /\ (forall before d after r,
        polled sleeps (db s) = before ++ d :: after ->
        Forall (fun d' => terminal_result workflow_uuid d' = None) before ->
        terminal_result workflow_uuid d = Some r ->
        await_workflow_result_internal sleeps workflow_uuid s
        = (Return (Some r), set_db d s)).
Proof.
  split.
  - revert s. induction sleeps as [|others sleeps IH]; intros s Hall;
      rewrite await_workflow_result_internal_step; cbn [polled] in Hall;
      apply Forall_cons in Hall as [-> Hall]; [done|].
    by apply IH.
  - revert s. induction sleeps as [|others sleeps IH];
      intros s before d after r Hsplit Hbefore Hr;
      rewrite await_workflow_result_internal_step; cbn [polled] in Hsplit.
    + destruct before as [|b before].
      * injection Hsplit as <- _. by rewrite Hr, set_db_same.
      * injection Hsplit as _ Hnil. by destruct before.
    + destruct before as [|b before].
      * injection Hsplit as <- _. by rewrite Hr, set_db_same.
      * injection Hsplit as <- Hrest.
        apply Forall_cons in Hbefore as [-> Hbefore].
        rewrite (IH (set_db (others (db s)) s) before d after r); try done.
Qed.

(** ** Workflow events *)

Module EventProperties.
Import WorkflowEvents.

Section with_serializer.
Context `{Serializer}.

Lemma lift_check uuid fn conn (st : state) :
  lift (check_operation_execution uuid fn conn) st =
    (Return (match select_operation_outputs uuid fn (db (sysdb st)) with
             | [] => None
             | x :: _ => Some {| rr_output := oo_output x; rr_error := oo_error x |}
             end), st).
Proof.
  unfold lift. rewrite check_operation_execution_value. by destruct st.
Qed.

Lemma set_event_eq workflow_uuid function_id key message (st : state) :
  set_event workflow_uuid function_id key message st =
    (Return tt,
     if has_operation_output workflow_uuid function_id (db (sysdb st)) then st
     else {| sysdb := set_db (journaled_event_done workflow_uuid function_id
                                 (db (sysdb st))) (sysdb st);
             workflow_events :=
               upsert_workflow_events workflow_uuid key (serialize message)
                 (workflow_events st) |}).
Proof.
  unfold set_event, transaction. unfold bind at 1. rewrite lift_check.
  destruct (has_operation_output workflow_uuid function_id (db (sysdb st))) eqn:Hj.
  - apply has_operation_output_select in Hj.
    by destruct (select_operation_outputs _ _ _).
  - apply select_operation_outputs_nil in Hj as Hnil. rewrite Hnil.
    unfold bind, lift. cbn [sysdb workflow_events].
    rewrite record_operation_result_passed by (by left).
    cbn [or_workflow_uuid or_function_id]. by rewrite Hj.
Qed.

Lemma select_upsert workflow_uuid key value events :
  exists rest,
    select_workflow_events workflow_uuid key
      (upsert_workflow_events workflow_uuid key value events) = value :: rest.
Proof.
  unfold select_workflow_events, upsert_workflow_events.
  destruct (existsb (same_event workflow_uuid key) events) eqn:Hex.
  - induction events as [|r l IH]; [done|]. cbn [existsb map List.filter] in *.
    destruct (same_event workflow_uuid key r) eqn:Hr.
    + assert (Hsame : same_event workflow_uuid key
                        {| we_workflow_uuid := we_workflow_uuid r;
                           we_key := we_key r; we_value := value |} = true)
        by exact Hr.
      rewrite Hsame. cbn. by eexists.
    + rewrite Hr. by apply IH.
  - rewrite List.filter_app. cbn [List.filter]. unfold same_event at 2.
    cbn [we_workflow_uuid we_key]. rewrite !String.eqb_refl. cbn [andb].
    replace (List.filter (same_event workflow_uuid key) events) with
      (@nil workflow_events_row); [by eexists|].
    symmetry. induction events as [|r l IH]; [done|].
    cbn [existsb List.filter] in *. apply orb_false_iff in Hex as [-> Hex].
    by apply IH.
Qed.

Lemma select_upsert_other workflow_uuid key value u k events :
  (u, k) <> (workflow_uuid, key) ->
  select_workflow_events u k (upsert_workflow_events workflow_uuid key value events)
  = select_workflow_events u k events.
Proof.
  intros Hne.
  assert (Hoff : forall r, same_event workflow_uuid key r = true ->
                           same_event u k r = false).
  { intros r [Hu Hk]%andb_true_iff. apply String.eqb_eq in Hu, Hk.
    unfold same_event. rewrite Hu, Hk.
    destruct (String.eqb_spec workflow_uuid u), (String.eqb_spec key k);
      try done. congruence. }
  unfold select_workflow_events, upsert_workflow_events.
  destruct (existsb (same_event workflow_uuid key) events).
  - f_equal. induction events as [|r l IH]; [done|]. cbn [map List.filter].
    destruct (same_event workflow_uuid key r) eqn:Hr.
    + rewrite (Hoff r Hr).
      assert (Hr' : same_event u k {| we_workflow_uuid := we_workflow_uuid r;
                                      we_key := we_key r; we_value := value |}
                    = same_event u k r) by done.
      by rewrite Hr', (Hoff r Hr).
    + destruct (same_event u k r); by rewrite IH.
  - rewrite List.filter_app, map_app. cbn [List.filter].
    rewrite (Hoff {| we_workflow_uuid := workflow_uuid; we_key := key;
                     we_value := value |}); [by rewrite app_nil_r|].
    unfold same_event. cbn. by rewrite !String.eqb_refl.
Qed.

(** Outside a workflow [get_event] reads the event as it stands, and only
    when it is absent waits and reads again. *)
Lemma get_event_plain env wait time1 time2 target key timeout (st : state) :
  get_event env wait time1 time2 target key timeout None st =
    match select_workflow_events target key (workflow_events st) with
    | v :: _ => (Return (deserialize v), st)
    | [] =>
        let st' := {| sysdb := set_db (fst (wait (db (sysdb st), workflow_events st)))
                                 (sysdb st);
                      workflow_events :=
                        snd (wait (db (sysdb st), workflow_events st)) |} in
        (Return (match select_workflow_events target key (workflow_events st') with
                 | v :: _ => deserialize v
                 | [] => PyNone
                 end), st')
    end.
Proof.
  unfold get_event, bind, transaction, ret, yield_to.
  destruct (select_workflow_events target key (workflow_events st)) as [|v l] eqn:E.
  - destruct (wait (db (sysdb st), workflow_events st)) as [d ev].
    cbn [fst snd workflow_events].
    by destruct (select_workflow_events target key ev).
  - done.
Qed.

(** An event set by [set_event] under a fresh step is what [get_event]
    returns, at once and without changing anything; a later [set_event]
    from another fresh step overwrites it, while repeating the same step
    with another message changes nothing; events under other keys are not
    touched. *)
Theorem set_event_then_get_event (workflow_uuid : string) (function_id : Z)
    (key : string) (message : pyval) (st : state) :
  has_operation_output workflow_uuid function_id (db (sysdb st)) = false ->
  let st1 := snd (set_event workflow_uuid function_id key message st) in
  fst (set_event workflow_uuid function_id key message st) = Return tt
  /\ (forall env wait time1 time2 timeout,
        get_event env wait time1 time2 workflow_uuid key timeout None st1
        = (Return (deserialize (serialize message)), st1))
  /\ (forall message',
        set_event workflow_uuid function_id key message' st1 = (Return tt, st1))
  /\ (forall function_id' message' env wait time1 time2 timeout,
        has_operation_output workflow_uuid function_id' (db (sysdb st1)) = false ->
        fst (get_event env wait time1 time2 workflow_uuid key timeout None
               (snd (set_event workflow_uuid function_id' key message' st1)))
        = Return (deserialize (serialize message')))
  /\ (forall u k,
        (u, k) <> (workflow_uuid, key) ->
        select_workflow_events u k (workflow_events st1)
        = select_workflow_events u k (workflow_events st)).
Proof.
  intros Hfresh. cbv zeta. rewrite set_event_eq, Hfresh. cbn [fst snd].
  split; [done|]. split; [|split; [|split]].
  - intros env wait time1 time2 timeout. rewrite get_event_plain.
    cbn [workflow_events].
    by destruct (select_upsert workflow_uuid key (serialize message)
                   (workflow_events st)) as [rest ->].
  - intros message'. rewrite set_event_eq. cbn [sysdb db set_db].
    replace (has_operation_output workflow_uuid function_id
               (journaled_event_done workflow_uuid function_id (db (sysdb st))))
      with true; [done|].
    symmetry. unfold has_operation_output, journaled_event_done. cbn.
    rewrite existsb_app. cbn. by rewrite String.eqb_refl, Z.eqb_refl, orb_true_r.
  - intros function_id' message' env wait time1 time2 timeout Hfresh'.
    rewrite set_event_eq, Hfresh'. cbn [snd]. rewrite get_event_plain.
    cbn [workflow_events fst].
    by destruct (select_upsert workflow_uuid key (serialize message')
                   (upsert_workflow_events workflow_uuid key (serialize message)
                      (workflow_events st))) as [rest ->].
  - intros u k Hne. cbn [workflow_events]. by apply select_upsert_other.
Qed.


(** Inside a workflow [get_event] is a journaled step: a recorded output is
    returned as it is, whatever the event holds by now, and a record
    without an output is an error; on a first execution the event found is
    returned and journaled, and when the event is absent before and after
    the wait, [None] is returned and journaled, after the timeout has been
    journaled by [sleep]. *)
Theorem get_event_in_workflow_is_journaled
    (env : tables -> tables)
    (wait : tables * list workflow_events_row -> tables * list workflow_events_row)
    (time1 time2 : Q) (target_uuid key : string) (timeout_seconds : Q)
    (ctx : GetEventWorkflowContext) (st : state) :
  let run := get_event env wait time1 time2 target_uuid key timeout_seconds
               (Some ctx) in
  let own := select_operation_outputs (ctx_workflow_uuid ctx) (ctx_function_id ctx)
               (db (sysdb st)) in
  (forall r rest o, own = r :: rest -> oo_output r = Some o ->
     run st = (Return (deserialize o), st))
  /\ (forall r rest, own = r :: rest -> oo_output r = None ->
        run st = (Raise (PyException "No output recorded in the last get_event"), st))
  /\ (forall v rest,
        own = [] ->
        select_workflow_events target_uuid key (workflow_events st) = v :: rest ->
        run st =
          (Return (deserialize v),
           {| sysdb := set_db (journal_value (ctx_workflow_uuid ctx)
                                 (ctx_function_id ctx) (serialize (deserialize v))
                                 (db (sysdb st))) (sysdb st);
              workflow_events := workflow_events st |}))
  /\ (own = [] ->
      select_workflow_events target_uuid key (workflow_events st) = [] ->
      has_operation_output (ctx_workflow_uuid ctx) (ctx_timeout_function_id ctx)
        (db (sysdb st)) = false ->
      has_operation_output (ctx_workflow_uuid ctx) (ctx_timeout_function_id ctx)
        (env (db (sysdb st))) = false ->
      let slept := journal_value (ctx_workflow_uuid ctx) (ctx_timeout_function_id ctx)
                     (serialize (PyFloat (time1 + timeout_seconds)))
                     (env (db (sysdb st))) in
      let woken := wait (slept, workflow_events st) in
      select_workflow_events target_uuid key (snd woken) = [] ->
      has_operation_output (ctx_workflow_uuid ctx) (ctx_function_id ctx)
        (fst woken) = false ->
      run st =
        (Return PyNone,
         {| sysdb := set_db (journal_value (ctx_workflow_uuid ctx)
                               (ctx_function_id ctx) (serialize PyNone) (fst woken))
                       (sysdb st);
            workflow_events := snd woken |})).
Proof.
  cbv zeta. split; [|split; [|split]].
  - intros r rest o Hown Ho. unfold get_event. unfold bind at 1.
    rewrite lift_check, Hown. cbn [rr_output]. by rewrite Ho.
  - intros r rest Hown Ho. unfold get_event. unfold bind at 1.
    rewrite lift_check, Hown. cbn [rr_output]. by rewrite Ho.
  - intros v rest Hown Hv. unfold get_event. unfold bind at 1.
    rewrite lift_check, Hown. unfold bind at 1. unfold transaction at 1.
    rewrite Hv. unfold bind, ret, lift.
    rewrite record_operation_result_passed by (by left).
    cbn [or_workflow_uuid or_function_id or_output or_error].
    apply select_operation_outputs_nil in Hown. by rewrite Hown.
  - intros Hown Hev Htimer Htimer' Hev' Hown'. unfold get_event. unfold bind at 1.
    rewrite lift_check, Hown. unfold bind at 1. unfold transaction at 1.
    rewrite Hev. unfold bind at 1. unfold bind at 1. unfold bind at 1.
    unfold bind at 1. unfold lift at 1.
    rewrite sleep_fresh by exact Htimer. rewrite Htimer'.
    unfold ret at 1. unfold bind at 1. unfold yield_to.
    cbn [sysdb workflow_events db set_db].
    fold (journal_value (ctx_workflow_uuid ctx) (ctx_timeout_function_id ctx)
            (serialize (PyFloat (time1 + timeout_seconds))) (env (db (sysdb st)))).
    destruct (wait _) as [d ev] eqn:Hw. cbn [fst snd] in Hev', Hown'.
    unfold bind, transaction, ret, lift. cbn [workflow_events sysdb].
    rewrite Hev'.
    rewrite record_operation_result_passed by (by left).
    cbn [or_workflow_uuid or_function_id or_output or_error db set_db sysdb].
    by rewrite Hown'.
Qed.

End with_serializer.
End EventProperties.

(** ** The buffered writer loses no status *)

Section more_pydict_lemmas.
Context {V : Type}.
Implicit Types d : PyDict.t V.

Lemma get_None_keys k d : PyDict.get k d = None <-> k ∉ PyDict.keys d.
Proof.
  induction d as [|[k' v'] d IH]; cbn.
  - split; [intros _; apply not_elem_of_nil|done].
  - rewrite not_elem_of_cons.
    destruct (String.eqb_spec k k') as [->|Hk]; [split; [done|tauto]|].
    rewrite IH. tauto.
Qed.

Lemma get_Some_elem k v d : PyDict.get k d = Some v -> (k, v) ∈ d.
Proof.
  induction d as [|[k' v'] d IH]; cbn; [done|].
  destruct (String.eqb_spec k k') as [->|Hk].
  - intros [= ->]. apply list_elem_of_here.
  - intros Hg. apply list_elem_of_further. by apply IH.
Qed.

Lemma get_set_eq k v d : PyDict.get k (PyDict.set k v d) = Some v.
Proof.
  induction d as [|[k' v'] d IH]; cbn.
  - by rewrite String.eqb_refl.
  - destruct (String.eqb_spec k k') as [->|Hk]; cbn.
    + by rewrite String.eqb_refl.
    + destruct (String.eqb_spec k k'); [done|exact IH].
Qed.

Lemma keys_remove_subseteq k d : PyDict.keys (PyDict.remove k d) ⊆ PyDict.keys d.
Proof.
  induction d as [|[k' v'] d IH]; cbn; [done|].
  destruct (String.eqb k k'); cbn.
  - intros x Hx. by apply list_elem_of_further.
  - intros x [->|Hx]%elem_of_cons; [apply list_elem_of_here|].
    apply list_elem_of_further. by apply IH.
Qed.

Lemma get_remove_None k u d :
  PyDict.get u d = None -> PyDict.get u (PyDict.remove k d) = None.
Proof.
  rewrite !get_None_keys. intros Hu Hin. by apply Hu, (keys_remove_subseteq k d).
Qed.

Lemma keys_remove_NoDup k d : NoDup (PyDict.keys d) -> NoDup (PyDict.keys (PyDict.remove k d)).
Proof.
  induction d as [|[k' v'] d IH]; cbn; [done|].
  intros [Hk' Hd]%NoDup_cons. destruct (String.eqb k k'); cbn; [done|].
  apply NoDup_cons. split; [|by apply IH].
  intros Hin. by apply Hk', (keys_remove_subseteq k d).
Qed.

Lemma get_remove_eq k d : NoDup (PyDict.keys d) -> PyDict.get k (PyDict.remove k d) = None.
Proof.
  induction d as [|[k' v'] d IH]; cbn; [done|].
  intros [Hk' Hd]%NoDup_cons. destruct (String.eqb_spec k k') as [->|Hk]; cbn.
  - by apply get_None_keys.
  - destruct (String.eqb_spec k k'); [done|by apply IH].
Qed.

Lemma keys_set k v d :
  PyDict.keys (PyDict.set k v d)
  = if bool_decide (k ∈ PyDict.keys d) then PyDict.keys d else PyDict.keys d ++ [k].
Proof.
  unfold PyDict.keys. induction d as [|[k' v'] d IH]; cbn.
  - by rewrite bool_decide_eq_false_2 by apply not_elem_of_nil.
  - destruct (String.eqb_spec k k') as [->|Hk]; cbn.
    + by rewrite bool_decide_eq_true_2 by apply list_elem_of_here.
    + rewrite IH. destruct (decide (k ∈ map fst d)) as [Hin|Hin].
      * rewrite !bool_decide_eq_true_2; [done| |done].
        by apply list_elem_of_further.
      * rewrite !bool_decide_eq_false_2; [done| |done].
        rewrite not_elem_of_cons. by split.
Qed.

Lemma keys_set_NoDup k v d : NoDup (PyDict.keys d) -> NoDup (PyDict.keys (PyDict.set k v d)).
Proof.
  intros Hd. rewrite keys_set. case_bool_decide as Hin; [done|].
  apply NoDup_app. split; [done|]. split; [|apply NoDup_singleton].
  intros x Hx ->%list_elem_of_singleton. done.
Qed.

Lemma keys_update_NoDup other : forall d,
  NoDup (PyDict.keys d) -> NoDup (PyDict.keys (PyDict.update other d)).
Proof.
  unfold PyDict.update.
  induction other as [|[k v] other IH]; intros d Hd; [done|].
  cbn. apply IH. by apply keys_set_NoDup.
Qed.

Lemma get_update_present other : forall d u v,
  NoDup (PyDict.keys other) ->
  PyDict.get u other = Some v -> PyDict.get u (PyDict.update other d) = Some v.
Proof.
  induction other as [|[k v0] other IH]; intros d u v Hnd Hu; [done|].
  cbn in Hnd, Hu. apply NoDup_cons in Hnd as [Hk Hnd].
  change (PyDict.update ((k, v0) :: other) d)
    with (PyDict.update other (PyDict.set k v0 d)).
  destruct (String.eqb_spec u k) as [->|Hne].
  - injection Hu as ->. rewrite get_update_absent by (by apply get_None_keys).
    apply get_set_eq.
  - by apply IH.
Qed.

Lemma Forall_remove (P : string * V -> Prop) k d :
  Forall P d -> Forall P (PyDict.remove k d).
Proof.
  induction d as [|[k' v'] d IH]; cbn; [done|].
  intros [Hh Ht]%Forall_cons. destruct (String.eqb k k'); [done|].
  apply Forall_cons. split; [done|by apply IH].
Qed.

Lemma Forall_set (P : string * V -> Prop) k v d :
  P (k, v) -> Forall P d -> Forall P (PyDict.set k v d).
Proof.
  intros Hkv. induction d as [|[k' v'] d IH]; cbn.
  - intros _. by apply Forall_singleton.
  - intros [Hh Ht]%Forall_cons. destruct (String.eqb k k').
    + apply Forall_cons. by split.
    + apply Forall_cons. split; [done|by apply IH].
Qed.

Lemma Forall_update (P : string * V -> Prop) other : forall d,
  Forall P other -> Forall P d -> Forall P (PyDict.update other d).
Proof.
  unfold PyDict.update.
  induction other as [|[k v] other IH]; intros d Ho Hd; [done|].
  apply Forall_cons in Ho as [Hkv Ho]. cbn. apply IH; [done|].
  by apply Forall_set.
Qed.

End more_pydict_lemmas.

Lemma update_workflow_status_buffer now_ms st replace in_recovery conn (s : t) :
  _workflow_status_buffer (snd (update_workflow_status now_ms st replace in_recovery conn s))
  = _workflow_status_buffer s.
Proof.
  unfold update_workflow_status, bind, modify, on_connection, transaction, execute,
    insert_workflow_status, ret.
  cbn [ws_workflow_uuid inserted_row]. fields.
  destruct conn; fields;
    destruct (has_workflow (workflow_uuid st) (db s)), replace, in_recovery;
    fields; destruct (decide (workflow_uuid st ∈ _temp_txn_wf_ids s));
    fields; done.
Qed.

(** A statement of the status flush either fails before it changes
    anything or is the upsert of [update_workflow_status]. *)
Lemma status_call_cases now_ms fault wf st (s : t) :
  (exists e, (failing fault wf ;;
              update_workflow_status now_ms st true false (Some Connection)) s
             = (Raise e, s))
  \/ (failing fault wf ;;
      update_workflow_status now_ms st true false (Some Connection)) s
     = (Return tt,
        snd (update_workflow_status now_ms st true false (Some Connection) s)).
Proof.
  unfold bind, failing. destruct (fault wf) as [e|]; [left; by exists e|].
  right. unfold ret.
  destruct (update_workflow_status_db now_ms st true false (Some Connection) s)
    as (Hfst & _).
  destruct (update_workflow_status now_ms st true false (Some Connection) s)
    as [o s1]. cbn [fst snd] in *. by subst o.
Qed.

Lemma flushed_after_update now_ms st in_recovery conn (s : t) :
  flushed st (db (snd (update_workflow_status now_ms st true in_recovery conn s))).
Proof.
  unfold flushed. rewrite select_after_update, String.eqb_refl.
  destruct (select_workflow_status (workflow_uuid st) (db s)) as [|r l].
  - split; [done|]. apply Forall_singleton. by repeat split.
  - split; [done|]. generalize (r :: l). intros rows.
    induction rows as [|x rows IH]; constructor; [by repeat split|exact IH].
Qed.

Lemma flushed_other now_ms st st' replace in_recovery conn (s : t) :
  workflow_uuid st' <> workflow_uuid st ->
  flushed st' (db s) ->
  flushed st' (db (snd (update_workflow_status now_ms st replace in_recovery conn s))).
Proof.
  intros Hne. unfold flushed. rewrite select_after_update.
  by destruct (String.eqb_spec (workflow_uuid st') (workflow_uuid st)).
Qed.

Lemma keyed_get b u st :
  keyed_by_uuid b -> PyDict.get u b = Some st -> workflow_uuid st = u.
Proof.
  intros [_ Hk] Hg. apply get_Some_elem in Hg.
  rewrite Forall_forall in Hk. exact (Hk _ Hg).
Qed.

Lemma keyed_remove k b : keyed_by_uuid b -> keyed_by_uuid (PyDict.remove k b).
Proof.
  intros [Hnd Hk]. split; [by apply keys_remove_NoDup|by apply Forall_remove].
Qed.

(** What the loop of the status flush keeps: every status exported so far
    or still buffered is, at the end, either buffered again or in the
    tables and out of the buffer. *)
Lemma flush_status_loop_keeps now_ms fault d0 ids : forall exported es (s : t),
  NoDup ids ->
  (forall u, u ∈ ids -> PyDict.get u es = None) ->
  keyed_by_uuid es ->
  keyed_by_uuid (_workflow_status_buffer s) ->
  (forall u st, PyDict.get u es = Some st ->
                PyDict.get u (_workflow_status_buffer s) = None /\ flushed st (db s)) ->
  let s' := flush_status_loop now_ms fault d0 ids exported es s in
  keyed_by_uuid (_workflow_status_buffer s')
  /\ forall u st,
       PyDict.get u es = Some st \/ PyDict.get u (_workflow_status_buffer s) = Some st ->
       PyDict.get u (_workflow_status_buffer s') = Some st
       \/ (PyDict.get u (_workflow_status_buffer s') = None /\ flushed st (db s')).
Proof.
  assert (Hexit : forall es (s : t),
    keyed_by_uuid (_workflow_status_buffer s) ->
    (forall u st, PyDict.get u es = Some st ->
                  PyDict.get u (_workflow_status_buffer s) = None /\ flushed st (db s)) ->
    keyed_by_uuid (_workflow_status_buffer s)
    /\ forall u st,
         PyDict.get u es = Some st \/ PyDict.get u (_workflow_status_buffer s) = Some st ->
         PyDict.get u (_workflow_status_buffer s) = Some st
         \/ (PyDict.get u (_workflow_status_buffer s) = None /\ flushed st (db s))).
  { intros es s Hb Hes. split; [done|]. intros u st [Hu|Hu]; [right; by apply Hes|by left]. }
  induction ids as [|wf ids IH]; intros exported es s Hnd Hdis Hkes Hkb Hes;
    cbn [flush_status_loop];
    destruct (exported <? buffer_flush_batch_size); cbn [negb];
    try (by apply Hexit).
  apply NoDup_cons in Hnd as [Hwf Hnd].
  assert (Hwfes : PyDict.get wf es = None) by apply Hdis, list_elem_of_here.
  unfold PyDict.pop.
  destruct (PyDict.get wf (_workflow_status_buffer s)) as [st0|] eqn:Hpop.
  - pose proof (keyed_get _ _ _ Hkb Hpop) as Hst0.
    set (s1 := set_status_buffer (PyDict.remove wf (_workflow_status_buffer s)) s).
    assert (Hkes' : keyed_by_uuid (PyDict.set wf st0 es)).
    { destruct Hkes as [Hn Hf]. split; [by apply keys_set_NoDup|by apply Forall_set]. }
    assert (Hget' : forall u, u <> wf ->
               PyDict.get u (PyDict.set wf st0 es) = PyDict.get u es)
      by (intros u Hu; apply get_set_ne; congruence).
    destruct (status_call_cases now_ms fault wf st0 s1) as [[e ->]| ->].
    + (* the statement failed: rollback and put the exported statuses back *)
      fields. subst s1. fields. split.
      * destruct Hkes' as [Hn Hf]. destruct (keyed_remove wf _ Hkb) as [Hn' Hf'].
        split; [by apply keys_update_NoDup|by apply Forall_update].
      * intros u st Hu. left.
        destruct (decide (u = wf)) as [->|Hne].
        -- assert (st = st0) as -> by (destruct Hu as [Hu|Hu]; congruence).
           apply get_update_present; [apply Hkes'|apply get_set_eq].
        -- destruct Hu as [Hu|Hu].
           ++ apply get_update_present; [apply Hkes'|]. by rewrite Hget'.
           ++ destruct (PyDict.get u es) as [st'|] eqn:Hues.
              ** destruct (Hes u st' Hues) as [Hnone _]. congruence.
              ** rewrite get_update_absent by (by rewrite Hget').
                 rewrite get_remove_ne by congruence. done.
    + (* the statement went through *)
      set (s2 := snd (update_workflow_status now_ms st0 true false (Some Connection) s1)).
      assert (Hbuf2 : _workflow_status_buffer s2
                      = PyDict.remove wf (_workflow_status_buffer s))
        by (subst s2; by rewrite update_workflow_status_buffer).
      destruct (IH (exported + 1) (PyDict.set wf st0 es) s2) as [Hk' Hkeep];
        try done.
      * intros u Hu. rewrite Hget'; [apply Hdis; by apply list_elem_of_further|].
        by intros ->.
      * rewrite Hbuf2. by apply keyed_remove.
      * intros u st Hu. rewrite Hbuf2. destruct (decide (u = wf)) as [->|Hne].
        -- rewrite get_set_eq in Hu. injection Hu as <-.
           split; [apply get_remove_eq, Hkb|]. apply flushed_after_update.
        -- rewrite Hget' in Hu by done. destruct (Hes u st Hu) as [Hnone Hfl].
           split; [by apply get_remove_None|].
           apply flushed_other; [|done].
           rewrite Hst0, (keyed_get _ _ _ Hkes Hu). done.
      * split; [done|]. intros u st Hu. apply Hkeep. rewrite Hbuf2.
        destruct (decide (u = wf)) as [->|Hne].
        -- left. assert (st = st0) as -> by (destruct Hu as [Hu|Hu]; congruence).
           apply get_set_eq.
        -- rewrite Hget' by done. rewrite get_remove_ne by congruence. done.
  - set (s1 := set_status_buffer (PyDict.remove wf (_workflow_status_buffer s)) s).
    destruct (IH exported es s1) as [Hk' Hkeep]; try done.
    + intros u Hu. apply Hdis. by apply list_elem_of_further.
    + by apply keyed_remove.
    + intros u st Hu. destruct (Hes u st Hu) as [Hnone Hfl].
      split; [by apply get_remove_None|done].
    + split; [done|]. intros u st Hu. apply Hkeep.
      destruct Hu as [Hu|Hu]; [by left|right]. subst s1. fields.
      rewrite get_remove_ne; [done|]. intros <-. congruence.
Qed.

(** Without a failing statement the loop takes the buffer from its head
    until the batch is full. *)
Lemma flush_status_loop_batch now_ms fault d0 : forall b exported es (s : t),
  _workflow_status_buffer s = b ->
  (forall u, u ∈ PyDict.keys b -> fault u = None) ->
  _workflow_status_buffer
    (flush_status_loop now_ms fault d0 (PyDict.keys b) exported es s)
  = drop (Z.to_nat (buffer_flush_batch_size - exported)) b.
Proof.
  induction b as [|[k v] b IH]; intros exported es s Hb Hok;
    cbn [PyDict.keys map fst flush_status_loop];
    destruct (Z.ltb_spec exported buffer_flush_batch_size) as [Hlt|Hge];
    cbn [negb]; try (by rewrite Hb, ?drop_nil).
  - unfold PyDict.pop. rewrite Hb. cbn [PyDict.get PyDict.remove].
    rewrite String.eqb_refl.
    destruct (status_call_cases now_ms fault k v (set_status_buffer b s))
      as [[e He]| ->].
    + unfold bind, failing in He. rewrite (Hok k) in He by apply list_elem_of_here.
      unfold ret in He.
      destruct (update_workflow_status_db now_ms v true false (Some Connection)
                  (set_status_buffer b s)) as (Hfst & _).
      rewrite He in Hfst. done.
    + rewrite (IH (exported + 1)).
      * replace (Z.to_nat (buffer_flush_batch_size - exported))
          with (S (Z.to_nat (buffer_flush_batch_size - (exported + 1))))
          by (unfold buffer_flush_batch_size in *; lia).
        done.
      * by rewrite update_workflow_status_buffer.
      * intros u Hu. apply Hok. by apply list_elem_of_further.
  - rewrite Hb.
    by replace (Z.to_nat (buffer_flush_batch_size - exported)) with 0%nat by lia.
Qed.

Lemma status_flush_keeps now_ms fault (s : t) :
  keyed_by_uuid (_workflow_status_buffer s) ->
  let s' := snd (_flush_workflow_status_buffer now_ms fault s) in
  keyed_by_uuid (_workflow_status_buffer s')
  /\ forall u st,
       PyDict.get u (_workflow_status_buffer s) = Some st ->
       PyDict.get u (_workflow_status_buffer s') = Some st
       \/ (PyDict.get u (_workflow_status_buffer s') = None /\ flushed st (db s')).
Proof.
  intros Hk. cbv zeta. unfold _flush_workflow_status_buffer.
  destruct (Z.of_nat (length (_workflow_status_buffer s)) =? 0); cbn [fst snd].
  - split; [done|]. intros u st Hu. by left.
  - destruct (flush_status_loop_keeps now_ms fault (db s)
                (PyDict.keys (_workflow_status_buffer s)) 0 [] s) as [Hk' Hkeep];
      try done.
    + apply Hk.
    + split; [apply NoDup_nil_2|apply Forall_nil_2].
    + split; [done|]. intros u st Hu. apply Hkeep. by right.
Qed.

Lemma status_flush_batch now_ms fault (s : t) :
  (forall u, u ∈ PyDict.keys (_workflow_status_buffer s) -> fault u = None) ->
  _workflow_status_buffer (snd (_flush_workflow_status_buffer now_ms fault s))
  = drop (Z.to_nat buffer_flush_batch_size) (_workflow_status_buffer s).
Proof.
  intros Hok. unfold _flush_workflow_status_buffer.
  destruct (Z.of_nat (length (_workflow_status_buffer s)) =? 0) eqn:Hlen;
    cbn [fst snd].
  - apply Z.eqb_eq in Hlen.
    destruct (_workflow_status_buffer s); [done|]. cbn [length] in Hlen. lia.
  - by rewrite (flush_status_loop_batch _ _ _ _ 0 [] s eq_refl Hok).
Qed.

Lemma status_flush_returns now_ms fault (s : t) :
  fst (_flush_workflow_status_buffer now_ms fault s) = Return tt.
Proof.
  unfold _flush_workflow_status_buffer.
  by destruct (Z.of_nat (length (_workflow_status_buffer s)) =? 0).
Qed.

(** A pass of the status flush returns and loses no status: each status
    that was buffered is afterwards either still buffered, unchanged, or
    out of the buffer and in the [workflow_status] row of its workflow;
    the buffer stays a dictionary keyed by workflow uuid. When no statement
    fails, the pass takes the first [buffer_flush_batch_size] statuses off
    the buffer, in the order they were buffered, and leaves the rest. *)
Theorem status_flush_loses_nothing (now_ms : Z) (fault : string -> option exn)
    (s : t) :
  keyed_by_uuid (_workflow_status_buffer s) ->
  let s' := snd (_flush_workflow_status_buffer now_ms fault s) in
  fst (_flush_workflow_status_buffer now_ms fault s) = Return tt
  /\ keyed_by_uuid (_workflow_status_buffer s')
  /\ (forall u st,
        PyDict.get u (_workflow_status_buffer s) = Some st ->
        PyDict.get u (_workflow_status_buffer s') = Some st
        \/ (PyDict.get u (_workflow_status_buffer s') = None /\ flushed st (db s')))
  /\ ((forall u, u ∈ PyDict.keys (_workflow_status_buffer s) -> fault u = None) ->
      _workflow_status_buffer s'
      = drop (Z.to_nat buffer_flush_batch_size) (_workflow_status_buffer s)).
Proof.
  intros Hk. cbv zeta. split; [apply status_flush_returns|].
  destruct (status_flush_keeps now_ms fault s Hk) as [Hk' Hkeep].
  split; [done|]. split; [done|]. apply status_flush_batch.
Qed.

(** A status handed to [buffer_workflow_status] replaces the one buffered
    for its workflow, in the same place of the queue, or joins the queue at
    its end; the buffer stays keyed by workflow uuid. With fewer than
    [buffer_flush_batch_size] statuses buffered before and no failing
    statement, the next pass of the status flush empties the buffer, and
    the [workflow_status] rows then carry the status handed in and those
    buffered for the other workflows. *)
Theorem buffered_status_is_flushed (now_ms : Z) (fault : string -> option exn)
    (st : WorkflowStatusInternal) (s : t) :
  keyed_by_uuid (_workflow_status_buffer s) ->
  let s1 := snd (buffer_workflow_status st s) in
  let s2 := snd (_flush_workflow_status_buffer now_ms fault s1) in
  fst (buffer_workflow_status st s) = Return tt
  /\ keyed_by_uuid (_workflow_status_buffer s1)
  /\ PyDict.get (workflow_uuid st) (_workflow_status_buffer s1) = Some st
  /\ PyDict.keys (_workflow_status_buffer s1)
     = (if bool_decide (workflow_uuid st ∈ PyDict.keys (_workflow_status_buffer s))
        then PyDict.keys (_workflow_status_buffer s)
        else PyDict.keys (_workflow_status_buffer s) ++ [workflow_uuid st])
  /\ ((length (_workflow_status_buffer s) < Z.to_nat buffer_flush_batch_size)%nat ->
      (forall u, fault u = None) ->
      _workflow_status_buffer s2 = []
      /\ flushed st (db s2)
      /\ forall u st', u <> workflow_uuid st ->
           PyDict.get u (_workflow_status_buffer s) = Some st' ->
           flushed st' (db s2)).
Proof.
  intros Hk. cbv zeta. unfold buffer_workflow_status, modify. cbn [fst snd].
  set (s1 := set_status_buffer _ s).
  assert (Hk1 : keyed_by_uuid (_workflow_status_buffer s1)).
  { subst s1. fields. destruct Hk as [Hnd Hf].
    split; [by apply keys_set_NoDup|by apply Forall_set]. }
  split; [done|]. split; [done|]. split; [apply get_set_eq|].
  split; [apply keys_set|].
  intros Hlen Hok.
  destruct (status_flush_keeps now_ms fault s1 Hk1) as [_ Hkeep].
  assert (Hempty : _workflow_status_buffer
                     (snd (_flush_workflow_status_buffer now_ms fault s1)) = []).
  { rewrite status_flush_batch by (intros u _; apply Hok).
    apply drop_ge. subst s1. fields.
    assert (Hl : length (PyDict.keys (PyDict.set (workflow_uuid st) st
                                        (_workflow_status_buffer s)))
                 = length (PyDict.set (workflow_uuid st) st
                             (_workflow_status_buffer s)))
      by apply length_map.
    rewrite keys_set in Hl. rewrite <- Hl.
    case_bool_decide; [|rewrite length_app]; unfold PyDict.keys;
      rewrite length_map; cbn [length]; lia. }
  split; [done|]. rewrite Hempty in Hkeep. split.
  - destruct (Hkeep (workflow_uuid st) st) as [Hin|[_ Hfl]]; [|done|done].
    subst s1. fields. apply get_set_eq.
  - intros u st' Hu Hget.
    destruct (Hkeep u st') as [Hin|[_ Hfl]]; [|done|done].
    subst s1. fields. rewrite get_set_ne by congruence. done.
Qed.

(** ** The buffered writer loses no inputs *)

Lemma has_inputs_app u d rows :
  has_inputs u d = true ->
  has_inputs u (with_workflow_inputs (workflow_inputs d ++ rows) d) = true.
Proof.
  unfold has_inputs. cbn [workflow_inputs with_workflow_inputs].
  rewrite existsb_app. by intros ->.
Qed.

(** A statement of the inputs flush leaves the buffer alone, and when it
    went through the workflow has its inputs row and no row was removed. *)
Lemma inputs_call_cases fault wf inputs (s : t) :
  exists o s1,
    (failing fault wf ;; update_workflow_inputs wf inputs (Some Connection)) s = (o, s1)
    /\ _workflow_inputs_buffer s1 = _workflow_inputs_buffer s
    /\ (o = Return tt ->
        has_inputs wf (db s1) = true
        /\ forall u, has_inputs u (db s) = true -> has_inputs u (db s1) = true).
Proof.
  unfold bind, failing. destruct (fault wf) as [e|].
  - exists (Raise e), s. by repeat split.
  - unfold ret. rewrite update_workflow_inputs_eq.
    destruct (has_inputs wf (db s)) eqn:Hi; [|destruct (has_workflow wf (db s))];
      eexists _, _; (split; [reflexivity|]).
    + split; [unfold untracked; case_decide; by fields|].
      intros _. rewrite db_untracked. fields. by split.
    + split; [unfold untracked; case_decide; by fields|].
      intros _. rewrite db_untracked. fields. split.
      * unfold has_inputs. cbn [workflow_inputs with_workflow_inputs].
        rewrite existsb_app. cbn. by rewrite String.eqb_refl, orb_true_r.
      * intros u Hu. by apply has_inputs_app.
    + split; [by fields|]. done.
Qed.

Lemma flush_inputs_loop_keeps fault d0 ids : forall exported ei (s : t),
  NoDup ids ->
  (forall u, u ∈ ids -> PyDict.get u ei = None) ->
  NoDup (PyDict.keys ei) ->
  NoDup (PyDict.keys (_workflow_inputs_buffer s)) ->
  (forall u i, PyDict.get u ei = Some i ->
               PyDict.get u (_workflow_inputs_buffer s) = None
               /\ has_inputs u (db s) = true) ->
  let s' := flush_inputs_loop fault d0 ids exported ei s in
  NoDup (PyDict.keys (_workflow_inputs_buffer s'))
  /\ forall u i,
       PyDict.get u ei = Some i \/ PyDict.get u (_workflow_inputs_buffer s) = Some i ->
       PyDict.get u (_workflow_inputs_buffer s') = Some i
       \/ (PyDict.get u (_workflow_inputs_buffer s') = None
           /\ has_inputs u (db s') = true).
Proof.
  assert (Hexit : forall ei (s : t),
    NoDup (PyDict.keys (_workflow_inputs_buffer s)) ->
    (forall u i, PyDict.get u ei = Some i ->
                 PyDict.get u (_workflow_inputs_buffer s) = None
                 /\ has_inputs u (db s) = true) ->
    NoDup (PyDict.keys (_workflow_inputs_buffer s))
    /\ forall u i,
         PyDict.get u ei = Some i \/ PyDict.get u (_workflow_inputs_buffer s) = Some i ->
         PyDict.get u (_workflow_inputs_buffer s) = Some i
         \/ (PyDict.get u (_workflow_inputs_buffer s) = None
             /\ has_inputs u (db s) = true)).
  { intros ei s Hb Hei. split; [done|].
    intros u i [Hu|Hu]; [right; exact (Hei u i Hu)|by left]. }
  induction ids as [|wf ids IH]; intros exported ei s Hnd Hdis Hkei Hkb Hei;
    cbn [flush_inputs_loop];
    destruct (exported <? buffer_flush_batch_size); cbn [negb];
    try (by apply Hexit).
  apply NoDup_cons in Hnd as [Hwf Hnd].
  assert (Hwfei : PyDict.get wf ei = None) by apply Hdis, list_elem_of_here.
  assert (Hdis' : forall u, u ∈ ids -> PyDict.get u ei = None)
    by (intros u Hu; apply Hdis; by apply list_elem_of_further).
  destruct (decide (wf ∉ _exported_temp_txn_wf_status s)) as [Hout|Hin];
    [by apply IH|].
  unfold PyDict.pop.
  destruct (PyDict.get wf (_workflow_inputs_buffer s)) as [i0|] eqn:Hpop.
  - set (s1 := set_inputs_buffer (PyDict.remove wf (_workflow_inputs_buffer s)) s).
    assert (Hkei' : NoDup (PyDict.keys (PyDict.set wf i0 ei)))
      by (by apply keys_set_NoDup).
    assert (Hget' : forall u, u <> wf ->
               PyDict.get u (PyDict.set wf i0 ei) = PyDict.get u ei)
      by (intros u Hu; apply get_set_ne; congruence).
    destruct (inputs_call_cases fault wf i0 s1) as (o & s2 & -> & Hbuf2 & Hok).
    subst s1. fields. destruct o as [[]|e].
    + (* the statement went through *)
      destruct (Hok eq_refl) as [Hhas Hmono].
      destruct (IH (exported + 1) (PyDict.set wf i0 ei) s2) as [Hk' Hkeep];
        try done.
      * intros u Hu. rewrite Hget'; [by apply Hdis'|]. by intros ->.
      * rewrite Hbuf2. by apply keys_remove_NoDup.
      * intros u i Hu. rewrite Hbuf2. destruct (decide (u = wf)) as [->|Hne].
        -- split; [by apply get_remove_eq|done].
        -- rewrite Hget' in Hu by done. destruct (Hei u i Hu) as [Hnone Hfl].
           split; [by apply get_remove_None|by apply Hmono].
      * split; [done|]. intros u i Hu. apply Hkeep. rewrite Hbuf2.
        destruct (decide (u = wf)) as [->|Hne].
        -- left. assert (i = i0) as -> by (destruct Hu as [Hu|Hu]; congruence).
           apply get_set_eq.
        -- rewrite Hget' by done. rewrite get_remove_ne by congruence. done.
    + (* the statement failed: rollback and put the exported inputs back *)
      fields. rewrite Hbuf2. split.
      * by apply keys_update_NoDup, keys_remove_NoDup.
      * intros u i Hu. left.
        destruct (decide (u = wf)) as [->|Hne].
        -- assert (i = i0) as -> by (destruct Hu as [Hu|Hu]; congruence).
           apply get_update_present; [done|apply get_set_eq].
        -- destruct Hu as [Hu|Hu].
           ++ apply get_update_present; [done|]. by rewrite Hget'.
           ++ destruct (PyDict.get u ei) as [i'|] eqn:Huei.
              ** destruct (Hei u i' Huei) as [Hnone _]. congruence.
              ** rewrite get_update_absent by (by rewrite Hget').
                 rewrite get_remove_ne by congruence. done.
  - set (s1 := set_inputs_buffer (PyDict.remove wf (_workflow_inputs_buffer s)) s).
    destruct (IH exported ei s1) as [Hk' Hkeep]; try done.
    + by apply keys_remove_NoDup.
    + intros u i Hu. destruct (Hei u i Hu) as [Hnone Hfl].
      split; [by apply get_remove_None|done].
    + split; [done|]. intros u i Hu. apply Hkeep.
      destruct Hu as [Hu|Hu]; [by left|right]. subst s1. fields.
      rewrite get_remove_ne; [done|]. intros <-. congruence.
Qed.

(** A pass of the inputs flush returns and loses no inputs: each buffered
    entry is afterwards either still buffered, unchanged, or out of the
    buffer with a [workflow_inputs] row of its workflow in the tables; an
    entry whose workflow is not in [_exported_temp_txn_wf_status] is among
    those still buffered. *)
Theorem inputs_flush_loses_nothing (fault : string -> option exn) (s : t) :
  NoDup (PyDict.keys (_workflow_inputs_buffer s)) ->
  let s' := snd (_flush_workflow_inputs_buffer fault s) in
  fst (_flush_workflow_inputs_buffer fault s) = Return tt
  /\ NoDup (PyDict.keys (_workflow_inputs_buffer s'))
  /\ (forall u i,
        PyDict.get u (_workflow_inputs_buffer s) = Some i ->
        PyDict.get u (_workflow_inputs_buffer s') = Some i
        \/ (PyDict.get u (_workflow_inputs_buffer s') = None
            /\ has_inputs u (db s') = true))
  /\ (forall u,
        u ∉ _exported_temp_txn_wf_status s ->
        PyDict.get u (_workflow_inputs_buffer s')
        = PyDict.get u (_workflow_inputs_buffer s)).
Proof.
  intros Hk. cbv zeta.
  destruct (flush_inputs_post fault s) as [Hrun (_ & _ & Hskip & _)].
  split; [by rewrite Hrun|]. split; [|split].
  - unfold _flush_workflow_inputs_buffer.
    destruct (Z.of_nat (length (_workflow_inputs_buffer s)) =? 0); cbn [snd]; [done|].
    apply flush_inputs_loop_keeps; try done. apply NoDup_nil_2.
  - unfold _flush_workflow_inputs_buffer.
    destruct (Z.of_nat (length (_workflow_inputs_buffer s)) =? 0); cbn [snd];
      [intros u i Hu; by left|].
    destruct (flush_inputs_loop_keeps fault (db s)
                (PyDict.keys (_workflow_inputs_buffer s)) 0 [] s) as [_ Hkeep];
      try done; [apply NoDup_nil_2|].
    intros u i Hu. apply Hkeep. by right.
  - intros u Hu. by apply Hskip.
Qed.

(** ** Messages: delivery and replay *)

Section messaging_properties.
Context `{Serializer}.

(** The consuming step from a state where the caller's key is free: it
    returns, and its journal row is the one row under the key. *)
Lemma recv_consume_fresh workflow_uuid function_id topic (s : t) :
  has_operation_output workflow_uuid function_id (db s) = false ->
  exists m d',
    recv_consume workflow_uuid function_id topic s
    = (Return m, set_db (journal_message workflow_uuid function_id m d') s)
    /\ operation_outputs d' = operation_outputs (db s).
Proof.
  intros Hfresh.
  destruct (delete_oldest_entry workflow_uuid topic (db s)) as [rows d'] eqn:Hdel.
  assert (Hoo : operation_outputs d' = operation_outputs (db s)).
  { unfold delete_oldest_entry in Hdel. by injection Hdel as _ <-. }
  eexists _, d'. split; [|exact Hoo]. by apply recv_consume_run.
Qed.

(** With the key taken the consuming step raises and changes nothing. *)
Lemma recv_consume_taken workflow_uuid function_id topic (s : t) :
  has_operation_output workflow_uuid function_id (db s) = true ->
  recv_consume workflow_uuid function_id topic s
  = (Raise (DBOSWorkflowConflictIDError workflow_uuid), s).
Proof.
  intros Htaken. unfold recv_consume, transaction.
  unfold bind at 1. unfold execute_returning.
  destruct (delete_oldest_entry workflow_uuid topic (db s)) as [rows d'] eqn:Hdel.
  assert (Hoo : operation_outputs d' = operation_outputs (db s)).
  { unfold delete_oldest_entry in Hdel. by injection Hdel as _ <-. }
  unfold bind. rewrite record_operation_result_passed by (by left).
  cbn [or_workflow_uuid or_function_id db set_db].
  replace (has_operation_output workflow_uuid function_id d') with true
    by (unfold has_operation_output in *; by rewrite Hoo).
  fields. f_equal. by destruct s.
Qed.

Lemma select_journal_message workflow_uuid function_id m d :
  has_operation_output workflow_uuid function_id d = false ->
  select_operation_outputs workflow_uuid function_id
    (journal_message workflow_uuid function_id m d)
  = [{| oo_workflow_uuid := workflow_uuid; oo_function_id := function_id;
        oo_output := Some (serialize m); oo_error := None |}].
Proof.
  intros Hfresh. apply select_operation_outputs_nil in Hfresh.
  unfold journal_message, select_operation_outputs in *.
  cbn [operation_outputs with_operation_outputs].
  rewrite filter_app, Hfresh, filter_cons_True; [done|]. by split.
Qed.

(** A replayed [recv]: the recorded output decides. *)
Lemma recv_journaled env wait time1 time2 workflow_uuid function_id
    timeout_function_id topic timeout_seconds (s : t) r rest o :
  select_operation_outputs workflow_uuid function_id (db s) = r :: rest ->
  oo_output r = Some o ->
  recv env wait time1 time2 workflow_uuid function_id timeout_function_id topic
    timeout_seconds s
  = (Return (deserialize o), s).
Proof.
  intros Hsel Ho. unfold recv. unfold bind at 1.
  rewrite check_operation_execution_value, Hsel. cbn [rr_output]. by rewrite Ho.
Qed.

(** A [recv] that returned a message returns that message again, as the
    journal holds it, when the step is executed again, whatever was sent or
    consumed since and whatever topic and timeout the re-execution names;
    the re-execution changes nothing. *)
Theorem recv_result_is_replayed (env wait : tables -> tables) (time1 time2 : Q)
    (workflow_uuid : string) (function_id timeout_function_id : Z)
    (topic : option string) (timeout_seconds : Q) (s s1 : t) (m : pyval) :
  has_operation_output workflow_uuid function_id (db s) = false ->
  recv env wait time1 time2 workflow_uuid function_id timeout_function_id topic
    timeout_seconds s = (Return m, s1) ->
  forall env' wait' time1' time2' timeout_function_id' topic' timeout_seconds'
         (others : tables -> tables),
    (forall d, select_operation_outputs workflow_uuid function_id (others d)
               = select_operation_outputs workflow_uuid function_id d) ->
    recv env' wait' time1' time2' workflow_uuid function_id timeout_function_id'
      topic' timeout_seconds' (set_db (others (db s1)) s1)
    = (Return (deserialize (serialize m)), set_db (others (db s1)) s1).
Proof.
  intros Hfresh Hrun env' wait' time1' time2' tfn' topic' timeout' others Hothers.
  assert (Hrow : select_operation_outputs workflow_uuid function_id (db s1)
                 = [{| oo_workflow_uuid := workflow_uuid;
                       oo_function_id := function_id;
                       oo_output := Some (serialize m); oo_error := None |}]).
  { unfold recv in Hrun. unfold bind at 1 in Hrun.
    rewrite check_operation_execution_value in Hrun.
    apply select_operation_outputs_nil in Hfresh as Hnil. rewrite Hnil in Hrun.
    unfold bind at 1 in Hrun. unfold bind at 1 in Hrun.
    unfold transaction at 1, query in Hrun.
    assert (Hconsume : forall s0 : t,
      recv_consume workflow_uuid function_id (default dbos_null_topic topic) s0
      = (Return m, s1) ->
      select_operation_outputs workflow_uuid function_id (db s1)
      = [{| oo_workflow_uuid := workflow_uuid; oo_function_id := function_id;
            oo_output := Some (serialize m); oo_error := None |}]).
    { intros s0 Hc.
      destruct (has_operation_output workflow_uuid function_id (db s0)) eqn:H0.
      - by rewrite recv_consume_taken in Hc.
      - destruct (recv_consume_fresh workflow_uuid function_id
                    (default dbos_null_topic topic) s0 H0) as (m' & d' & Hc' & Hoo).
        rewrite Hc' in Hc. injection Hc as -> <-. fields.
        apply select_journal_message.
        unfold has_operation_output in *. by rewrite Hoo. }
    replace (match topic with Some tp => tp | None => dbos_null_topic end)
      with (default dbos_null_topic topic) in Hrun by (by destruct topic).
    destruct (select_notifications workflow_uuid (default dbos_null_topic topic) (db s))
      as [|n ns].
    - unfold bind at 1 in Hrun.
      destruct (sleep env time1 time2 workflow_uuid timeout_function_id
                  timeout_seconds true s) as [[a|e] s'] eqn:Hsleep; [|done].
      unfold yield_to in Hrun. by apply Hconsume in Hrun.
    - unfold ret in Hrun. by apply Hconsume in Hrun. }
  eapply recv_journaled with (o := serialize m);
    [fields; by rewrite Hothers, Hrow | reflexivity].
Qed.

(** A message sent, with no statement failing, by a workflow that has its
    [workflow_status] row to one that has its own, with nothing waiting
    under the topic, is what the destination's next [recv] on that topic
    returns, without sleeping; the message is consumed and the step
    journaled. *)
Theorem send_then_recv_delivers (now_ms : Z) (workflow_uuid : string)
    (function_id : Z) (destination_uuid : string) (message : pyval)
    (topic : option string) (env wait : tables -> tables) (time1 time2 : Q)
    (recv_function_id timeout_function_id : Z) (timeout_seconds : Q) (s : t) :
  has_workflow workflow_uuid (db s) = true ->
  has_workflow destination_uuid (db s) = true ->
  has_operation_output workflow_uuid function_id (db s) = false ->
  has_operation_output destination_uuid recv_function_id (db s) = false ->
  (workflow_uuid, function_id) <> (destination_uuid, recv_function_id) ->
  select_notifications destination_uuid (default dbos_null_topic topic) (db s) = [] ->
  let s1 := snd (send None None now_ms workflow_uuid function_id destination_uuid
                   message topic s) in
  let received := recv env wait time1 time2 destination_uuid recv_function_id
                    timeout_function_id topic timeout_seconds s1 in
  fst received = Return (deserialize (serialize message))
  /\ select_notifications destination_uuid (default dbos_null_topic topic)
       (db (snd received)) = []
  /\ notifications (db (snd received)) = notifications (db s)
  /\ has_operation_output destination_uuid recv_function_id (db (snd received))
     = true.
Proof.
  intros _ Hdest Hfresh Hrfresh Hne Hnone. cbv zeta.
  rewrite send_eq, Hfresh, Hdest. cbn [snd].
  set (sent_row := {| n_destination_uuid := destination_uuid;
                      n_topic := default dbos_null_topic topic;
                      n_message := serialize message;
                      n_created_at_epoch_ms := now_ms |}).
  set (s1 := set_db _ s).
  assert (Hsel1 : select_notifications destination_uuid
                    (default dbos_null_topic topic) (db s1) = [sent_row]).
  { subst s1. fields. rewrite select_notifications_unfold in *.
    cbn [notifications with_operation_outputs with_notifications].
    rewrite filter_app, Hnone, filter_cons_True; [done|]. by split. }
  assert (Hrfresh1 : has_operation_output destination_uuid recv_function_id (db s1)
                     = false).
  { subst s1. fields. unfold has_operation_output in *.
    cbn [operation_outputs with_operation_outputs].
    rewrite existsb_app, Hrfresh. cbn.
    destruct (String.eqb_spec workflow_uuid destination_uuid) as [Hu|Hu];
      destruct (Z.eqb_spec function_id recv_function_id) as [Hf|Hf];
      try done. congruence. }
  assert (Hquiet : forall ns,
    filter (matches destination_uuid (default dbos_null_topic topic)) ns = [] ->
    List.filter (joins_oldest [sent_row]) ns = []
    /\ List.filter (fun n => negb (joins_oldest [sent_row] n)) ns = ns).
  { induction ns as [|n ns IH]; [done|]. rewrite filter_cons. cbn [List.filter].
    destruct (joins_oldest [sent_row] n) eqn:Hj.
    - apply joins_oldest_single in Hj as (Hd & Ht & _).
      rewrite decide_True by (by split). done.
    - case_decide; [done|]. intros Hns. destruct (IH Hns) as [-> ->]. done. }
  destruct (Hquiet (notifications (db s)) Hnone) as [Hjoin Hkeep].
  assert (Hrecv :
    recv env wait time1 time2 destination_uuid recv_function_id
      timeout_function_id topic timeout_seconds s1
    = (Return (deserialize (serialize message)),
       set_db (journal_message destination_uuid recv_function_id
                 (deserialize (serialize message))
                 (with_notifications (notifications (db s)) (db s1))) s1)).
  { unfold recv. unfold bind at 1. rewrite check_operation_execution_value.
    apply select_operation_outputs_nil in Hrfresh1 as Hnil. rewrite Hnil.
    unfold bind at 1. unfold bind at 1. unfold transaction at 1, query.
    replace (match topic with Some tp => tp | None => dbos_null_topic end)
      with (default dbos_null_topic topic) by (by destruct topic).
    rewrite Hsel1. unfold ret.
    apply (recv_consume_run _ _ _ _ [serialize message]); [done| |done].
    unfold delete_oldest_entry, oldest_entry. rewrite Hsel1.
    subst s1. fields.
    cbn [notifications with_operation_outputs with_notifications].
    change (take 1 (merge_sort created_le [sent_row])) with [sent_row].
    rewrite !List.filter_app, Hjoin, Hkeep. cbn [List.filter].
    replace (joins_oldest [sent_row] sent_row) with true
      by (symmetry; by apply joins_oldest_single).
    cbn [negb app map]. by rewrite app_nil_r. }
  rewrite Hrecv. cbn [fst snd]. fields. split; [done|]. split; [|split; [done|]].
  - unfold journal_message. rewrite select_notifications_unfold in *. done.
  - unfold journal_message, has_operation_output.
    cbn [operation_outputs with_operation_outputs with_notifications].
    rewrite !existsb_app. cbn.
    by rewrite String.eqb_refl, Z.eqb_refl, !orb_true_r.
Qed.

End messaging_properties.

(** ** Pending workflows *)

Lemma get_pending_workflows_value executor_id (s : t) :
  get_pending_workflows executor_id s = (Return (pending_of executor_id (db s)), s).
Proof.
  unfold get_pending_workflows, transaction, query, pending_of. done.
Qed.

Lemma elem_pending_select executor_id u d :
  u ∈ pending_of executor_id d <->
  Exists (fun r => ws_status r = value PENDING
                   /\ ws_executor_id r = Some executor_id)
         (select_workflow_status u d).
Proof.
  unfold pending_of, select_workflow_status.
  rewrite map_is_fmap, list_elem_of_fmap, Exists_exists. split.
  - intros (r & -> & Hr). apply list_elem_of_filter in Hr as [Hp Hr].
    exists r. split; [|done]. by apply list_elem_of_filter.
  - intros (r & Hr & Hp). apply list_elem_of_filter in Hr as [Hu Hr].
    exists r. split; [done|]. by apply list_elem_of_filter.
Qed.

(** [get_pending_workflows] only reads. Once [update_workflow_status] has
    replaced the status of a workflow by one that is not PENDING, no
    executor finds the workflow among its pending ones, so recovery does
    not start it again; a workflow recorded as PENDING for the first time
    is pending for its executor; what is pending among the other workflows
    does not change. *)
Theorem finished_workflow_is_not_pending (now_ms : Z)
    (st : WorkflowStatusInternal) (in_recovery : bool)
    (conn : option AsyncConnection) (executor : string) (s : t) :
  let s' := snd (update_workflow_status now_ms st true in_recovery conn s) in
  get_pending_workflows executor s'
  = (Return (pending_of executor (db s')), s')
  /\ (status st <> value PENDING ->
      workflow_uuid st ∉ pending_of executor (db s'))
  /\ (status st = value PENDING ->
      has_workflow (workflow_uuid st) (db s) = false ->
      executor_id st = Some executor ->
      workflow_uuid st ∈ pending_of executor (db s'))
  /\ (forall u, u <> workflow_uuid st ->
        u ∈ pending_of executor (db s') <-> u ∈ pending_of executor (db s)).
Proof.
  cbv zeta. split; [apply get_pending_workflows_value|].
  split; [|split].
  - intros Hst. rewrite elem_pending_select, select_after_update, String.eqb_refl.
    rewrite Exists_exists.
    destruct (select_workflow_status (workflow_uuid st) (db s)) as [|r l].
    + intros (x & ->%list_elem_of_singleton & Hx & _). done.
    + rewrite map_is_fmap. intros (x & (y & -> & _)%list_elem_of_fmap & Hx & _).
      done.
  - intros Hst Hnew Hex. rewrite elem_pending_select, select_after_update.
    rewrite String.eqb_refl. apply has_workflow_select in Hnew. rewrite Hnew.
    apply Exists_cons_hd. by split.
  - intros u Hu. rewrite !elem_pending_select, select_after_update.
    by destruct (String.eqb_spec u (workflow_uuid st)).
Qed.

(** ** Recovery at startup *)

Module StartupProperties.
Import Recovery.

Section startup_properties.
Variable WorkflowHandle : Type.
Variable execute_workflow_by_id : string -> M WorkflowHandle.
Variable is_function_not_found : exn -> bool.

(** A pass over the list takes the workflows off its head one by one; it
    ends with the list empty, or with the exception of the workflow the
    list then starts with. *)
Lemma recover_snapshot_head : forall snapshot (s : t) o rest s',
  recover_snapshot WorkflowHandle execute_workflow_by_id snapshot snapshot s
  = (o, rest, s') ->
  (exists recovered, snapshot = recovered ++ rest)
  /\ (o = Return tt -> rest = [])
  /\ (forall e, o = Raise e ->
        exists pending_workflow rest' s0,
          rest = pending_workflow :: rest'
          /\ fst (execute_workflow_by_id (pw_workflow_uuid pending_workflow) s0)
             = Raise e).
Proof.
  induction snapshot as [|pw tl IH]; intros s o rest s' Hrun; cbn in Hrun.
  - injection Hrun as <- <- <-. split; [by exists []|]. by split.
  - destruct (execute_workflow_by_id (pw_workflow_uuid pw) s) as [[h|e] s1] eqn:Hex.
    + rewrite String.eqb_refl in Hrun.
      destruct (IH s1 o rest s' Hrun) as ((recovered & Htl) & Hret & Hraise).
      split; [exists (pw :: recovered); by rewrite Htl|]. by split.
    + injection Hrun as <- <- <-. split; [by exists []|]. split; [done|].
      intros e' [= <-]. exists pw, tl, s. by rewrite Hex.
Qed.

(** When [startup_recovery_thread] ends, what is left of the list is a
    tail of it; it ends quietly only with the list empty or the stop event
    set, and with an exception only with one that is not a
    [DBOSWorkflowFunctionNotFoundError] and that the workflow at the head of
    what is left raised. *)
Theorem startup_recovery_thread_end (others : tables -> tables) :
  forall (is_set : list bool) (pending_workflows : list GetPendingWorkflowsOutput)
         (s : t) o rest s',
  startup_recovery_thread WorkflowHandle execute_workflow_by_id
    is_function_not_found others is_set pending_workflows s = Some (o, rest, s') ->
  (exists recovered, pending_workflows = recovered ++ rest)
  /\ (o = Return tt -> rest = [] \/ true ∈ is_set)
  /\ (forall e, o = Raise e ->
        is_function_not_found e = false
        /\ exists pending_workflow rest' s0,
             rest = pending_workflow :: rest'
             /\ fst (execute_workflow_by_id (pw_workflow_uuid pending_workflow) s0)
                = Raise e).
Proof.
  induction is_set as [|stop later IH]; intros pending s o rest s' Hrun;
    cbn [startup_recovery_thread] in Hrun; [done|].
  destruct stop; cbn [negb andb] in Hrun.
  { injection Hrun as <- <- <-. split; [by exists []|].
    split; [intros _; right; apply list_elem_of_here|done]. }
  destruct (0 <? Z.of_nat (length pending)) eqn:Hlen; cbn [negb] in Hrun.
  2:{ injection Hrun as <- <- <-. split; [by exists []|]. split; [|done].
      intros _. left. apply Z.ltb_ge in Hlen. destruct pending; [done|].
      cbn [length] in Hlen. lia. }
  destruct (recover_snapshot WorkflowHandle execute_workflow_by_id pending pending s)
    as [[o1 rest1] s1] eqn:Hpass.
  destruct (recover_snapshot_head _ _ _ _ _ Hpass) as ((rec1 & Hrec1) & Hret1 & Hraise1).
  assert (Hlater : forall s2,
    startup_recovery_thread WorkflowHandle execute_workflow_by_id
      is_function_not_found others later rest1 s2 = Some (o, rest, s') ->
    (exists recovered, pending = recovered ++ rest)
    /\ (o = Return tt -> rest = [] \/ true ∈ false :: later)
    /\ (forall e, o = Raise e ->
          is_function_not_found e = false
          /\ exists pending_workflow rest' s0,
               rest = pending_workflow :: rest'
               /\ fst (execute_workflow_by_id (pw_workflow_uuid pending_workflow) s0)
                  = Raise e)).
  { intros s2 Hrun2.
    destruct (IH rest1 s2 o rest s' Hrun2) as ((rec2 & Hrec2) & Hret2 & Hraise2).
    split; [exists (rec1 ++ rec2); by rewrite Hrec1, Hrec2, app_assoc|].
    split; [|done]. intros Ho. destruct (Hret2 Ho); [by left|right].
    by apply list_elem_of_further. }
  destruct o1 as [[]|e1]; [by apply (Hlater s1)|].
  destruct (is_function_not_found e1) eqn:Hnf; [by eapply Hlater|].
  injection Hrun as <- <- <-. split; [by exists rec1|]. split; [done|].
  intros e [= <-]. split; [done|]. by apply Hraise1.
Qed.

(** When every workflow can be executed, and with the stop event not set,
    the thread recovers the whole list in one pass and ends. *)
Theorem startup_recovery_thread_drains (others : tables -> tables)
    (later : list bool) (stop : bool)
    (pending_workflows : list GetPendingWorkflowsOutput) (s : t) :
  (forall id s0, exists h, fst (execute_workflow_by_id id s0) = Return h) ->
  exists s',
    startup_recovery_thread WorkflowHandle execute_workflow_by_id
      is_function_not_found others (false :: stop :: later) pending_workflows s
    = Some (Return tt, [], s').
Proof.
  intros Hok.
  assert (Hpass : forall snapshot s0, exists s1,
    recover_snapshot WorkflowHandle execute_workflow_by_id snapshot snapshot s0
    = (Return tt, [], s1)).
  { induction snapshot as [|pw tl IH]; intros s0; [by exists s0|].
    cbn. destruct (Hok (pw_workflow_uuid pw) s0) as [h Hh].
    destruct (execute_workflow_by_id (pw_workflow_uuid pw) s0) as [o s1].
    cbn in Hh. subst o. rewrite String.eqb_refl. apply IH. }
  cbn [startup_recovery_thread negb andb].
  destruct pending_workflows as [|pw tl].
  - exists s. done.
  - replace (0 <? Z.of_nat (length (pw :: tl))) with true
      by (symmetry; apply Z.ltb_lt; cbn [length]; lia).
    cbn [negb]. destruct (Hpass (pw :: tl) s) as [s1 ->].
    exists s1. cbn [length Z.of_nat Z.ltb Z.compare]. by destruct stop.
Qed.

End startup_properties.
End StartupProperties.

(** ** A single-transaction workflow through the buffered writer *)

Lemma update_workflow_status_eq now_ms st replace in_recovery conn (s : t) :
  update_workflow_status now_ms st replace in_recovery conn s
  = (Return tt,
     tracked (workflow_uuid st)
       (set_db (upserted now_ms st replace in_recovery (db s))
          (send_statement (UpsertWorkflowStatus (workflow_uuid st)) s))).
Proof.
  unfold update_workflow_status, bind, modify, on_connection, transaction, execute,
    insert_workflow_status, on_conflict_row, ret, tracked, upserted.
  cbn [ws_workflow_uuid inserted_row]. fields.
  assert (Hid : forall l : list workflow_status_row,
             map (fun r => if String.eqb (ws_workflow_uuid r) (workflow_uuid st)
                           then r else r) l = l).
  { intros l. rewrite <- (map_id l) at 2. apply map_ext. intros r.
    by destruct (String.eqb _ _). }
  destruct conn; fields;
    destruct (has_workflow (workflow_uuid st) (db s)), replace, in_recovery;
    fields; destruct (decide (workflow_uuid st ∈ _temp_txn_wf_ids s));
    fields; rewrite ?Hid, ?with_workflow_status_same; try reflexivity.
  all: by destruct s.
Qed.

Lemma flush_status_loop_one now_ms fault d0 wf st es (s : t) :
  _workflow_status_buffer s = [(wf, st)] ->
  fault wf = None ->
  flush_status_loop now_ms fault d0 [wf] 0 es s
  = snd (update_workflow_status now_ms st true false (Some Connection)
           (set_status_buffer [] s)).
Proof.
  intros Hb Hf. cbn [flush_status_loop].
  change (0 <? buffer_flush_batch_size) with true. cbn [negb].
  unfold PyDict.pop. rewrite Hb. cbn [PyDict.get PyDict.remove].
  rewrite String.eqb_refl. unfold bind at 1, failing. rewrite Hf. unfold ret.
  rewrite update_workflow_status_eq. cbn [snd].
  by destruct (negb (0 + 1 <? buffer_flush_batch_size)).
Qed.

Lemma flush_inputs_loop_one fault d0 wf inputs ei (s : t) :
  _workflow_inputs_buffer s = [(wf, inputs)] ->
  wf ∈ _exported_temp_txn_wf_status s ->
  fault wf = None ->
  has_workflow wf (db s) = true ->
  flush_inputs_loop fault d0 [wf] 0 ei s
  = snd (update_workflow_inputs wf inputs (Some Connection)
           (set_inputs_buffer [] s))
  /\ fst (update_workflow_inputs wf inputs (Some Connection)
            (set_inputs_buffer [] s)) = Return tt.
Proof.
  intros Hb Hex Hf Hw. cbn [flush_inputs_loop].
  change (0 <? buffer_flush_batch_size) with true. cbn [negb].
  rewrite decide_False by (by intros Hout).
  unfold PyDict.pop. rewrite Hb. cbn [PyDict.get PyDict.remove].
  rewrite String.eqb_refl. unfold bind at 1, failing. rewrite Hf. unfold ret.
  rewrite update_workflow_inputs_eq. fields. rewrite Hw.
  destruct (has_inputs wf (db s)); cbn [fst snd];
    by destruct (negb (0 + 1 <? buffer_flush_batch_size)).
Qed.

(** A workflow whose status and inputs were buffered, in that order, with
    nothing else in the buffers: one pass of [flush_workflow_buffers]
    without a failing statement leaves both buffers empty, the status in
    the workflow's [workflow_status] row and an inputs row in
    [workflow_inputs], and the workflow in neither tracking set. *)
Theorem temp_workflow_is_flushed (now_ms : Z)
    (status_fault inputs_fault : string -> option exn)
    (st : WorkflowStatusInternal) (inputs : string) (s : t) :
  _workflow_status_buffer s = [] ->
  _workflow_inputs_buffer s = [] ->
  status_fault (workflow_uuid st) = None ->
  inputs_fault (workflow_uuid st) = None ->
  let uuid := workflow_uuid st in
  let s1 := snd (buffer_workflow_status st s) in
  let s2 := snd (buffer_workflow_inputs uuid inputs s1) in
  let s3 := snd (flush_workflow_buffers now_ms status_fault inputs_fault s2) in
  fst (flush_workflow_buffers now_ms status_fault inputs_fault s2) = Return tt
  /\ _workflow_status_buffer s3 = []
  /\ _workflow_inputs_buffer s3 = []
  /\ flushed st (db s3)
  /\ has_inputs uuid (db s3) = true
  /\ (uuid ∉ _temp_txn_wf_ids s3)
  /\ (uuid ∉ _exported_temp_txn_wf_status s3)
  /\ _is_flushing_status_buffer s3 = false.
Proof.
  intros Hsb Hib Hsf Hif. cbv zeta.
  unfold buffer_workflow_status, buffer_workflow_inputs, modify, bind.
  cbn [fst snd]. fields. rewrite Hsb, Hib. cbn [PyDict.set].
  set (s2 := set_temp _ _).
  set (sA := set_is_flushing true s2).
  set (sB := snd (update_workflow_status now_ms st true false (Some Connection)
                    (set_status_buffer [] sA))).
  set (sC := snd (update_workflow_inputs (workflow_uuid st) inputs (Some Connection)
                    (set_inputs_buffer [] sB))).
  assert (Hstatus : _flush_workflow_status_buffer now_ms status_fault sA
                    = (Return tt, sB)).
  { unfold _flush_workflow_status_buffer. subst sA s2. fields.
    cbn [length Z.of_nat Z.eqb Pos.of_succ_nat PyDict.keys map fst].
    by rewrite (flush_status_loop_one _ _ _ _ st). }
  assert (HB : sB = tracked (workflow_uuid st)
                      (set_db (upserted now_ms st true false (db s))
                         (send_statement (UpsertWorkflowStatus (workflow_uuid st))
                            (set_status_buffer [] sA)))).
  { subst sB. by rewrite update_workflow_status_eq. }
  assert (Hfl : flushed st (db sB)) by apply flushed_after_update.
  assert (HwB : has_workflow (workflow_uuid st) (db sB) = true).
  { destruct Hfl as [Hne _].
    destruct (has_workflow (workflow_uuid st) (db sB)) eqn:Hw; [done|].
    by apply has_workflow_select in Hw. }
  assert (Hin_temp : workflow_uuid st ∈ {[workflow_uuid st]} ∪ _temp_txn_wf_ids s)
    by (apply elem_of_union_l; by apply elem_of_singleton).
  assert (HBproj : _workflow_inputs_buffer sB = [(workflow_uuid st, inputs)]
                   /\ _workflow_status_buffer sB = []
                   /\ workflow_uuid st ∈ _exported_temp_txn_wf_status sB
                   /\ _temp_txn_wf_ids sB = {[workflow_uuid st]} ∪ _temp_txn_wf_ids s
                   /\ _is_flushing_status_buffer sB = true).
  { rewrite HB. unfold tracked. subst sA s2. fields.
    rewrite decide_True by done. fields. repeat split; try done.
    apply elem_of_union_l. by apply elem_of_singleton. }
  destruct HBproj as (HBi & HBs & HBe & HBt & HBf).
  destruct (flush_inputs_loop_one inputs_fault (db sB) (workflow_uuid st) inputs []
              sB HBi HBe Hif HwB) as [Hloop Hret].
  assert (Hinputs : _flush_workflow_inputs_buffer inputs_fault sB = (Return tt, sC)).
  { unfold _flush_workflow_inputs_buffer. rewrite HBi.
    cbn [length Z.of_nat Z.eqb Pos.of_succ_nat PyDict.keys map fst].
    by rewrite Hloop. }
  assert (Hrun : flush_workflow_buffers now_ms status_fault inputs_fault s2
                 = (Return tt, set_is_flushing false sC)).
  { unfold flush_workflow_buffers, try_except. unfold bind at 1.
    unfold modify at 1. unfold bind at 1. fold sA. rewrite Hstatus.
    unfold bind at 1. by rewrite Hinputs. }
  rewrite Hrun. cbn [fst snd]. split; [done|]. fields.
  assert (HC : sC = untracked (workflow_uuid st)
                      (set_db (if has_inputs (workflow_uuid st) (db sB) then db sB
                               else with_workflow_inputs
                                      (workflow_inputs (db sB) ++
                                         [{| wi_workflow_uuid := workflow_uuid st;
                                             wi_inputs := inputs |}]) (db sB))
                         (send_statement (InsertWorkflowInputs (workflow_uuid st))
                            (set_inputs_buffer [] sB)))).
  { subst sC. rewrite update_workflow_inputs_eq. fields. rewrite HwB.
    destruct (has_inputs (workflow_uuid st) (db sB)); cbn [snd]; [|done].
    by f_equal. }
  rewrite HC. unfold untracked. fields. rewrite HBt, decide_True by done. fields.
  rewrite HBs. split; [done|]. split; [done|]. split; [|split; [|split; [|split]]].
  - destruct (has_inputs (workflow_uuid st) (db sB)); [done|]. exact Hfl.
  - destruct (has_inputs (workflow_uuid st) (db sB)) eqn:Hi; [done|].
    unfold has_inputs. cbn [workflow_inputs with_workflow_inputs].
    rewrite existsb_app. cbn. by rewrite String.eqb_refl, orb_true_r.
  - apply not_elem_of_difference. right. by apply elem_of_singleton.
  - apply not_elem_of_difference. right. by apply elem_of_singleton.
  - done.
Qed.

(** ** The dispatcher, turn by turn *)

Module QueueProperties.
Import Queue.

Section dispatcher_properties.
Variable start_queued_workflows_sync : Queue -> M (list string).
Variable WorkflowHandle : Type.
Variable execute_workflow_id : string -> M WorkflowHandle.

Local Abbreviation execute_each := (execute_each WorkflowHandle execute_workflow_id).
Local Abbreviation queue_turn :=
  (queue_turn start_queued_workflows_sync WorkflowHandle execute_workflow_id).
Local Abbreviation queue_thread_pass :=
  (queue_thread_pass start_queued_workflows_sync WorkflowHandle execute_workflow_id).

(** The ids handed over in a turn are all the ids, or those up to the one
    whose execution raised. *)
Lemma execute_each_handed : forall wf_ids (s : t) handed warning s',
  execute_each wf_ids s = (handed, warning, s') ->
  (warning = None -> handed = wf_ids)
  /\ (forall e, warning = Some e ->
        exists before id after s0,
          wf_ids = before ++ id :: after
          /\ handed = before ++ [id]
          /\ fst (execute_workflow_id id s0) = Raise e).
Proof.
  induction wf_ids as [|id ids IH]; intros s handed warning s' Hrun;
    cbn [Queue.execute_each] in Hrun.
  - injection Hrun as <- <- <-. by split.
  - destruct (execute_workflow_id id s) as [[h|e] s1] eqn:Hex.
    + destruct (execute_each ids s1) as [[handed1 warning1] s2] eqn:Hrest.
      injection Hrun as <- <- <-.
      destruct (IH s1 handed1 warning1 s2 Hrest) as [Hall Hraise]. split.
      * intros Hnone. by rewrite Hall.
      * intros e He. destruct (Hraise e He) as (before & x & after & s0 & -> & -> & Hx).
        by exists (id :: before), x, after, s0.
    + injection Hrun as <- <- <-. split; [done|]. intros e' [= <-].
      exists [], id, ids, s. by rewrite Hex.
Qed.

Lemma queue_thread_pass_app : forall registry registry' (s : t),
  queue_thread_pass (registry ++ registry') s
  = (fst (fst (queue_thread_pass registry s))
       ++ fst (fst (queue_thread_pass registry'
                      (snd (queue_thread_pass registry s)))),
     snd (fst (queue_thread_pass registry s))
       ++ snd (fst (queue_thread_pass registry'
                      (snd (queue_thread_pass registry s)))),
     snd (queue_thread_pass registry' (snd (queue_thread_pass registry s)))).
Proof.
  induction registry as [|[k q] rest IH]; intros registry' s.
  - cbn. by destruct (queue_thread_pass registry' s) as [[h w] s'].
  - cbn [app Queue.queue_thread_pass].
    destruct (queue_turn q s) as [[handed warning] s1].
    rewrite IH.
    destruct (queue_thread_pass rest s1) as [[h1 w1] s2].
    cbn [fst snd].
    destruct (queue_thread_pass registry' s2) as [[h2 w2] s3].
    cbn [fst snd]. rewrite app_assoc. by destruct warning.
Qed.

(** A pass of [queue_thread] gives every registered queue its turn, in the
    order of the registry, whatever happened in the turns before: the pass
    over a registry is the pass over its first part, then the pass over the
    rest from the state reached. A turn in which
    [start_queued_workflows_sync] raises hands no workflow to the executor
    and logs the exception. A turn in which the executor raises ends at
    that workflow: the ids before it and its own were handed over, the ids
    after it are not, and the exception is logged. Otherwise every id
    [start_queued_workflows_sync] returned is handed over, in order. A pass
    logs at most one exception per queue. *)
Theorem queue_thread_pass_turn_by_turn (registry registry' : PyDict.t Queue)
    (s : t) :
  queue_thread_pass (registry ++ registry') s
  = (fst (fst (queue_thread_pass registry s))
       ++ fst (fst (queue_thread_pass registry'
                      (snd (queue_thread_pass registry s)))),
     snd (fst (queue_thread_pass registry s))
       ++ snd (fst (queue_thread_pass registry'
                      (snd (queue_thread_pass registry s)))),
     snd (queue_thread_pass registry' (snd (queue_thread_pass registry s))))
  /\ (forall k queue e s1,
        start_queued_workflows_sync queue s = (Raise e, s1) ->
        queue_thread_pass [(k, queue)] s = ([], [e], s1))
  /\ (forall k queue wf_ids s1 handed warnings s2,
        start_queued_workflows_sync queue s = (Return wf_ids, s1) ->
        queue_thread_pass [(k, queue)] s = (handed, warnings, s2) ->
        (warnings = [] /\ handed = wf_ids)
        \/ (exists e before id after s0,
              warnings = [e]
              /\ wf_ids = before ++ id :: after
              /\ handed = before ++ [id]
              /\ fst (execute_workflow_id id s0) = Raise e))
  /\ (length (snd (fst (queue_thread_pass registry s))) <= length registry)%nat.
Proof.
  split; [apply queue_thread_pass_app|]. split; [|split].
  - intros k queue e s1 Hsync. cbn [Queue.queue_thread_pass].
    unfold Queue.queue_turn. by rewrite Hsync.
  - intros k queue wf_ids s1 handed warnings s2 Hsync.
    cbn [Queue.queue_thread_pass]. unfold Queue.queue_turn. rewrite Hsync.
    destruct (execute_each wf_ids s1) as [[handed1 warning1] s3] eqn:Hturn.
    destruct (execute_each_handed _ _ _ _ _ Hturn) as [Hall Hraise].
    rewrite app_nil_r. destruct warning1 as [e|]; intros [= <- <- <-].
    + right. destruct (Hraise e eq_refl) as (before & id & after & s0 & H1 & H2 & H3).
      by exists e, before, id, after, s0.
    + left. by split; [|apply Hall].
  - clear registry'. revert s.
    induction registry as [|[k q] rest IH]; intros s; [done|].
    cbn [Queue.queue_thread_pass].
    destruct (queue_turn q s) as [[handed warning] s1].
    specialize (IH s1).
    destruct (queue_thread_pass rest s1) as [[h1 w1] s2].
    cbn [fst snd length] in *. destruct warning; cbn [length]; lia.
Qed.

End dispatcher_properties.
End QueueProperties.

(** * Further scenarios *)

Module MoreScenarios.
Import Fixtures.
#[local] Existing Instance tagged_serializer.

(** A journaled step keeps its first result when a second one is
    recorded under its key. *)
Lemma operation_journal_write_once_witness :
  let first := {| or_workflow_uuid := "W1"; or_function_id := 3;
                  or_output := Some "a"; or_error := None |} in
  let second := {| or_workflow_uuid := "W1"; or_function_id := 3;
                   or_output := Some "b"; or_error := None |} in
  let s1 := snd (record_operation_result first None (init one_pending)) in
  fst (check_operation_execution "W1" 3 None
         (snd (record_operation_result second None s1)))
  = Return (Some {| rr_output := Some "a"; rr_error := None |}).
Proof.
  cbv zeta.
  destruct (operation_journal_write_once "W1" 3
              {| rr_output := Some "a"; rr_error := None |}
              {| or_workflow_uuid := "W1"; or_function_id := 3;
                 or_output := Some "b"; or_error := None |}
              None None None
              (snd (record_operation_result
                      {| or_workflow_uuid := "W1"; or_function_id := 3;
                         or_output := Some "a"; or_error := None |}
                      None (init one_pending)))) as [Hkept _].
  - reflexivity.
  - exact Hkept.
Defined.

Lemma record_then_check_witness :
  fst (check_operation_execution "W1" 3 None
         (snd (record_operation_result
                 {| or_workflow_uuid := "W1"; or_function_id := 3;
                    or_output := Some "a"; or_error := None |}
                 None (init one_pending))))
  = Return (Some {| rr_output := Some "a"; rr_error := None |}).
Proof.
  destruct (record_then_check
              {| or_workflow_uuid := "W1"; or_function_id := 3;
                 or_output := Some "a"; or_error := None |}
              None None (init one_pending)) as [_ Hread].
  - by right.
  - reflexivity.
  - reflexivity.
  - exact Hread.
Defined.

Lemma transaction_journal_write_once_witness :
  let a := {| ApplicationDatabase.workflow_uuid := "W";
              ApplicationDatabase.function_id := 1;
              ApplicationDatabase.output := Some "o";
              ApplicationDatabase.error := None;
              ApplicationDatabase.txn_id := None;
              ApplicationDatabase.txn_snapshot := "10:20:";
              ApplicationDatabase.executor_id := None |} in
  let b := {| ApplicationDatabase.workflow_uuid := "W";
              ApplicationDatabase.function_id := 1;
              ApplicationDatabase.output := Some "p";
              ApplicationDatabase.error := None;
              ApplicationDatabase.txn_id := None;
              ApplicationDatabase.txn_snapshot := "10:20:";
              ApplicationDatabase.executor_id := None |} in
  let session := {| ApplicationDatabase.transaction_outputs := [];
                    ApplicationDatabase.pg_current_xact_id_if_assigned := Some "731" |} in
  let session1 := snd (ApplicationDatabase.record_transaction_output session a) in
  ApplicationDatabase.check_transaction_execution
    (snd (ApplicationDatabase.record_transaction_output session1 b)) "W" 1
  = Some {| rr_output := Some "o"; rr_error := None |}.
Proof.
  cbv zeta.
  refine (proj1 (AppDBRoundTrip.transaction_journal_write_once _ "W" 1 _ _ _)).
  reflexivity.
Defined.

Lemma enqueue_is_idempotent_witness :
  job_queue (db (snd (enqueue 5 "W1" "q" (init one_pending))))
  = [{| jq_workflow_uuid := "W1"; jq_queue_name := "q";
        jq_created_at_epoch_ms := 5 |}]
  /\ enqueue 7 "W1" "other" (snd (enqueue 5 "W1" "q" (init one_pending)))
     = (Return tt, snd (enqueue 5 "W1" "q" (init one_pending))).
Proof.
  split; [reflexivity|].
  refine (proj2 (proj2 (proj2 (proj2
            (enqueue_is_idempotent 5 7 "W1" "q" "other" (init one_pending) _ _))))).
  - apply NoDup_nil_2.
  - reflexivity.
Defined.


Lemma set_event_then_get_event_witness :
  let st := {| WorkflowEvents.sysdb := init one_pending;
               WorkflowEvents.workflow_events := [] |} in
  let st1 := snd (WorkflowEvents.set_event "W1" 1 "k" (PyInt 42) st) in
  WorkflowEvents.get_event (fun d => d) (fun x => x) 0 0 "W1" "k" 60 None st1
  = (Return (deserialize (serialize (PyInt 42))), st1).
Proof.
  cbv zeta.
  refine (proj1 (proj2 (EventProperties.set_event_then_get_event "W1" 1 "k"
                          (PyInt 42) _ _)) _ _ _ _ _).
  reflexivity.
Defined.

Lemma status_flush_loses_nothing_witness :
  let s := snd (buffer_workflow_status (internal_status "W" "PENDING") (init empty)) in
  let s' := snd (_flush_workflow_status_buffer 0
                   (fun _ => Some (DBAPIError "08006")) s) in
  PyDict.get "W" (_workflow_status_buffer s') = Some (internal_status "W" "PENDING")
  \/ (PyDict.get "W" (_workflow_status_buffer s') = None
      /\ flushed (internal_status "W" "PENDING") (db s')).
Proof.
  cbv zeta.
  refine (proj1 (proj2 (proj2 (status_flush_loses_nothing 0
                                 (fun _ => Some (DBAPIError "08006")) _ _)))
            "W" _ _).
  - split; [apply (bool_decide_unpack _); vm_compute; exact I|].
    by repeat constructor.
  - reflexivity.
Defined.

Lemma buffered_status_is_flushed_witness :
  let s2 := snd (_flush_workflow_status_buffer 0 (fun _ => None)
                   (snd (buffer_workflow_status (internal_status "W1" "SUCCESS")
                           (init one_pending)))) in
  _workflow_status_buffer s2 = []
  /\ flushed (internal_status "W1" "SUCCESS") (db s2).
Proof.
  cbv zeta.
  destruct (buffered_status_is_flushed 0 (fun _ => None)
              (internal_status "W1" "SUCCESS") (init one_pending))
    as (_ & _ & _ & _ & Hflush).
  - split; [apply NoDup_nil_2|apply Forall_nil_2].
  - destruct Hflush as (Hempty & Hfl & _).
    + unfold buffer_flush_batch_size.
      cbn [init _workflow_status_buffer length]. lia.
    + done.
    + by split.
Defined.

Lemma inputs_flush_loses_nothing_witness :
  let s' := snd (_flush_workflow_inputs_buffer (fun _ => None)
                   buffered_inputs_only) in
  PyDict.get "W" (_workflow_inputs_buffer s') = Some "{}"
  \/ (PyDict.get "W" (_workflow_inputs_buffer s') = None
      /\ has_inputs "W" (db s') = true).
Proof.
  cbv zeta.
  refine (proj1 (proj2 (proj2 (inputs_flush_loses_nothing (fun _ => None)
                                 buffered_inputs_only _))) "W" _ _).
  - apply (bool_decide_unpack _). vm_compute. exact I.
  - reflexivity.
Defined.

Lemma recv_result_is_replayed_witness :
  let first := recv (fun d => d) (fun d => d) 0 0 "W" 1 2 (Some "t") 60
                 (init ordered_notifications) in
  recv (fun d => d) (fun d => d) 9 9 "W" 1 2 (Some "u") 5
    (set_db (db (snd first)) (snd first))
  = (Return (deserialize (serialize (PyInt 42))),
     set_db (db (snd first)) (snd first)).
Proof.
  cbv zeta.
  refine (recv_result_is_replayed (fun d => d) (fun d => d) 0 0 "W" 1 2 (Some "t")
            60 (init ordered_notifications) _ (PyInt 42) _ _
            (fun d => d) (fun d => d) 9 9 2 (Some "u") 5 (fun d => d) _).
  - reflexivity.
  - vm_compute. reflexivity.
  - done.
Defined.

Lemma send_then_recv_delivers_witness :
  fst (recv (fun d => d) (fun d => d) 0 0 "W1" 1 2 (Some "t") 60
         (snd (send None None 100 "W2" 1 "W1" (PyInt 42) (Some "t")
                 (init two_pending))))
  = Return (deserialize (serialize (PyInt 42))).
Proof.
  refine (proj1 (send_then_recv_delivers 100 "W2" 1 "W1" (PyInt 42) (Some "t")
                   (fun d => d) (fun d => d) 0 0 1 2 60 (init two_pending)
                   _ _ _ _ _ _)); try reflexivity.
  intros Heq. discriminate Heq.
Defined.

(** The second workflow fails for good: the first one is off the list, the
    failing one still heads it. *)
Lemma startup_recovery_thread_end_witness :
  exists recovered,
    [{| Recovery.pw_workflow_uuid := "W1" |}; {| Recovery.pw_workflow_uuid := "W2" |}]
    = recovered ++ [{| Recovery.pw_workflow_uuid := "W2" |}].
Proof.
  refine (proj1 (StartupProperties.startup_recovery_thread_end string
                   (fun id : string =>
                      if String.eqb id "W2" then raise (PyException "boom")
                      else ret id)
                   (fun _ => false) (fun d => d) [false; false]
                   [{| Recovery.pw_workflow_uuid := "W1" |};
                    {| Recovery.pw_workflow_uuid := "W2" |}]
                   (init two_pending) (Raise (PyException "boom"))
                   [{| Recovery.pw_workflow_uuid := "W2" |}]
                   (init two_pending) _)).
  reflexivity.
Defined.

Lemma startup_recovery_thread_drains_witness :
  exists s',
    Recovery.startup_recovery_thread string (fun id => ret id) (fun _ => false)
      (fun d => d) [false; false]
      [{| Recovery.pw_workflow_uuid := "W1" |}; {| Recovery.pw_workflow_uuid := "W2" |}]
      (init two_pending)
    = Some (Return tt, [], s').
Proof.
  refine (StartupProperties.startup_recovery_thread_drains string (fun id => ret id)
            (fun _ => false) (fun d => d) [] false _ (init two_pending) _).
  intros id s0. by exists id.
Defined.

Lemma temp_workflow_is_flushed_witness :
  let s3 := snd (flush_workflow_buffers 0 (fun _ => None) (fun _ => None)
                   buffered_status_and_inputs) in
  _workflow_status_buffer s3 = [] /\ _workflow_inputs_buffer s3 = []
  /\ has_inputs "W" (db s3) = true.
Proof.
  cbv zeta.
  destruct (temp_workflow_is_flushed 0 (fun _ => None) (fun _ => None)
              (internal_status "W" "PENDING") "{}" (init empty))
    as (_ & Hs & Hi & _ & Hrow & _); try reflexivity.
  by split; [|split].
Defined.

End MoreScenarios.
